(** * ckanext-doi: metadata extraction and projection

    A shallow embedding of [ckanext/doi/lib/metadata.py]:
    [build_metadata_dict] (the field extractor, its extension pass and the
    required-field enforcement) and [build_xml_dict] (the schema projector).

    Python values are a small tagged union, a [dict] is an association list
    in insertion order, exceptions are an explicit [result], and the
    mutable locals of [build_metadata_dict] ([required], [optional],
    [errors], [date_errors]) are one record threaded through a state and
    exception monad. *)

From Stdlib Require Import ZArith NArith List String Ascii Bool Lia DecimalString.
From Stdlib Require Import Floats.SpecFloat.
From Stdlib Require OrderedTypeEx Sorted.
Import ListNotations.
Open Scope string_scope.
Open Scope list_scope.

(** ** Values and exceptions *)

(** The exception classes the code can meet.  All of them derive from
    [Exception]; [OtherException] stands for any class that is none of the
    named ones and derives from none of them. *)
Inductive exn_kind : Set :=
| ValueError
| KeyError
| IndexError
| TypeError
| AttributeError
| OverflowError
| SyntaxError
| DOIMetadataException
| OtherException.

(** The values a source record, a literal or a metadata record is made of:
    [None], booleans, integers, floats, texts, lists and dictionaries with
    text keys.  A text is held as the UTF-8 encoding of its code points
    (see Texts below).  [VObj cls text] is an opaque object (a [datetime], say) of class
    [cls] whose [str()] is [text]; [VExc k msg] is an exception instance of
    class [k], as the error maps store them, and [msg] its [str()].
    Tuples, sets, bytes and dictionaries with other keys are not modelled. *)
#[warnings="-register-all"]
Inductive pyval : Type :=
| VNone
| VBool (b : bool)
| VInt (z : Z)
| VFloat (f : spec_float)
| VStr (s : string)
| VList (l : list pyval)
| VDict (d : list (string * pyval))
| VObj (cls text : string)
| VExc (k : exn_kind) (msg : string).

Definition dict : Type := list (string * pyval).

Inductive result (A : Type) : Type :=
| Ok (a : A)
| Raise (k : exn_kind) (msg : string).
Arguments Ok {A} a.
Arguments Raise {A} k msg.

Definition rbind {A B} (r : result A) (f : A -> result B) : result B :=
  match r with
  | Ok a => f a
  | Raise k msg => Raise k msg
  end.

Declare Scope result_scope.
Delimit Scope result_scope with result.
Notation "x <- r ;; k" := (rbind r (fun x => k))
  (at level 61, r at next level, right associativity) : result_scope.

Fixpoint mapM {A B} (f : A -> result B) (l : list A) : result (list B) :=
  match l with
  | [] => Ok []
  | x :: l' =>
      match f x with
      | Ok y =>
          match mapM f l' with
          | Ok ys => Ok (y :: ys)
          | Raise k msg => Raise k msg
          end
      | Raise k msg => Raise k msg
      end
  end.

(** ** Dictionaries: association lists in insertion order *)

Fixpoint dict_get (k : string) (d : dict) : option pyval :=
  match d with
  | [] => None
  | (k', v) :: d' => if String.eqb k k' then Some v else dict_get k d'
  end.

(** [d[k] = v]: an existing key keeps its place, a new one goes last. *)
Fixpoint dict_set (k : string) (v : pyval) (d : dict) : dict :=
  match d with
  | [] => [(k, v)]
  | (k', v') :: d' =>
      if String.eqb k k' then (k', v) :: d' else (k', v') :: dict_set k v d'
  end.

Definition dict_keys (d : dict) : list string := map fst d.

(** [k in d] *)
Definition dict_mem (k : string) (d : dict) : bool :=
  match dict_get k d with Some _ => true | None => false end.

(** [d.update(other)] *)
Definition dict_update (d other : dict) : dict :=
  fold_left (fun acc kv => dict_set (fst kv) (snd kv) acc) other d.

(** [d.get(k)] and [d.get(k, default)] *)
Definition py_get (d : dict) (k : string) : pyval :=
  match dict_get k d with Some v => v | None => VNone end.

Definition py_get_default (d : dict) (k : string) (default : pyval) : pyval :=
  match dict_get k d with Some v => v | None => default end.

(** ** Texts

    A Python [str] is a sequence of code points.  A text is held here as
    the UTF-8 encoding of its code points: an ASCII text is its own bytes,
    two texts are equal when their bytes are, and [String.compare] orders
    texts as Python does, by code point.  Length, indexing, slicing and
    iteration go by character, not by byte. *)

(** A byte [10xxxxxx], which continues a character. *)
Definition is_continuation (c : ascii) : bool :=
  let n := N_of_ascii c in ((128 <=? n) && (n <=? 191))%N.

Definition starts_with_continuation (w : string) : bool :=
  match w with
  | String c _ => is_continuation c
  | EmptyString => false
  end.

(** The characters of a text: each is a byte that starts a character and
    the continuation bytes that follow it. *)
Fixpoint characters (s : string) : list string :=
  match s with
  | EmptyString => []
  | String c s' =>
      match characters s' with
      | w :: ws =>
          if starts_with_continuation w then String c w :: ws
          else String c EmptyString :: w :: ws
      | [] => [String c EmptyString]
      end
  end.

Definition concat_texts (ws : list string) : string :=
  fold_right String.append "" ws.

(** [len(s)] *)
Definition text_length (s : string) : nat := List.length (characters s).

(** [s[:n]] *)
Definition text_prefix (n : nat) (s : string) : string :=
  concat_texts (firstn n (characters s)).

(** The bits of the code point that the first byte of a character holds. *)
Definition lead_payload (c : ascii) : N :=
  let n := N_of_ascii c in
  if (n <? 128)%N then n
  else if (n <? 224)%N then N.land n 31
  else if (n <? 240)%N then N.land n 15
  else N.land n 7.

(** The code point of a character. *)
Definition code_point (w : string) : N :=
  match w with
  | EmptyString => 0%N
  | String c rest =>
      fold_left (fun acc b => (acc * 64 + N.land (N_of_ascii b) 63)%N)
        (list_ascii_of_string rest) (lead_payload c)
  end.

(** The character of a code point: its UTF-8 encoding. *)
Definition utf8 (cp : N) : string :=
  let byte n := ascii_of_N n in
  (if cp <? 128 then String (byte cp) ""
   else if cp <? 2048 then
     String (byte (192 + cp / 64)) (String (byte (128 + cp mod 64)) "")
   else if cp <? 65536 then
     String (byte (224 + cp / 4096))
       (String (byte (128 + (cp / 64) mod 64))
          (String (byte (128 + cp mod 64)) ""))
   else
     String (byte (240 + cp / 262144))
       (String (byte (128 + (cp / 4096) mod 64))
          (String (byte (128 + (cp / 64) mod 64))
             (String (byte (128 + cp mod 64)) ""))))%N.

(** The text made of the given code points. *)
Definition text_of (cps : list N) : string := concat_texts (map utf8 cps).

(** The code points Python can put in a [str]. *)
Definition is_code_point (cp : N) : Prop := (cp < 1114112)%N.

(** The code points [str.isdecimal] accepts (those whose Unicode numeric
    type is Decimal), as blocks from the first to the last: the table of
    Unicode 14.0, which CPython 3.11 carries. *)
Definition decimal_blocks : list (N * N) :=
  [
    (48, 57); (1632, 1641); (1776, 1785); (1984, 1993);
    (2406, 2415); (2534, 2543); (2662, 2671); (2790, 2799);
    (2918, 2927); (3046, 3055); (3174, 3183); (3302, 3311);
    (3430, 3439); (3558, 3567); (3664, 3673); (3792, 3801);
    (3872, 3881); (4160, 4169); (4240, 4249); (6112, 6121);
    (6160, 6169); (6470, 6479); (6608, 6617); (6784, 6793);
    (6800, 6809); (6992, 7001); (7088, 7097); (7232, 7241);
    (7248, 7257); (42528, 42537); (43216, 43225); (43264, 43273);
    (43472, 43481); (43504, 43513); (43600, 43609); (44016, 44025);
    (65296, 65305); (66720, 66729); (68912, 68921); (69734, 69743);
    (69872, 69881); (69942, 69951); (70096, 70105); (70384, 70393);
    (70736, 70745); (70864, 70873); (71248, 71257); (71360, 71369);
    (71472, 71481); (71904, 71913); (72016, 72025); (72784, 72793);
    (73040, 73049); (73120, 73129); (92768, 92777); (92864, 92873);
    (93008, 93017); (120782, 120831); (123200, 123209); (123632, 123641);
    (125264, 125273); (130032, 130041)
  ]%N.

Definition decimal_code_point (cp : N) : bool :=
  existsb (fun b => (fst b <=? cp)%N && (cp <=? snd b)%N) decimal_blocks.

(** A character that is a decimal digit: the encoding of a decimal code
    point. *)
Definition is_decimal (w : string) : bool :=
  let cp := code_point w in String.eqb (utf8 cp) w && decimal_code_point cp.

(** [str.isdecimal]: at least one character, all of them decimal digits. *)
Definition isdecimal (s : string) : bool :=
  negb (String.eqb s "") && forallb is_decimal (characters s).

(** ** The Python operations the module uses

    The messages of the errors are those of CPython 3.10. *)

Definition exn_name (k : exn_kind) : string :=
  match k with
  | ValueError => "ValueError"
  | KeyError => "KeyError"
  | IndexError => "IndexError"
  | TypeError => "TypeError"
  | AttributeError => "AttributeError"
  | OverflowError => "OverflowError"
  | SyntaxError => "SyntaxError"
  | DOIMetadataException => "DOIMetadataException"
  | OtherException => "Exception"
  end.

(** The name of the type of [v], as the messages give it. *)
Definition type_name (v : pyval) : string :=
  match v with
  | VNone => "NoneType"
  | VBool _ => "bool"
  | VInt _ => "int"
  | VFloat _ => "float"
  | VStr _ => "str"
  | VList _ => "list"
  | VDict _ => "dict"
  | VObj cls _ => cls
  | VExc k _ => exn_name k
  end.

Definition quoted (s : string) : string := "'" ++ s ++ "'".

Definition not_subscriptable (v : pyval) : string :=
  quoted (type_name v) ++ " object is not subscriptable".

Definition no_attribute (v : pyval) (name : string) : string :=
  quoted (type_name v) ++ " object has no attribute " ++ quoted name.

(** [v is None] *)
Definition is_none (v : pyval) : bool :=
  match v with VNone => true | _ => false end.

(** [v == 'text'] for a string constant *)
Definition py_eq_str (v : pyval) (s : string) : bool :=
  match v with VStr s' => String.eqb s' s | _ => false end.

Definition float_is_zero (f : spec_float) : bool :=
  match f with S754_zero _ => true | _ => false end.

(** Truth value, as [or], [filter(None, ...)] and [if] take it. *)
Definition py_truthy (v : pyval) : bool :=
  match v with
  | VNone => false
  | VBool b => b
  | VInt z => negb (z =? 0)%Z
  | VFloat f => negb (float_is_zero f)
  | VStr s => negb (String.eqb s "")
  | VList l => match l with [] => false | _ => true end
  | VDict d => match d with [] => false | _ => true end
  | VObj _ _ => true
  | VExc _ _ => true
  end.

(** [a or b] *)
Definition py_or (a b : pyval) : pyval := if py_truthy a then a else b.

Definition chars_of (s : string) : list pyval := map VStr (characters s).

(** Position [i] of a sequence of length [n], negative indices counting
    from the end. *)
Definition norm_index (i : Z) (n : nat) : option nat :=
  let j := if (i <? 0)%Z then (i + Z.of_nat n)%Z else i in
  if ((0 <=? j) && (j <? Z.of_nat n))%Z then Some (Z.to_nat j) else None.

(** [v['key']] *)
Definition getitem (v : pyval) (key : string) : result pyval :=
  match v with
  | VDict d =>
      match dict_get key d with
      | Some x => Ok x
      | None => Raise KeyError (quoted key)
      end
  | VList _ => Raise TypeError "list indices must be integers or slices, not str"
  | VStr _ => Raise TypeError "string indices must be integers"
  | _ => Raise TypeError (not_subscriptable v)
  end.

(** [v[i]] for an integer constant [i] *)
Definition getindex (v : pyval) (i : Z) : result pyval :=
  match v with
  | VList l =>
      match norm_index i (List.length l) with
      | Some n =>
          match nth_error l n with
          | Some x => Ok x
          | None => Raise IndexError "list index out of range"
          end
      | None => Raise IndexError "list index out of range"
      end
  | VStr s =>
      match norm_index i (text_length s) with
      | Some n =>
          match nth_error (characters s) n with
          | Some c => Ok (VStr c)
          | None => Raise IndexError "string index out of range"
          end
      | None => Raise IndexError "string index out of range"
      end
  | VDict _ => Raise KeyError (NilZero.string_of_int (Z.to_int i))
  | _ => Raise TypeError (not_subscriptable v)
  end.

(** [for x in v]: the items the loop visits. *)
Definition py_iter (v : pyval) : result (list pyval) :=
  match v with
  | VList l => Ok l
  | VStr s => Ok (chars_of s)
  | VDict d => Ok (map VStr (dict_keys d))
  | _ => Raise TypeError (quoted (type_name v) ++ " object is not iterable")
  end.

(** [v.get('key')]: only a mapping has the method. *)
Definition method_get (v : pyval) (key : string) : result pyval :=
  match v with
  | VDict d => Ok (py_get d key)
  | _ => Raise AttributeError (no_attribute v "get")
  end.

(** [len(v)] *)
Definition py_len (v : pyval) : result nat :=
  match v with
  | VStr s => Ok (text_length s)
  | VList l => Ok (List.length l)
  | VDict d => Ok (List.length d)
  | _ => Raise TypeError ("object of type " ++ quoted (type_name v) ++ " has no len()")
  end.

(** [v[:n]].  On a [dict] the slice is rejected (as unhashable before
    Python 3.12, as a missing key from 3.12 on). *)
Definition slice_to (n : nat) (v : pyval) : result pyval :=
  match v with
  | VStr s => Ok (VStr (text_prefix n s))
  | VList l => Ok (VList (firstn n l))
  | VDict _ => Raise TypeError "unhashable type: 'slice'"
  | _ => Raise TypeError (not_subscriptable v)
  end.

(** [v.isdecimal()] *)
Definition method_isdecimal (v : pyval) : result bool :=
  match v with
  | VStr s => Ok (isdecimal s)
  | _ => Raise AttributeError (no_attribute v "isdecimal")
  end.

(** [s.split(sep)] for a one-character separator *)
Fixpoint split_on (sep : ascii) (s : string) : list string :=
  match s with
  | EmptyString => [EmptyString]
  | String c s' =>
      if Ascii.eqb c sep then EmptyString :: split_on sep s'
      else
        match split_on sep s' with
        | [] => [String c EmptyString]
        | w :: ws => String c w :: ws
        end
  end.

(** [v.split(',')] *)
Definition method_split_comma (v : pyval) : result (list pyval) :=
  match v with
  | VStr s => Ok (map VStr (split_on "," s))
  | _ => Raise AttributeError (no_attribute v "split")
  end.

(** [", ".join(ks)] *)
Fixpoint join (sep : string) (ks : list string) : string :=
  match ks with
  | [] => ""
  | [k] => k
  | k :: ks' => k ++ sep ++ join sep ks'
  end.

(** [str(z)] for an integer *)
Definition str_of_int (z : Z) : string := NilZero.string_of_int (Z.to_int z).

(** ** Numbers: Python floats are IEEE-754 binary64 *)

Definition prec : Z := 53.
Definition emax : Z := 1024.

(** [float(z)] for an integer: the nearest double, or [OverflowError]. *)
Definition float_of_int (z : Z) : result spec_float :=
  match binary_normalize prec emax z 0 false with
  | S754_infinity _ => Raise OverflowError "int too large to convert to float"
  | f => Ok f
  end.

(** [a / b] for an integer [a] and a positive integer constant [b]: the
    double nearest to the exact quotient, or [OverflowError]. *)
Definition int_truediv (a : Z) (b : positive) : result spec_float :=
  match a with
  | Z0 => Ok (S754_zero false)
  | Zpos p =>
      match SFdiv prec emax (S754_finite false p 0) (S754_finite false b 0) with
      | S754_infinity _ => Raise OverflowError "integer division result too large for a float"
      | f => Ok f
      end
  | Zneg p =>
      match SFdiv prec emax (S754_finite true p 0) (S754_finite false b 0) with
      | S754_infinity _ => Raise OverflowError "integer division result too large for a float"
      | f => Ok f
      end
  end.

Definition int_of_bool (b : bool) : Z := if b then 1%Z else 0%Z.

(** [v / b] for a positive integer constant [b] *)
Definition py_truediv (v : pyval) (b : positive) : result pyval :=
  match v with
  | VInt z => f <- int_truediv z b ;; Ok (VFloat f)
  | VBool c => f <- int_truediv (int_of_bool c) b ;; Ok (VFloat f)
  | VFloat x => Ok (VFloat (SFdiv prec emax x (S754_finite false b 0)))
  | _ =>
      Raise TypeError
        ("unsupported operand type(s) for /: " ++ quoted (type_name v)
         ++ " and 'int'")
  end%result.

(** [a + b], as [sum] applies it *)
Definition py_add (a b : pyval) : result pyval :=
  let num v :=
    match v with
    | VInt z => Some (inl z)
    | VBool c => Some (inl (int_of_bool c))
    | VFloat f => Some (inr f)
    | _ => None
    end in
  match num a, num b with
  | Some (inl x), Some (inl y) => Ok (VInt (x + y))
  | Some (inl x), Some (inr g) =>
      f <- float_of_int x ;; Ok (VFloat (SFadd prec emax f g))
  | Some (inr f), Some (inl y) =>
      g <- float_of_int y ;; Ok (VFloat (SFadd prec emax f g))
  | Some (inr f), Some (inr g) => Ok (VFloat (SFadd prec emax f g))
  | _, _ =>
      Raise TypeError
        ("unsupported operand type(s) for +: " ++ quoted (type_name a)
         ++ " and " ++ quoted (type_name b))
  end%result.

(** [sum(l)]: starts from the integer 0 and adds from the left (floats one
    by one, as CPython does before 3.12). *)
Definition py_sum (l : list pyval) : result pyval :=
  fold_left (fun acc x => (a <- acc ;; py_add a x)%result) l (Ok (VInt 0)).

(** [int(f)] for a float: truncation toward zero. *)
Definition int_of_float (f : spec_float) : result Z :=
  match f with
  | S754_zero _ => Ok 0%Z
  | S754_finite s m e =>
      let a :=
        match e with
        | Z0 => Zpos m
        | Zpos _ => Z.shiftl (Zpos m) e
        | Zneg _ => Z.shiftr (Zpos m) (- e)
        end in
      Ok (if s then (- a)%Z else a)
  | S754_infinity _ => Raise OverflowError "cannot convert float infinity to integer"
  | S754_nan => Raise ValueError "cannot convert float NaN to integer"
  end.

(** ** Collaborators and run-time services

    What the module imports and does not define: the CKAN configuration,
    clock, locale, site URL and license register, the helper
    [date_or_none], the registered [IDoi] plugins, and the parts of the
    Python run time whose full behaviour is outside this development (the
    literal parser, float parsing and printing, [repr] of containers, the
    order of a [set]). *)

(** A license of the register: its [url] and [id] attributes. *)
Record License : Type := { License_url : pyval; License_id : pyval }.

(** An [IDoi] implementation: its two hooks. *)
Record IDoi : Type := {
  plugin_build_metadata_dict : dict -> dict -> dict -> result (dict * dict);
  plugin_build_xml_dict : dict -> dict -> result dict
}.

Record Env : Type := {
  (** [toolkit.config] *)
  config : dict;
  (** [datetime.datetime.now().year] *)
  now_year : Z;
  (** [ckanext.doi.lib.helpers.date_or_none] *)
  date_or_none : pyval -> result pyval;
  (** [ckan.lib.helpers.lang] *)
  ckan_lang : result pyval;
  (** [ckanext.doi.lib.helpers.get_site_url] *)
  get_site_url : result pyval;
  (** [Package.get_license_register()] and then [.get(license_id)] *)
  get_license_register : result (pyval -> result (option License));
  (** [PluginImplementations(IDoi)] *)
  plugins : list IDoi;
  (** [ast.literal_eval] on a text *)
  parse_literal : string -> result pyval;
  (** [float(text)], [None] when the text is no number *)
  parse_float : string -> option spec_float;
  (** [str(f)] for a float *)
  float_repr : spec_float -> string;
  (** [repr(v)] for a list, a dict, an object or an exception *)
  repr_other : pyval -> string;
  (** [sorted(set(l))] when [l] is not made of strings only *)
  sorted_set_other : list pyval -> result (list pyval);
  (** [list(set(l))] *)
  list_of_set : list pyval -> result (list pyval)
}.

Section Runtime.
Variable env : Env.

(** [str(v)], also what an f-string puts for [{v}] *)
Definition py_str (v : pyval) : string :=
  match v with
  | VNone => "None"
  | VBool true => "True"
  | VBool false => "False"
  | VInt z => str_of_int z
  | VFloat f => float_repr env f
  | VStr s => s
  | VList _ | VDict _ => repr_other env v
  | VObj _ text => text
  | VExc _ msg => msg
  end.

(** [repr(v)] *)
Definition py_repr (v : pyval) : string :=
  match v with
  | VStr s => quoted s
  | VNone | VBool _ | VInt _ | VFloat _ => py_str v
  | _ => repr_other env v
  end.

(** [ast.literal_eval(v)]: anything but a text is a malformed node. *)
Definition literal_eval (v : pyval) : result pyval :=
  match v with
  | VStr s => parse_literal env s
  | _ => Raise ValueError ("malformed node or string: " ++ py_repr v)
  end.

(** [float(v)] *)
Definition py_float (v : pyval) : result spec_float :=
  match v with
  | VFloat f => Ok f
  | VInt z => float_of_int z
  | VBool b => float_of_int (int_of_bool b)
  | VStr s =>
      match parse_float env s with
      | Some f => Ok f
      | None => Raise ValueError ("could not convert string to float: " ++ quoted s)
      end
  | _ =>
      Raise TypeError
        ("float() argument must be a string or a real number, not "
         ++ quoted (type_name v))
  end.

(** [str(float(v))] *)
Definition str_float (v : pyval) : result pyval :=
  (f <- py_float v ;; Ok (VStr (float_repr env f)))%result.
End Runtime.

(** Sorting and deduplicating texts, for [sorted({...})]. *)
Fixpoint insert_sorted (s : string) (l : list string) : list string :=
  match l with
  | [] => [s]
  | x :: l' =>
      match String.compare s x with
      | Lt => s :: l
      | Eq => l
      | Gt => x :: insert_sorted s l'
      end
  end.

Definition sort_unique (l : list string) : list string :=
  fold_right insert_sorted [] l.

Fixpoint all_strings (l : list pyval) : option (list string) :=
  match l with
  | [] => Some []
  | VStr s :: l' =>
      match all_strings l' with Some ss => Some (s :: ss) | None => None end
  | _ :: _ => None
  end.

(** [sorted({t for t in l})] *)
Definition sorted_set (env : Env) (l : list pyval) : result (list pyval) :=
  match all_strings l with
  | Some ss => Ok (map VStr (sort_unique ss))
  | None => sorted_set_other env l
  end.

(** ** The locals of [build_metadata_dict] and their monad

    A caught exception leaves every assignment made before it in place, so
    the state is returned next to the outcome, not inside it. *)

Record state : Type := mkState {
  required : dict;
  optional : dict;
  errors : dict;
  date_errors : dict
}.

Definition M (A : Type) : Type := state -> state * result A.

Definition ret {A} (a : A) : M A := fun st => (st, Ok a).

Definition bind {A B} (m : M A) (f : A -> M B) : M B :=
  fun st =>
    match m st with
    | (st', Ok a) => f a st'
    | (st', Raise k msg) => (st', Raise k msg)
    end.

(** An expression that reads no local. *)
Definition lift {A} (r : result A) : M A := fun st => (st, r).

Declare Scope stm_scope.
Delimit Scope stm_scope with stm.
Notation "x <- m ;; k" := (bind m (fun x => k))
  (at level 61, m at next level, right associativity) : stm_scope.
Notation "m1 ;; m2" := (bind m1 (fun _ => m2))
  (at level 61, right associativity) : stm_scope.

(** [try: body  except <classes> as e: handler(e)] *)
Definition try_except (catches : exn_kind -> bool) (body : M unit)
    (handler : pyval -> M unit) : M unit :=
  fun st =>
    match body st with
    | (st', Ok a) => (st', Ok a)
    | (st', Raise k msg) =>
        if catches k then handler (VExc k msg) st' else (st', Raise k msg)
    end.

(** [except Exception] *)
Definition any_Exception (k : exn_kind) : bool := true.

(** [except (ValueError, KeyError, IndexError)] *)
Definition ValueError_KeyError_IndexError (k : exn_kind) : bool :=
  match k with
  | ValueError | KeyError | IndexError => true
  | _ => false
  end.

(** [for x in xs: body(x)] *)
Fixpoint for_each (xs : list pyval) (body : pyval -> M unit) : M unit :=
  match xs with
  | [] => ret tt
  | x :: xs' => bind (body x) (fun _ => for_each xs' body)
  end.

(** [required[key] = v] *)
Definition set_required (key : string) (v : pyval) : M unit :=
  fun st => (mkState (dict_set key v (required st)) (optional st) (errors st)
               (date_errors st), Ok tt).

(** [optional[key] = v] *)
Definition set_optional (key : string) (v : pyval) : M unit :=
  fun st => (mkState (required st) (dict_set key v (optional st)) (errors st)
               (date_errors st), Ok tt).

(** [errors[key] = e] *)
Definition set_error (key : string) (e : pyval) : M unit :=
  fun st => (mkState (required st) (optional st) (dict_set key e (errors st))
               (date_errors st), Ok tt).

(** [date_errors[key] = e] *)
Definition set_date_error (key : string) (e : pyval) : M unit :=
  fun st => (mkState (required st) (optional st) (errors st)
               (dict_set key e (date_errors st)), Ok tt).

(** [optional[key].append(item)] *)
Definition optional_append (key : string) (item : pyval) : M unit :=
  fun st =>
    match dict_get key (optional st) with
    | Some (VList l) => set_optional key (VList (l ++ [item])) st
    | Some v => (st, Raise AttributeError (no_attribute v "append"))
    | None => (st, Raise KeyError (quoted key))
    end.

(** The inner helper [_add_required(key, get_func)]; [get_func] is the
    outcome of calling the lambda. *)
Definition _add_required (key : string) (get_func : result pyval) : M unit :=
  try_except any_Exception
    (v <- lift get_func ;; set_required key v)%stm
    (fun e => set_error key e).

(** [for x in xs: ... optional[key].append(item)], where [entry x] is what
    the loop body computes before it appends: [Some item], or [None] when
    its [if] skips the element. *)
Definition append_each (key : string) (entry : pyval -> result (option pyval))
    (xs : list pyval) : M unit :=
  for_each xs (fun x =>
    o <- lift (entry x) ;;
    match o with
    | Some item => optional_append key item
    | None => ret tt
    end)%stm.

(** ** [build_metadata_dict]: the base extraction, field by field *)

Definition init_required : dict :=
  [ ("creators", VList []); ("titles", VList []); ("publisher", VNone);
    ("publicationYear", VNone); ("resourceType", VNone) ].

Definition init_optional : dict :=
  [ ("subjects", VList []); ("contributors", VList []); ("dates", VList []);
    ("language", VStr ""); ("alternateIdentifiers", VList []);
    ("relatedIdentifiers", VList []); ("sizes", VList []);
    ("formats", VList []); ("version", VStr ""); ("rightsList", VList []);
    ("descriptions", VList []); ("geoLocations", VList []);
    ("fundingReferences", VList []) ].

Definition init_state : state := mkState init_required init_optional [] [].

Section Extractor.
Variable env : Env.
Variable pkg_dict : dict.

Local Open Scope result_scope.

(** The entry appended to [creators_list] for one [auth_dict]. *)
Definition creator_entry (auth_dict : pyval) : result pyval :=
  name <- getitem auth_dict "author_name" ;;
  nameType <- getitem auth_dict "author_name_type" ;;
  aff <- getitem auth_dict "author_affiliation" ;;
  affId <- getitem auth_dict "author_affiliation_identifier" ;;
  affScheme <- getitem auth_dict "author_affiliation_identifier_type" ;;
  nameId <- getitem auth_dict "author_identifier" ;;
  nameScheme <- getitem auth_dict "author_identifier_type" ;;
  Ok (VDict
        [ ("name", name);
          ("nameType", nameType);
          ("affiliation",
            VList [ VDict [ ("name", aff);
                            ("affiliationIdentifier", affId);
                            ("affiliationIdentifierScheme", affScheme) ] ]);
          ("nameIdentifiers",
            VList [ VDict [ ("nameIdentifier", nameId);
                            ("nameIdentifierScheme", nameScheme) ] ]) ]).

(** The entry appended to [contributors_list]. *)
Definition contributor_entry (auth_dict : pyval) : result pyval :=
  name <- getitem auth_dict "author_name" ;;
  nameType <- getitem auth_dict "author_name_type" ;;
  aff <- getitem auth_dict "author_affiliation" ;;
  affId <- getitem auth_dict "author_affiliation_identifier" ;;
  affScheme <- getitem auth_dict "author_affiliation_identifier_type" ;;
  nameId <- getitem auth_dict "author_identifier" ;;
  nameScheme <- getitem auth_dict "author_identifier_type" ;;
  Ok (VDict
        [ ("name", name);
          ("contributorType", VStr "ContactPerson");
          ("nameType", nameType);
          ("affiliation",
            VList [ VDict [ ("name", aff);
                            ("affiliationIdentifier", affId);
                            ("affiliationIdentifierScheme", affScheme) ] ]);
          ("nameIdentifiers",
            VList [ VDict [ ("nameIdentifier", nameId);
                            ("nameIdentifierScheme", nameScheme) ] ]) ]).

(** The local list a CREATORS or CONTRIBUTORS block builds: it is only
    stored when every entry was built, so [mapM] is the loop. *)
Definition author_list (entry : pyval -> result pyval) : result pyval :=
  auth_list <- literal_eval env (py_get pkg_dict "author") ;;
  match auth_list with
  | VList l => items <- mapM entry l ;; Ok (VList items)
  | _ => Ok (VList [])
  end.

(** [tag['name'] if isinstance(tag, dict) else tag] *)
Definition tag_name (tag : pyval) : result pyval :=
  match tag with
  | VDict _ => getitem tag "name"
  | _ => Ok tag
  end.

Definition subjects_value : result pyval :=
  tags <- method_split_comma (py_get_default pkg_dict "tag_string" (VStr "")) ;;
  more <- py_iter (py_get_default pkg_dict "tags" (VList [])) ;;
  names <- mapM tag_name more ;;
  sorted <- sorted_set env
              (filter (fun t => negb (py_eq_str t "")) (tags ++ names)) ;;
  Ok (VList (map (fun tag => VDict [("subject", tag)]) sorted)).

(** [pkg_dict.get('resources', []) or []], iterated *)
Definition resources : result (list pyval) :=
  py_iter (py_or (py_get_default pkg_dict "resources" (VList [])) (VList [])).

Definition sizes_value : result pyval :=
  rs <- resources ;;
  resource_sizes <-
    mapM (fun r => size <- method_get r "size" ;; Ok (py_or size (VInt 0))) rs ;;
  total <- py_sum resource_sizes ;;
  kb <- py_truediv total 1024 ;;
  n <- match kb with
       | VFloat f => int_of_float f
       | v =>
           Raise TypeError
             ("int() argument must be a string, a bytes-like object or a real number, not "
              ++ quoted (type_name v))
       end ;;
  Ok (VList [VStr (str_of_int n ++ " kb")%string]).

Definition formats_value : result pyval :=
  rs <- resources ;;
  fs <- mapM (fun r => method_get r "format") rs ;;
  formats <- list_of_set env (filter py_truthy fs) ;;
  Ok (VList formats).

Definition alternate_identifiers_value : result pyval :=
  site <- get_site_url env ;;
  id <- getitem (VDict pkg_dict) "id" ;;
  let permalink := (py_str env site ++ "/dataset/" ++ py_str env id)%string in
  Ok (VList [ VDict [ ("alternateIdentifierType", VStr "URL");
                      ("alternateIdentifier", VStr permalink) ] ]).

Local Open Scope stm_scope.

Definition creators_block : M unit :=
  try_except any_Exception
    (creators_list <- lift (author_list creator_entry) ;;
     set_required "creators" creators_list)
    (fun e => set_error "creators" e).

Definition titles_block : M unit :=
  _add_required "titles"
    (Ok (VList [ VDict [ ("title", py_get pkg_dict "title") ] ])).

Definition publisher_block : M unit :=
  _add_required "publisher" (Ok (py_get (config env) "ckanext.doi.publisher")).

Definition publication_year_block : M unit :=
  let doi_date_published := py_get pkg_dict "doi_date_published" in
  fallback <-
    (if is_none doi_date_published then ret true
     else lift (head4 <- slice_to 4 doi_date_published ;;
                dec <- method_isdecimal head4 ;;
                Ok (negb dec))%result) ;;
  if fallback : bool
  then _add_required "publicationYear" (Ok (VInt (now_year env)))
  else _add_required "publicationYear" (slice_to 4 doi_date_published).

Definition resource_type_block : M unit :=
  _add_required "resourceType" (Ok (py_get pkg_dict "type")).

Definition subjects_block : M unit :=
  try_except any_Exception
    (v <- lift subjects_value ;; set_optional "subjects" v)
    (fun e => set_error "subjects" e).

Definition contributors_block : M unit :=
  try_except any_Exception
    (contributors_list <- lift (author_list contributor_entry) ;;
     set_optional "contributors" contributors_list)
    (fun e => set_error "contributors" e).

(** One of the three [try] statements of the DATES section. *)
Definition date_entry (dateType source_key error_key : string) : M unit :=
  try_except any_Exception
    (d <- lift (date_or_none env (py_get pkg_dict source_key)) ;;
     optional_append "dates"
       (VDict [ ("dateType", VStr dateType); ("date", d) ]))
    (fun e => set_date_error error_key e).

Definition dates_block : M unit :=
  date_entry "Created" "metadata_created" "created" ;;
  date_entry "Updated" "metadata_modified" "updated" ;;
  if dict_mem "doi_date_published" pkg_dict
  then date_entry "Issued" "doi_date_published" "doi_date_published"
  else ret tt.

Definition language_block : M unit :=
  try_except any_Exception
    (v <- lift (ckan_lang env) ;; set_optional "language" v)
    (fun e => set_error "language" e).

Definition alternate_identifiers_block : M unit :=
  try_except any_Exception
    (v <- lift alternate_identifiers_value ;;
     set_optional "alternateIdentifiers" v)
    (fun e => set_error "alternateIdentifiers" e).

(** The dictionary appended for one [rel]. *)
Definition related_entry (rel : pyval) : result (option pyval) :=
  (url <- getitem rel "related_resource_url" ;;
   relation <- getitem rel "relation_type" ;;
   Ok (Some (VDict [ ("relatedIdentifier", url);
                     ("relatedIdentifierType", VStr "URL");
                     ("relationType", relation) ])))%result.

Definition related_identifiers_block : M unit :=
  try_except any_Exception
    (rel_list <- lift (literal_eval env (py_get pkg_dict "related_resource")) ;;
     match rel_list with
     | VList l => append_each "relatedIdentifiers" related_entry l
     | _ => ret tt
     end)
    (fun e => set_error "relatedIdentifiers" e).

Definition sizes_block : M unit :=
  try_except any_Exception
    (total_size <- lift sizes_value ;; set_optional "sizes" total_size)
    (fun e => set_error "sizes" e).

Definition formats_block : M unit :=
  try_except any_Exception
    (formats <- lift formats_value ;; set_optional "formats" formats)
    (fun e => set_error "formats" e).

Definition version_block : M unit :=
  set_optional "version" (py_get pkg_dict "version").

(** The identifier the RIGHTS section works on. *)
Definition license_identifier : pyval :=
  let license_id := py_get pkg_dict "license_id" in
  if is_none license_id
  then py_get_default pkg_dict "license" (VStr "")
  else license_id.

Definition rights_block : M unit :=
  let license_id := license_identifier in
  try_except any_Exception
    (if py_eq_str license_id "cc-by-4.0-international" then
       set_optional "rightsList"
         (VList [ VDict [ ("rightsUri", VStr "https://spdx.org/licenses/CC-BY-4.0.html");
                          ("rightsIdentifier", VStr "CC-BY-4.0");
                          ("rightsIdentifierScheme", VStr "SPDX") ] ])
     else if negb (py_eq_str license_id "") && negb (is_none license_id) then
       license_register <- lift (get_license_register env) ;;
       license <- lift (license_register license_id) ;;
       match license with
       | Some lic =>
           set_optional "rightsList"
             (VList [ VDict [ ("rightsUri", License_url lic);
                              ("rightsIdentifier", License_id lic) ] ])
       | None => ret tt
       end
     else
       set_optional "rightsList" (VList [ VDict [ ("rights", license_id) ] ]))
    (fun e => set_error "rightsList" e).

Definition descriptions_block : M unit :=
  set_optional "descriptions"
    (VList [ VDict [ ("descriptionType", VStr "Other");
                     ("description",
                       py_get_default pkg_dict "notes" (VStr "")) ] ]).

(** The features the GEOLOCATIONS loops visit. *)
Definition location_features : result (list pyval) :=
  (location_data <- getitem (VDict pkg_dict) "location_data" ;;
   features <- getitem location_data "features" ;;
   py_iter features)%result.

(** What the [point] loop appends for one feature, if anything. *)
Definition point_feature (feat : pyval) : result (option pyval) :=
  (geometry <- getitem feat "geometry" ;;
   type <- getitem geometry "type" ;;
   if py_eq_str type "Point" then
     geometry <- getitem feat "geometry" ;;
     coords <- getitem geometry "coordinates" ;;
     c0 <- getindex coords 0 ;;
     lon <- str_float env c0 ;;
     c1 <- getindex coords 1 ;;
     lat <- str_float env c1 ;;
     Ok (Some (VDict [ ("geoLocationPoint",
                         VDict [ ("pointLongitude", lon);
                                 ("pointLatitude", lat) ]) ]))
   else Ok None)%result.

(** What the [area] loop appends for one feature, if anything. *)
Definition polygon_feature (feat : pyval) : result (option pyval) :=
  (geometry <- getitem feat "geometry" ;;
   type <- getitem geometry "type" ;;
   if py_eq_str type "Polygon" then
     geometry <- getitem feat "geometry" ;;
     rings <- getitem geometry "coordinates" ;;
     coord_list <- getindex rings 0 ;;
     p0 <- getindex coord_list 0 ;;
     x0 <- getindex p0 0 ;;
     west <- str_float env x0 ;;
     p2 <- getindex coord_list 2 ;;
     x2 <- getindex p2 0 ;;
     east <- str_float env x2 ;;
     p0' <- getindex coord_list 0 ;;
     y0 <- getindex p0' 1 ;;
     south <- str_float env y0 ;;
     p1 <- getindex coord_list 1 ;;
     y1 <- getindex p1 1 ;;
     north <- str_float env y1 ;;
     Ok (Some (VDict [ ("geoLocationBox",
                         VDict [ ("westBoundLongitude", west);
                                 ("eastBoundLongitude", east);
                                 ("southBoundLatitude", south);
                                 ("northBoundLatitude", north) ]) ]))
   else Ok None)%result.

Definition geolocations_block : M unit :=
  let location_choice := py_get_default pkg_dict "location_choice" VNone in
  if negb (is_none location_choice) then
    if py_eq_str location_choice "point" then
      set_optional "geoLocations" (VList []) ;;
      try_except ValueError_KeyError_IndexError
        (features <- lift location_features ;;
         append_each "geoLocations" point_feature features)
        (fun e => set_error "geoLocations" e)
    else if py_eq_str location_choice "area" then
      set_optional "geoLocations" (VList []) ;;
      try_except ValueError_KeyError_IndexError
        (features <- lift location_features ;;
         append_each "geoLocations" polygon_feature features)
        (fun e => set_error "geoLocations" e)
    else ret tt
  else ret tt.

(** The dictionary appended for one [funder]. *)
Definition funder_entry (funder : pyval) : result (option pyval) :=
  (id_type <- getitem funder "funder_identifier_type" ;;
   let id_type :=
     if py_eq_str id_type "Wikidata" || py_eq_str id_type ""
     then VStr "Other" else id_type in
   name <- getitem funder "funder_name" ;;
   ident <- getitem funder "funder_identifier" ;;
   Ok (Some (VDict [ ("funderName", name);
                     ("funderIdentifier", ident);
                     ("funderIdentifierType", id_type) ])))%result.

Definition funding_block : M unit :=
  if negb (py_eq_str (py_get_default pkg_dict "funder" (VStr "")) "") then
    try_except any_Exception
      (funder_list <- lift (literal_eval env (py_get pkg_dict "funder")) ;;
       set_optional "fundingReferences" (VList []) ;;
       funders <- lift (py_iter funder_list) ;;
       append_each "fundingReferences" funder_entry funders)
      (fun e => set_error "fundingReferences" e)
  else ret tt.

(** Lines 28 to 307: everything before the two [update] calls. *)
Definition base_fields : M unit :=
  creators_block ;;
  titles_block ;;
  publisher_block ;;
  publication_year_block ;;
  resource_type_block ;;
  subjects_block ;;
  contributors_block ;;
  dates_block ;;
  language_block ;;
  alternate_identifiers_block ;;
  related_identifiers_block ;;
  sizes_block ;;
  formats_block ;;
  version_block ;;
  rights_block ;;
  descriptions_block ;;
  geolocations_block ;;
  funding_block.
End Extractor.

(** ** [build_metadata_dict]: extension pass, enforcement, reporting *)

(** What [log.exception] and [log.debug] are called with. *)
Inductive log_entry : Type :=
| LogException (msg : string)
| LogDebug (msg : string).

(** [for plugin in PluginImplementations(IDoi): metadata_dict, errors =
    plugin.build_metadata_dict(pkg_dict, metadata_dict, errors)] *)
Fixpoint run_plugins (ps : list IDoi) (pkg_dict metadata_dict errs : dict)
    : result (dict * dict) :=
  match ps with
  | [] => Ok (metadata_dict, errs)
  | plugin :: ps' =>
      match plugin_build_metadata_dict plugin pkg_dict metadata_dict errs with
      | Ok (metadata_dict', errs') => run_plugins ps' pkg_dict metadata_dict' errs'
      | Raise k msg => Raise k msg
      end
  end.

Definition required_cannot_be_None : pyval :=
  VExc DOIMetadataException "Required field cannot be None".

(** [for k in required: if metadata_dict.get(k) is None and errors.get(k)
    is None: errors[k] = DOIMetadataException(...)] *)
Definition enforce_required (required_d metadata_dict errs : dict) : dict :=
  fold_left
    (fun errs k =>
       if is_none (py_get metadata_dict k) && is_none (py_get errs k)
       then dict_set k required_cannot_be_None errs
       else errs)
    (dict_keys required_d) errs.

(** [{k: e for k, e in errors.items() if k in d}] *)
Definition errors_in (d errs : dict) : dict :=
  filter (fun ke => dict_mem (fst ke) d) errs.

Definition required_keys_msg : string :=
  "Could not extract metadata for the following required keys: ".

Definition optional_keys_msg : string :=
  "Could not extract metadata for the following optional keys: ".

(** Lines 319 to 344, from the locals [required] and [optional] and what the
    extension pass returned. *)
Definition enforce_and_report (env : Env) (st : state)
    (metadata_dict errs : dict) : list log_entry * result dict :=
  let errs := enforce_required (required st) metadata_dict errs in
  let required_errors := errors_in (required st) errs in
  if (0 <? List.length required_errors)%nat then
    let error_msg :=
      (required_keys_msg ++ join ", " (dict_keys required_errors))%string in
    (LogException error_msg
       :: map (fun ke => LogException (fst ke ++ ": " ++ py_str env (snd ke))%string)
            required_errors,
     Raise DOIMetadataException error_msg)
  else
    let optional_errors := errors_in (optional st) errs in
    let log :=
      if (0 <? List.length required_errors)%nat then
        let error_msg :=
          (optional_keys_msg ++ join ", " (dict_keys optional_errors))%string in
        LogDebug error_msg
          :: map (fun ke => LogDebug (fst ke ++ ": " ++ py_str env (snd ke))%string)
               optional_errors
      else [] in
    (log, Ok metadata_dict).

(** [metadata_dict = {}; metadata_dict.update(required);
    metadata_dict.update(optional)] *)
Definition merged (st : state) : dict :=
  dict_update (dict_update [] (required st)) (optional st).

(** The record and the error map handed to the first plugin, when the base
    extraction raised nothing. *)
Definition base_extract (env : Env) (pkg_dict : dict) : result (state * dict * dict) :=
  match base_fields env pkg_dict init_state with
  | (st, Ok _) => Ok (st, merged st, errors st)
  | (_, Raise k msg) => Raise k msg
  end.

(** The record and the error map after the extension pass. *)
Definition extension_pass (env : Env) (pkg_dict : dict)
    : result (state * dict * dict) :=
  match base_extract env pkg_dict with
  | Ok (st, metadata_dict, errs) =>
      match run_plugins (plugins env) pkg_dict metadata_dict errs with
      | Ok (metadata_dict', errs') => Ok (st, metadata_dict', errs')
      | Raise k msg => Raise k msg
      end
  | Raise k msg => Raise k msg
  end.

(** The function: what it logs, and what it returns or raises. *)
Definition build_metadata_dict (env : Env) (pkg_dict : dict)
    : list log_entry * result dict :=
  match extension_pass env pkg_dict with
  | Ok (st, metadata_dict, errs) => enforce_and_report env st metadata_dict errs
  | Raise k msg => ([], Raise k msg)
  end.

(** ** [build_xml_dict] *)

Definition xml_optional : list string :=
  [ "subjects"; "contributors"; "dates"; "language"; "alternateIdentifiers";
    "relatedIdentifiers"; "sizes"; "formats"; "version"; "rightsList";
    "descriptions"; "geoLocations"; "fundingReferences" ].

(** [v is not None and len(v) > 0], [False] when [len] raises. *)
Definition has_value (v : pyval) : bool :=
  negb (is_none v)
  && match py_len v with
     | Ok n => (0 <? n)%nat
     | Raise _ _ => false
     end.

Section Projector.
Variable env : Env.
Variable metadata_dict : dict.

Local Open Scope result_scope.

(** The copy of one [date_entry], its date made a text. *)
Definition date_entry_copy (date_entry : pyval) : result pyval :=
  match date_entry with
  | VDict d =>
      date <- getitem (VDict d) "date" ;;
      Ok (VDict (dict_set "date" (VStr (py_str env date)) d))
  | v => Raise AttributeError (no_attribute v "items")
  end.

(** One turn of [for k in optional]. *)
Definition project_optional (xml_dict : dict) (k : string) : result dict :=
  let v := py_get metadata_dict k in
  if has_value v then
    if String.eqb k "dates" then
      entries <- py_iter v ;;
      item <- mapM date_entry_copy entries ;;
      Ok (dict_set k (VList item) xml_dict)
    else Ok (dict_set k v xml_dict)
  else Ok xml_dict.

(** The document before the extension pass. *)
Definition xml_required : dict :=
  dict_set "creators" (py_get_default metadata_dict "creators" (VList []))
    [ ("creators", VList []);
      ("titles", py_get_default metadata_dict "titles" (VList []));
      ("publisher", py_get metadata_dict "publisher");
      ("publicationYear", VStr (py_str env (py_get metadata_dict "publicationYear")));
      ("types", VDict [ ("resourceType", py_get metadata_dict "resourceType");
                        ("resourceTypeGeneral", VStr "Dataset") ]);
      ("schemaVersion", VStr "http://datacite.org/schema/kernel-4") ].

Definition project : result dict :=
  fold_left (fun acc k => xml_dict <- acc ;; project_optional xml_dict k)
    xml_optional (Ok xml_required).

(** [for plugin in PluginImplementations(IDoi): xml_dict =
    plugin.build_xml_dict(metadata_dict, xml_dict)] *)
Fixpoint run_xml_plugins (ps : list IDoi) (xml_dict : dict) : result dict :=
  match ps with
  | [] => Ok xml_dict
  | plugin :: ps' =>
      xml_dict' <- plugin_build_xml_dict plugin metadata_dict xml_dict ;;
      run_xml_plugins ps' xml_dict'
  end.

Definition build_xml_dict : result dict :=
  xml_dict <- project ;; run_xml_plugins (plugins env) xml_dict.
End Projector.

(** ** A concrete deployment, for the examples

    A reader of the literals the examples use (texts in single quotes
    without escapes, integers, [None], lists and dictionaries with text
    keys); it answers [SyntaxError] to anything else. *)
Module Sample.

(** One of the digits '0'..'9' of an integer literal. *)
Definition is_digit (c : ascii) : bool :=
  let n := nat_of_ascii c in (48 <=? n)%nat && (n <=? 57)%nat.

Fixpoint skip_ws (s : list ascii) : list ascii :=
  match s with
  | " "%char :: s' => skip_ws s'
  | _ => s
  end.

(** The text up to the closing quote, and what follows it. *)
Fixpoint read_text (s : list ascii) : option (string * list ascii) :=
  match s with
  | [] => None
  | c :: s' =>
      if Ascii.eqb c "'" then Some (EmptyString, s')
      else if Ascii.eqb c "\" then None
      else
        match read_text s' with
        | Some (w, rest) => Some (String c w, rest)
        | None => None
        end
  end.

Fixpoint read_digits (s : list ascii) (acc : Z) : Z * list ascii :=
  match s with
  | c :: s' =>
      if is_digit c
      then read_digits s' (10 * acc + Z.of_nat (nat_of_ascii c - 48))%Z
      else (acc, s)
  | [] => (acc, s)
  end.

Fixpoint read_value (fuel : nat) (s : list ascii) : option (pyval * list ascii) :=
  match fuel with
  | O => None
  | S fuel' =>
      match skip_ws s with
      | "N"%char :: "o"%char :: "n"%char :: "e"%char :: rest => Some (VNone, rest)
      | "'"%char :: rest =>
          match read_text rest with
          | Some (w, rest') => Some (VStr w, rest')
          | None => None
          end
      | "["%char :: rest =>
          match skip_ws rest with
          | "]"%char :: rest' => Some (VList [], rest')
          | _ =>
              (fix items (n : nat) (s : list ascii) (acc : list pyval) {struct n} :=
                 match n with
                 | O => None
                 | S n' =>
                     match read_value fuel' s with
                     | Some (v, r) =>
                         match skip_ws r with
                         | ","%char :: r' => items n' r' (acc ++ [v])
                         | "]"%char :: r' => Some (VList (acc ++ [v]), r')
                         | _ => None
                         end
                     | None => None
                     end
                 end) fuel' rest []
          end
      | "{"%char :: rest =>
          match skip_ws rest with
          | "}"%char :: rest' => Some (VDict [], rest')
          | _ =>
              (fix pairs (n : nat) (s : list ascii) (acc : dict) {struct n} :=
                 match n with
                 | O => None
                 | S n' =>
                     match read_value fuel' s with
                     | Some (VStr k, r) =>
                         match skip_ws r with
                         | ":"%char :: r' =>
                             match read_value fuel' r' with
                             | Some (v, r'') =>
                                 match skip_ws r'' with
                                 | ","%char :: r3 => pairs n' r3 (dict_set k v acc)
                                 | "}"%char :: r3 => Some (VDict (dict_set k v acc), r3)
                                 | _ => None
                                 end
                             | None => None
                             end
                         | _ => None
                         end
                     | _ => None
                     end
                 end) fuel' rest []
          end
      | c :: rest =>
          if is_digit c
          then let (z, rest') := read_digits (c :: rest) 0 in Some (VInt z, rest')
          else None
      | [] => None
      end
  end.

Definition read_literal (s : string) : result pyval :=
  let cs := list_ascii_of_string s in
  match read_value (S (List.length cs)) cs with
  | Some (v, rest) =>
      match skip_ws rest with
      | [] => Ok v
      | _ => Raise SyntaxError "invalid syntax"
      end
  | None => Raise SyntaxError "invalid syntax"
  end.

(** A stand-in for [date_or_none]: a [datetime] object passes, a text
    that starts with a four-digit year is parsed, any other text is
    refused by the date parser, and anything else gives [None]. *)
Definition parse_date (v : pyval) : result pyval :=
  match v with
  | VObj _ _ => Ok v
  | VStr s =>
      if isdecimal (text_prefix 4 s)
      then Ok (VObj "datetime.datetime" (s ++ " 00:00:00"))
      else Raise ValueError "Unknown string format"
  | _ => Ok VNone
  end.

Definition license_register (license_id : pyval) : result (option License) :=
  if py_eq_str license_id "cc-by"
  then Ok (Some {| License_url := VStr "http://www.opendefinition.org/licenses/cc-by";
                   License_id := VStr "cc-by" |})
  else Ok None.

(** One order [list(set(l))] may give for texts: the sorted one. *)
Definition sorted_texts (l : list pyval) : result (list pyval) :=
  match all_strings l with
  | Some ss => Ok (map VStr (sort_unique ss))
  | None => Raise TypeError "unhashable type"
  end.

Definition env : Env := {|
  config := [ ("ckanext.doi.publisher", VStr "AuScope") ];
  now_year := 2026;
  date_or_none := parse_date;
  ckan_lang := Ok (VStr "en");
  get_site_url := Ok (VStr "https://data.example.org");
  get_license_register := Ok license_register;
  plugins := [];
  parse_literal := read_literal;
  parse_float := fun _ => None;
  float_repr := fun _ => "<float>";
  repr_other := fun _ => "<object>";
  sorted_set_other := fun _ => Raise TypeError "unhashable or unorderable";
  list_of_set := sorted_texts
|}.

Definition author : pyval :=
  VStr "[{'author_name': 'A. Author', 'author_name_type': 'Personal', 'author_affiliation': 'AuScope', 'author_affiliation_identifier': 'https://ror.org/x', 'author_affiliation_identifier_type': 'ROR', 'author_identifier': '0000-0001', 'author_identifier_type': 'ORCID'}]".

(** A record whose required fields all resolve. *)
Definition pkg : dict :=
  [ ("id", VStr "ds-1");
    ("title", VStr "A dataset");
    ("type", VStr "dataset");
    ("author", author);
    ("doi_date_published", VStr "2021-05-10");
    ("metadata_created", VStr "2021-05-01");
    ("metadata_modified", VStr "2021-05-02");
    ("related_resource", VStr "[]");
    ("license_id", VStr "cc-by-4.0-international");
    ("resources",
      VList [ VDict [ ("size", VInt 1024) ];
              VDict [ ("size", VInt 2048) ];
              VDict [ ("size", VNone) ] ]) ].

(** [pkg] with one key set or added. *)
Definition pkg_with (k : string) (v : pyval) : dict := dict_set k v pkg.

End Sample.

Module Cases.

(** [location_choice] is ['point'] and [location_data] is [None]. *)
Definition point_without_data : dict :=
  dict_set "location_choice" (VStr "point") (Sample.pkg_with "location_data" VNone).

(** A creation date the date parser refuses. *)
Definition unreadable_date : dict :=
  Sample.pkg_with "metadata_created" (VStr "yesterday").

(** [doi_date_published] holds a [datetime] object, as [date_or_none]
    accepts one. *)
Definition datetime_published : dict :=
  Sample.pkg_with "doi_date_published"
    (VObj "datetime.datetime" "2021-05-10 00:00:00").

(** [doi_date_published] holds the integer 2021. *)
Definition integer_year : dict :=
  Sample.pkg_with "doi_date_published" (VInt 2021).

(** One resource whose size is the text ['1024']. *)
Definition text_size : dict :=
  Sample.pkg_with "resources" (VList [ VDict [ ("size", VStr "1024") ] ]).


(** Two related resources, the second without its [relation_type]. *)
Definition second_relation_incomplete : dict :=
  Sample.pkg_with "related_resource"
    (VStr "[{'related_resource_url': 'https://a.example', 'relation_type': 'Cites'}, {'related_resource_url': 'https://b.example'}]").

(** Two funders, the second without its identifier type. *)
Definition second_funder_incomplete : dict :=
  Sample.pkg_with "funder"
    (VStr "[{'funder_name': 'ARC', 'funder_identifier': 'https://ror.org/05mmh0f86', 'funder_identifier_type': 'ROR'}, {'funder_name': 'NCRIS'}]").

(** A [funder] text that is no literal. *)
Definition unparsable_funder : dict :=
  Sample.pkg_with "funder" (VStr "[{'funder_name': ").

(** A creation date the date parser refuses and a [funder] text that is
    no literal. *)
Definition unreadable_date_unparsable_funder : dict :=
  dict_set "metadata_created" (VStr "yesterday") unparsable_funder.

(** [doi_date_published] starts with the year 2021 in Arabic-Indic
    digits. *)
Definition arabic_indic_year : dict :=
  Sample.pkg_with "doi_date_published"
    (VStr (text_of [1634; 1632; 1634; 1633]%N ++ "-05-10")).

(** An internal record with some empty optional values. *)
Definition record : dict :=
  [ ("creators", VList []);
    ("titles", VList [ VDict [ ("title", VStr "A dataset") ] ]);
    ("publisher", VStr "AuScope");
    ("publicationYear", VInt 2021);
    ("resourceType", VStr "dataset");
    ("subjects", VList []);
    ("dates", VList [ VDict [ ("dateType", VStr "Created");
                              ("date", VObj "datetime.datetime" "2021-05-01 00:00:00") ] ]);
    ("language", VStr "");
    ("sizes", VList [ VStr "3 kb" ]);
    ("version", VNone);
    ("formats", VInt 3) ].

End Cases.

(** ** Vocabulary of the properties *)

(** The places a block can write. *)
Inductive slot : Type :=
| Req (k : string)
| Opt (k : string)
| Err (k : string)
| DErr (k : string).

Definition slot_get (s : slot) (st : state) : option pyval :=
  match s with
  | Req k => dict_get k (required st)
  | Opt k => dict_get k (optional st)
  | Err k => dict_get k (errors st)
  | DErr k => dict_get k (date_errors st)
  end.

Definition holds (s : slot) (ov : option pyval) (st : state) : Prop :=
  slot_get s st = ov.

(** The key sets of [required] and [optional] never change. *)
Definition keys_ok (st : state) : Prop :=
  dict_keys (required st) = dict_keys init_required
  /\ dict_keys (optional st) = dict_keys init_optional.

(** [P] survives [m], whether [m] ends normally or raises. *)
Definition preserves {A} (P : state -> Prop) (m : M A) : Prop :=
  forall st, P st -> P (fst (m st)).

(** [m] started in [P] and ending normally ends in [Q]. *)
Definition triple {A} (P : state -> Prop) (m : M A) (Q : state -> Prop) : Prop :=
  forall st st' a, P st -> m st = (st', Ok a) -> Q st'.

(** [m] never lets an exception out. *)
Definition never_raises {A} (m : M A) : Prop :=
  forall st, exists a, snd (m st) = Ok a.

(** Two assertions at once. *)
Definition both (P Q : state -> Prop) : state -> Prop :=
  fun st => P st /\ Q st.

Definition value_or (r : result pyval) (default : pyval) : pyval :=
  match r with Ok v => v | Raise _ _ => default end.

Definition failure_of {A} (r : result A) : option pyval :=
  match r with Ok _ => None | Raise k msg => Some (VExc k msg) end.

(** The outcome of a computation whose value is dropped. *)
Definition outcome {A} (r : result A) : result unit :=
  match r with Ok _ => Ok tt | Raise k msg => Raise k msg end.

(** The items an appending loop leaves in the list: those of the elements
    before the first failure. *)
Fixpoint appended (entry : pyval -> result (option pyval)) (xs : list pyval)
    : list pyval :=
  match xs with
  | [] => []
  | x :: xs' =>
      match entry x with
      | Ok (Some item) => item :: appended entry xs'
      | Ok None => appended entry xs'
      | Raise _ _ => []
      end
  end.

(** What a guarded feature loop does to the outcome and the error map. *)
Definition caught_outcome (catches : exn_kind -> bool) (o : result unit)
    : result unit :=
  match o with
  | Raise k msg => if catches k then Ok tt else Raise k msg
  | Ok _ => Ok tt
  end.

Definition recorded (catches : exn_kind -> bool) (key : string)
    (o : result unit) (errs : dict) : dict :=
  match o with
  | Raise k msg => if catches k then dict_set key (VExc k msg) errs else errs
  | Ok _ => errs
  end.

Section Vocabulary.
Variable env : Env.
Variable pkg_dict : dict.

(** The entries one [try] of the DATES section adds: one, or none when
    [date_or_none] raises. *)
Definition date_items (dateType source_key : string) : list pyval :=
  match date_or_none env (py_get pkg_dict source_key) with
  | Ok d => [ VDict [ ("dateType", VStr dateType); ("date", d) ] ]
  | Raise _ _ => []
  end.

Definition expected_dates : list pyval :=
  date_items "Created" "metadata_created"
  ++ date_items "Updated" "metadata_modified"
  ++ (if dict_mem "doi_date_published" pkg_dict
      then date_items "Issued" "doi_date_published"
      else []).

Local Open Scope result_scope.

(** The outcome of the body of each [try] that loops or branches. *)
Definition related_outcome : result unit :=
  rel_list <- literal_eval env (py_get pkg_dict "related_resource") ;;
  match rel_list with
  | VList l => outcome (mapM related_entry l)
  | _ => Ok tt
  end.

Definition rights_outcome : result unit :=
  let license_id := license_identifier pkg_dict in
  if py_eq_str license_id "cc-by-4.0-international" then Ok tt
  else if negb (py_eq_str license_id "") && negb (is_none license_id) then
    license_register <- get_license_register env ;;
    outcome (license_register license_id)
  else Ok tt.

Definition geolocations_outcome : result unit :=
  let location_choice := py_get_default pkg_dict "location_choice" VNone in
  if negb (is_none location_choice) then
    if py_eq_str location_choice "point" then
      features <- location_features pkg_dict ;;
      outcome (mapM (point_feature env) features)
    else if py_eq_str location_choice "area" then
      features <- location_features pkg_dict ;;
      outcome (mapM (polygon_feature env) features)
    else Ok tt
  else Ok tt.

Definition funding_outcome : result unit :=
  if negb (py_eq_str (py_get_default pkg_dict "funder" (VStr "")) "") then
    funder_list <- literal_eval env (py_get pkg_dict "funder") ;;
    funders <- py_iter funder_list ;;
    outcome (mapM funder_entry funders)
  else Ok tt.

Local Close Scope result_scope.

(** The failure the base extraction records under each key: that of the
    field's own derivation.  The four required fields read with
    [_add_required] cannot fail, and nothing is recorded under any other
    key, [dates] included. *)
Definition field_failure (key : string) : option pyval :=
  if String.eqb key "creators" then failure_of (author_list env pkg_dict creator_entry)
  else if String.eqb key "subjects" then failure_of (subjects_value env pkg_dict)
  else if String.eqb key "contributors" then
    failure_of (author_list env pkg_dict contributor_entry)
  else if String.eqb key "language" then failure_of (ckan_lang env)
  else if String.eqb key "alternateIdentifiers" then
    failure_of (alternate_identifiers_value env pkg_dict)
  else if String.eqb key "relatedIdentifiers" then failure_of related_outcome
  else if String.eqb key "sizes" then failure_of (sizes_value pkg_dict)
  else if String.eqb key "formats" then failure_of (formats_value env pkg_dict)
  else if String.eqb key "rightsList" then failure_of rights_outcome
  else if String.eqb key "geoLocations" then failure_of geolocations_outcome
  else if String.eqb key "fundingReferences" then failure_of funding_outcome
  else None.

(** The GEOLOCATIONS loops raise nothing but what their handler takes. *)
Definition geolocations_caught : Prop :=
  forall k msg,
    geolocations_outcome = Raise k msg ->
    ValueError_KeyError_IndexError k = true.

End Vocabulary.

(** The year the PUBLICATION YEAR section stores for a text or a missing
    [doi_date_published]. *)
Definition expected_year (env : Env) (pkg_dict : dict) : pyval :=
  match py_get pkg_dict "doi_date_published" with
  | VStr s =>
      if isdecimal (text_prefix 4 s)
      then VStr (text_prefix 4 s)
      else VInt (now_year env)
  | _ => VInt (now_year env)
  end.

(** [doi_date_published] is missing, [None] or a text. *)
Definition text_or_None (v : pyval) : Prop :=
  v = VNone \/ exists s, v = VStr s.

Definition spdx_cc_by_4 : pyval :=
  VDict [ ("rightsUri", VStr "https://spdx.org/licenses/CC-BY-4.0.html");
          ("rightsIdentifier", VStr "CC-BY-4.0");
          ("rightsIdentifierScheme", VStr "SPDX") ].

Definition register_entry (lic : License) : pyval :=
  VDict [ ("rightsUri", License_url lic); ("rightsIdentifier", License_id lic) ].

(** What the register answers for an identifier: a license, or nothing
    (also when the register or the lookup raises). *)
Definition register_lookup (env : Env) (license_id : pyval) : option License :=
  match get_license_register env with
  | Ok license_register =>
      match license_register license_id with
      | Ok (Some lic) => Some lic
      | _ => None
      end
  | Raise _ _ => None
  end.

(** The precedence of the RIGHTS section, case by case. *)
Definition expected_rights (env : Env) (pkg_dict : dict) : pyval :=
  let license_id := license_identifier pkg_dict in
  if py_eq_str license_id "cc-by-4.0-international" then VList [ spdx_cc_by_4 ]
  else if py_eq_str license_id "" || is_none license_id then
    VList [ VDict [ ("rights", license_id) ] ]
  else
    match register_lookup env license_id with
    | Some lic => VList [ register_entry lic ]
    | None => VList []
    end.



Definition total (zs : list Z) : Z := fold_right Z.add 0%Z zs.


(** An entry of [dates] the projector can copy: a mapping with a [date]. *)
Definition is_date_entry (e : pyval) : bool :=
  match e with
  | VDict d => dict_mem "date" d
  | _ => false
  end.

(** The [dates] of a well-formed internal record: nothing the projector
    includes, or a list of mappings that each have a [date]. *)
Definition valid_dates (metadata_dict : dict) : bool :=
  match py_get metadata_dict "dates" with
  | VList l => forallb is_date_entry l
  | v => negb (has_value v)
  end.

(** The value the projector stores under [dates]. *)
Definition dates_copy (env : Env) (metadata_dict : dict) : result pyval :=
  (entries <- py_iter (py_get metadata_dict "dates") ;;
   item <- mapM (date_entry_copy env) entries ;;
   Ok (VList item))%result.

(** What the projector stores under an optional key it includes. *)
Definition projected (env : Env) (metadata_dict : dict) (k : string) : pyval :=
  if String.eqb k "dates"
  then value_or (dates_copy env metadata_dict) VNone
  else py_get metadata_dict k.

Definition required_names : list string :=
  [ "creators"; "titles"; "publisher"; "publicationYear"; "resourceType" ].

(** A required key that fails after the extension pass: it has an entry in
    the error map, or its value is [None] and the map records no cause. *)
Definition failed_required (metadata_dict errs : dict) (k : string) : Prop :=
  In k required_names
  /\ (dict_mem k errs = true
      \/ (py_get metadata_dict k = VNone /\ py_get errs k = VNone)).

(** The deployment [env] with another [date_or_none]. *)
Definition with_date_or_none (f : pyval -> result pyval) (env : Env) : Env :=
  {| config := config env;
     now_year := now_year env;
     date_or_none := f;
     ckan_lang := ckan_lang env;
     get_site_url := get_site_url env;
     get_license_register := get_license_register env;
     plugins := plugins env;
     parse_literal := parse_literal env;
     parse_float := parse_float env;
     float_repr := float_repr env;
     repr_other := repr_other env;
     sorted_set_other := sorted_set_other env;
     list_of_set := list_of_set env |}.

(** The related identifiers the extraction returns: the entries built
    before the first failure. *)
Definition related_items (env : Env) (pkg_dict : dict) : list pyval :=
  match literal_eval env (py_get pkg_dict "related_resource") with
  | Ok (VList l) => appended related_entry l
  | _ => []
  end.

(** ** Vocabulary of the further properties *)

(** The items a guarded loop leaves in its list: those appended before the
    source or an entry failed. *)
Definition loop_items (src : result (list pyval))
    (entry : pyval -> result (option pyval)) : list pyval :=
  match src with
  | Ok xs => appended entry xs
  | Raise _ _ => []
  end.

(** The geolocations the extraction returns. *)
Definition geolocations_items (env : Env) (pkg_dict : dict) : list pyval :=
  let location_choice := py_get_default pkg_dict "location_choice" VNone in
  if py_eq_str location_choice "point" then
    loop_items (location_features pkg_dict) (point_feature env)
  else if py_eq_str location_choice "area" then
    loop_items (location_features pkg_dict) (polygon_feature env)
  else [].

(** The funding references the extraction returns. *)
Definition funding_items (env : Env) (pkg_dict : dict) : list pyval :=
  if py_eq_str (py_get_default pkg_dict "funder" (VStr "")) "" then []
  else
    match literal_eval env (py_get pkg_dict "funder") with
    | Ok funder_list => loop_items (py_iter funder_list) funder_entry
    | Raise _ _ => []
    end.

(** The value the base extraction leaves under each key of the record. *)
Definition field_value (env : Env) (pkg_dict : dict) (key : string)
    : option pyval :=
  if String.eqb key "creators" then
    Some (value_or (author_list env pkg_dict creator_entry) (VList []))
  else if String.eqb key "titles" then
    Some (VList [ VDict [ ("title", py_get pkg_dict "title") ] ])
  else if String.eqb key "publisher" then
    Some (py_get (config env) "ckanext.doi.publisher")
  else if String.eqb key "publicationYear" then Some (expected_year env pkg_dict)
  else if String.eqb key "resourceType" then Some (py_get pkg_dict "type")
  else if String.eqb key "subjects" then
    Some (value_or (subjects_value env pkg_dict) (VList []))
  else if String.eqb key "contributors" then
    Some (value_or (author_list env pkg_dict contributor_entry) (VList []))
  else if String.eqb key "dates" then Some (VList (expected_dates env pkg_dict))
  else if String.eqb key "language" then Some (value_or (ckan_lang env) (VStr ""))
  else if String.eqb key "alternateIdentifiers" then
    Some (value_or (alternate_identifiers_value env pkg_dict) (VList []))
  else if String.eqb key "relatedIdentifiers" then
    Some (VList (related_items env pkg_dict))
  else if String.eqb key "sizes" then
    Some (value_or (sizes_value pkg_dict) (VList []))
  else if String.eqb key "formats" then
    Some (value_or (formats_value env pkg_dict) (VList []))
  else if String.eqb key "version" then Some (py_get pkg_dict "version")
  else if String.eqb key "rightsList" then Some (expected_rights env pkg_dict)
  else if String.eqb key "descriptions" then
    Some (VList [ VDict [ ("descriptionType", VStr "Other");
                          ("description",
                            py_get_default pkg_dict "notes" (VStr "")) ] ])
  else if String.eqb key "geoLocations" then
    Some (VList (geolocations_items env pkg_dict))
  else if String.eqb key "fundingReferences" then
    Some (VList (funding_items env pkg_dict))
  else None.

(** The derivation of the creators failed. *)
Definition creators_fail (env : Env) (pkg_dict : dict) : Prop :=
  exists k msg, author_list env pkg_dict creator_entry = Raise k msg.

(** The entries of [required_errors] in a run without plugins: each failed
    key with its cause, in the order of the message. *)
Definition failed_entries (env : Env) (pkg_dict : dict) : dict :=
  (match author_list env pkg_dict creator_entry with
   | Ok _ => []
   | Raise k msg => [ ("creators", VExc k msg) ]
   end)
  ++ (if is_none (py_get (config env) "ckanext.doi.publisher")
      then [ ("publisher", required_cannot_be_None) ] else [])
  ++ (if is_none (py_get pkg_dict "type")
      then [ ("resourceType", required_cannot_be_None) ] else []).

(** The keys of [errors] are distinct. *)
Definition errors_distinct (st : state) : Prop := NoDup (dict_keys (errors st)).

(** A contributor entry is the creator entry of the same author with a
    [contributorType] put after the name. *)
Definition contributor_of (creator contributor : pyval) : Prop :=
  exists name rest,
    creator = VDict (("name", name) :: rest)
    /\ contributor
       = VDict (("name", name) :: ("contributorType", VStr "ContactPerson") :: rest).

(** The entries of the document's [dates] for one source date: the entry
    of the record with its date made a text. *)
Definition date_texts (env : Env) (pkg_dict : dict) (dateType source_key : string)
    : list pyval :=
  match date_or_none env (py_get pkg_dict source_key) with
  | Ok d => [ VDict [ ("dateType", VStr dateType); ("date", VStr (py_str env d)) ] ]
  | Raise _ _ => []
  end.

Definition expected_date_texts (env : Env) (pkg_dict : dict) : list pyval :=
  date_texts env pkg_dict "Created" "metadata_created"
  ++ date_texts env pkg_dict "Updated" "metadata_modified"
  ++ (if dict_mem "doi_date_published" pkg_dict
      then date_texts env pkg_dict "Issued" "doi_date_published"
      else []).

(** An entry of [fundingReferences]: the three keys, and an identifier
    type that is neither ['Wikidata'] nor empty. *)
Definition funding_reference (e : pyval) : Prop :=
  exists name ident id_type,
    e = VDict [ ("funderName", name);
                ("funderIdentifier", ident);
                ("funderIdentifierType", id_type) ]
    /\ id_type <> VStr "Wikidata" /\ id_type <> VStr "".

(** An entry of [geoLocations] for a point: two coordinates, each the
    text of a float. *)
Definition geo_point (env : Env) (e : pyval) : Prop :=
  exists lon lat,
    e = VDict [ ("geoLocationPoint",
                  VDict [ ("pointLongitude", VStr (float_repr env lon));
                          ("pointLatitude", VStr (float_repr env lat)) ]) ].

(** An entry of [geoLocations] for an area: four bounds, each the text of
    a float. *)
Definition geo_box (env : Env) (e : pyval) : Prop :=
  exists west east south north,
    e = VDict [ ("geoLocationBox",
                  VDict [ ("westBoundLongitude", VStr (float_repr env west));
                          ("eastBoundLongitude", VStr (float_repr env east));
                          ("southBoundLatitude", VStr (float_repr env south));
                          ("northBoundLatitude", VStr (float_repr env north)) ]) ].

(** [a < b] for texts, as [sorted] compares them: by code points. *)
Definition text_lt (a b : string) : Prop := String.compare a b = Lt.

(** The subject entry of one tag. *)
Definition subject_of (tag : string) : pyval := VDict [ ("subject", VStr tag) ].

(** Every exception [m] lets out satisfies [Q]. *)
Definition raises_only {A} (Q : exn_kind -> string -> Prop) (m : M A) : Prop :=
  forall st k msg, snd (m st) = Raise k msg -> Q k msg.

(** [doi_date_published[:4].isdecimal()], the test of the PUBLICATION YEAR
    section. *)
Definition year_test (pkg_dict : dict) : result bool :=
  rbind (slice_to 4 (py_get pkg_dict "doi_date_published")) method_isdecimal.

(** The two ways out of the base extraction: the test of the PUBLICATION
    YEAR section, which stands outside every [try], and an exception of
    the GEOLOCATIONS loops that their handler does not take. *)
Definition escapes (env : Env) (pkg_dict : dict) (k : exn_kind) (msg : string)
    : Prop :=
  (~ text_or_None (py_get pkg_dict "doi_date_published")
   /\ year_test pkg_dict = Raise k msg)
  \/ (geolocations_outcome env pkg_dict = Raise k msg
      /\ ValueError_KeyError_IndexError k = false).

(** One turn of the loop over the plugins in [build_metadata_dict]: the
    plugin is called with the source record and with what the turn before
    left; nothing is called after an exception. *)
Definition plugin_step (pkg_dict : dict) (acc : result (dict * dict))
    (plugin : IDoi) : result (dict * dict) :=
  match acc with
  | Ok (metadata_dict, errs) =>
      plugin_build_metadata_dict plugin pkg_dict metadata_dict errs
  | Raise k msg => Raise k msg
  end.

(** One turn of the loop over the plugins in [build_xml_dict]. *)
Definition xml_plugin_step (metadata_dict : dict) (acc : result dict)
    (plugin : IDoi) : result dict :=
  match acc with
  | Ok xml_dict => plugin_build_xml_dict plugin metadata_dict xml_dict
  | Raise k msg => Raise k msg
  end.

(** More source records and deployments for the examples. *)
Module MoreCases.

(** An internal record whose only date entry has no [date]. *)
Definition malformed_dates : dict :=
  [ ("creators", VList []);
    ("dates", VList [ VDict [ ("dateType", VStr "Created") ] ]) ].

(** An [author] literal that is a mapping, not a list of mappings. *)
Definition author_mapping : dict :=
  Sample.pkg_with "author" (VStr "{'author_name': 'A. Author'}").

(** A location that no section reads. *)
Definition unread_location : dict :=
  dict_set "location_choice" (VStr "noLocation")
    (Sample.pkg_with "location_data" (VInt 3)).

(** A line feature and a point feature. *)
Definition point_and_line : dict :=
  dict_set "location_choice" (VStr "point")
    (Sample.pkg_with "location_data"
       (VDict [ ("features",
                  VList [ VDict [ ("geometry",
                                    VDict [ ("type", VStr "LineString") ]) ];
                          VDict [ ("geometry",
                                    VDict [ ("type", VStr "Point");
                                            ("coordinates",
                                              VList [ VInt 151; VInt (-33) ]) ]) ] ]) ])).

(** A funder whose identifier type is ['Wikidata']. *)
Definition wikidata_funder : dict :=
  Sample.pkg_with "funder"
    (VStr "[{'funder_name': 'ARC', 'funder_identifier': 'Q781365', 'funder_identifier_type': 'Wikidata'}]").

(** Tags given twice, out of order, with an empty piece. *)
Definition repeated_tags : dict :=
  dict_set "tags" (VList [ VDict [ ("name", VStr "geology") ]; VStr "basalt" ])
    (Sample.pkg_with "tag_string" (VStr "geology,,basalt,ash")).

(** The sample deployment with no publisher configured. *)
Definition no_publisher : Env :=
  {| config := [];
     now_year := now_year Sample.env;
     date_or_none := date_or_none Sample.env;
     ckan_lang := ckan_lang Sample.env;
     get_site_url := get_site_url Sample.env;
     get_license_register := get_license_register Sample.env;
     plugins := [];
     parse_literal := parse_literal Sample.env;
     parse_float := parse_float Sample.env;
     float_repr := float_repr Sample.env;
     repr_other := repr_other Sample.env;
     sorted_set_other := sorted_set_other Sample.env;
     list_of_set := list_of_set Sample.env |}.

(** A plugin that puts a publisher into the record and into the
    document. *)
Definition stamp (name : string) : IDoi :=
  {| plugin_build_metadata_dict := fun _ metadata_dict errs =>
       Ok (dict_set "publisher" (VStr name) metadata_dict, errs);
     plugin_build_xml_dict := fun _ xml_dict =>
       Ok (dict_set "publisher" (VStr name) xml_dict) |}.

(** A plugin that raises in both hooks. *)
Definition refuse : IDoi :=
  {| plugin_build_metadata_dict := fun _ _ _ => Raise OtherException "refused";
     plugin_build_xml_dict := fun _ _ => Raise OtherException "refused" |}.

(** [no_publisher] with plugins registered. *)
Definition no_publisher_with (ps : list IDoi) : Env :=
  {| config := [];
     now_year := now_year Sample.env;
     date_or_none := date_or_none Sample.env;
     ckan_lang := ckan_lang Sample.env;
     get_site_url := get_site_url Sample.env;
     get_license_register := get_license_register Sample.env;
     plugins := ps;
     parse_literal := parse_literal Sample.env;
     parse_float := parse_float Sample.env;
     float_repr := float_repr Sample.env;
     repr_other := repr_other Sample.env;
     sorted_set_other := sorted_set_other Sample.env;
     list_of_set := list_of_set Sample.env |}.

End MoreCases.

(** ** Vocabulary of the date failures and of the escaping exceptions *)

(** What a handler that records into a map leaves under its key. *)
Definition or_failure (r : result pyval) (ov : option pyval) : option pyval :=
  match r with
  | Ok _ => ov
  | Raise k msg => Some (VExc k msg)
  end.

(** The failure the DATES section records in [date_errors] under each of
    its three keys: that of the entry's own [date_or_none] call, the third
    one attempted only when the source record has the key.  Nothing is
    recorded under any other key. *)
Definition date_failure (env : Env) (pkg_dict : dict) (key : string)
    : option pyval :=
  if String.eqb key "created" then
    failure_of (date_or_none env (py_get pkg_dict "metadata_created"))
  else if String.eqb key "updated" then
    failure_of (date_or_none env (py_get pkg_dict "metadata_modified"))
  else if String.eqb key "doi_date_published" then
    if dict_mem "doi_date_published" pkg_dict
    then failure_of (date_or_none env (py_get pkg_dict "doi_date_published"))
    else None
  else None.

(** [m] raises the exception, whatever the locals hold. *)
Definition always_raises {A} (k : exn_kind) (msg : string) (m : M A) : Prop :=
  forall st, exists st', m st = (st', Raise k msg).

(** * Properties *)

(** ** Texts *)

Lemma concat_characters s : concat_texts (characters s) = s.
Proof.
  induction s as [|c s IH]; simpl; [reflexivity|].
  destruct (characters s) as [|w ws] eqn:E.
  - simpl in *. now subst.
  - destruct (starts_with_continuation w); rewrite <- IH; reflexivity.
Qed.

Lemma characters_nil s : characters s = [] <-> s = "".
Proof.
  split; [|now intros ->].
  destruct s as [|c s]; [reflexivity|]. simpl.
  destruct (characters s) as [|w ws]; [discriminate|].
  destruct (starts_with_continuation w); discriminate.
Qed.

Lemma land_ones_63 x : N.land x 63 = (x mod 64)%N.
Proof. exact (N.land_ones x 6). Qed.
Lemma land_ones_31 x : N.land x 31 = (x mod 32)%N.
Proof. exact (N.land_ones x 5). Qed.
Lemma land_ones_15 x : N.land x 15 = (x mod 16)%N.
Proof. exact (N.land_ones x 4). Qed.
Lemma land_ones_7 x : N.land x 7 = (x mod 8)%N.
Proof. exact (N.land_ones x 3). Qed.

Lemma byte_value n : (n < 256)%N -> N_of_ascii (ascii_of_N n) = n.
Proof. apply N_ascii_embedding. Qed.

(** Linear arithmetic with quotients and remainders by constants. *)
Ltac nlia := zify; Z.to_euclidean_division_equations; lia.

Ltac bytes :=
  repeat match goal with
         | |- context [N_of_ascii (ascii_of_N ?x)] =>
             rewrite (byte_value x) by nlia
         end.

Ltac decide_ltb :=
  repeat match goal with
         | |- context [(?a <? ?b)%N] =>
             destruct (N.ltb_spec a b); try nlia
         | |- context [(?a <=? ?b)%N] =>
             destruct (N.leb_spec a b); try nlia
         end.

(** A character made from a code point reads back as that code point. *)
Lemma code_point_utf8 cp : is_code_point cp -> code_point (utf8 cp) = cp.
Proof.
  unfold is_code_point, utf8. intros H.
  destruct (N.ltb_spec cp 128); [|destruct (N.ltb_spec cp 2048);
    [|destruct (N.ltb_spec cp 65536)]];
    cbn [code_point list_ascii_of_string fold_left]; unfold lead_payload;
    rewrite ?land_ones_63; bytes.
  all: rewrite ?land_ones_31, ?land_ones_15, ?land_ones_7.
  all: decide_ltb; try reflexivity; nlia.
Qed.

Lemma utf8_start cp :
  is_code_point cp ->
  exists c rest, utf8 cp = String c rest /\ is_continuation c = false.
Proof.
  unfold is_code_point, utf8. intros H.
  destruct (N.ltb_spec cp 128); [|destruct (N.ltb_spec cp 2048);
    [|destruct (N.ltb_spec cp 65536)]];
    do 2 eexists; (split; [reflexivity|]); unfold is_continuation; bytes;
    decide_ltb; try reflexivity.
Qed.

Lemma characters_utf8 cp s :
  is_code_point cp ->
  match characters s with
  | w :: _ => starts_with_continuation w = false
  | [] => True
  end ->
  characters (utf8 cp ++ s) = utf8 cp :: characters s.
Proof.
  unfold is_code_point, utf8. intros H Hs.
  assert (Hcont : forall r, (r < 64)%N -> is_continuation (ascii_of_N (128 + r)) = true).
  { intros r Hr. unfold is_continuation. bytes. decide_ltb; try reflexivity. }
  assert (Hone : forall c, characters (String c s) = String c "" :: characters s).
  { intros c. cbn [characters]. destruct (characters s) as [|w ws]; [reflexivity|].
    now rewrite Hs. }
  assert (Hstep : forall c c' t w ws,
            is_continuation c' = true ->
            characters (String c' t) = String c' w :: ws ->
            characters (String c (String c' t)) = String c (String c' w) :: ws).
  { intros c c' t w ws Hc Ht. cbn [characters] in *. rewrite Ht.
    cbn [starts_with_continuation]. now rewrite Hc. }
  destruct (N.ltb_spec cp 128); [|destruct (N.ltb_spec cp 2048);
    [|destruct (N.ltb_spec cp 65536)]]; cbn [String.append].
  - apply Hone.
  - apply Hstep; [apply Hcont; nlia | apply Hone].
  - apply Hstep; [apply Hcont; nlia |].
    apply Hstep; [apply Hcont; nlia | apply Hone].
  - apply Hstep; [apply Hcont; nlia |].
    apply Hstep; [apply Hcont; nlia |].
    apply Hstep; [apply Hcont; nlia | apply Hone].
Qed.

(** A text made from code points has these code points as its characters,
    so its length, its prefixes and [isdecimal] are those of the sequence
    of code points. *)
Lemma characters_text_of cps :
  Forall is_code_point cps -> characters (text_of cps) = map utf8 cps.
Proof.
  induction 1 as [|cp cps Hcp Hall IH]; [reflexivity|].
  unfold text_of, concat_texts in *. cbn [map fold_right].
  rewrite characters_utf8; [now rewrite IH | assumption |].
  rewrite IH.
  destruct Hall as [|cp' cps' Hcp' _]; [exact I|]. cbn [map].
  destruct (utf8_start cp' Hcp') as (c & rest & -> & Hc). exact Hc.
Qed.

Lemma text_prefix_text_of n cps :
  Forall is_code_point cps -> text_prefix n (text_of cps) = text_of (firstn n cps).
Proof.
  intros H. unfold text_prefix. rewrite characters_text_of by assumption.
  unfold text_of. now rewrite firstn_map.
Qed.

Lemma text_length_text_of cps :
  Forall is_code_point cps -> text_length (text_of cps) = List.length cps.
Proof.
  intros H. unfold text_length. rewrite characters_text_of by assumption.
  apply length_map.
Qed.

Lemma is_decimal_utf8 cp : is_code_point cp -> is_decimal (utf8 cp) = decimal_code_point cp.
Proof.
  intros H. unfold is_decimal. rewrite code_point_utf8 by assumption.
  now rewrite String.eqb_refl.
Qed.

Lemma isdecimal_text_of cps :
  Forall is_code_point cps ->
  isdecimal (text_of cps)
  = match cps with [] => false | _ => forallb decimal_code_point cps end.
Proof.
  intros H. unfold isdecimal. rewrite characters_text_of by assumption.
  assert (Hall : forallb is_decimal (map utf8 cps) = forallb decimal_code_point cps).
  { induction H as [|cp cps Hcp Hall IH]; [reflexivity|]. cbn [map forallb].
    now rewrite is_decimal_utf8, IH. }
  rewrite Hall. destruct H as [|cp cps Hcp _]; [reflexivity|].
  unfold text_of. cbn [map concat_texts fold_right].
  destruct (utf8_start cp Hcp) as (c & rest & -> & _). reflexivity.
Qed.

(** ** Dictionaries *)

Lemma dict_get_set_same (k : string) (v : pyval) (d : dict) :
  dict_get k (dict_set k v d) = Some v.
Proof.
  induction d as [|[k' v'] d IH]; simpl.
  - now rewrite String.eqb_refl.
  - destruct (String.eqb k k') eqn:E; simpl; rewrite E; auto.
Qed.

Lemma dict_get_set_other (k k' : string) (v : pyval) (d : dict) :
  k <> k' -> dict_get k (dict_set k' v d) = dict_get k d.
Proof.
  intros Hne. induction d as [|[k0 v0] d IH]; simpl.
  - destruct (String.eqb_spec k k'); congruence.
  - destruct (String.eqb_spec k' k0) as [->|Hk]; simpl.
    + destruct (String.eqb_spec k k0); congruence.
    + destruct (String.eqb_spec k k0); auto.
Qed.

Lemma dict_get_set (k k' : string) (v : pyval) (d : dict) :
  dict_get k (dict_set k' v d) = if String.eqb k k' then Some v else dict_get k d.
Proof.
  destruct (String.eqb_spec k k') as [->|Hne].
  - apply dict_get_set_same.
  - now apply dict_get_set_other.
Qed.

Lemma dict_mem_In (k : string) (d : dict) :
  dict_mem k d = true <-> In k (dict_keys d).
Proof.
  unfold dict_mem. induction d as [|[k' v'] d IH]; simpl.
  - split; [discriminate | tauto].
  - destruct (String.eqb_spec k k') as [->|Hne].
    + split; auto.
    + rewrite IH. split; [auto | intros [H|H]; congruence].
Qed.

Lemma dict_get_None_notin (k : string) (d : dict) :
  dict_get k d = None <-> ~ In k (dict_keys d).
Proof.
  rewrite <- dict_mem_In. unfold dict_mem.
  destruct (dict_get k d); split; intro H; congruence.
Qed.

Lemma dict_keys_set_in (k : string) (v : pyval) (d : dict) :
  In k (dict_keys d) -> dict_keys (dict_set k v d) = dict_keys d.
Proof.
  induction d as [|[k' v'] d IH]; simpl; [tauto|].
  intros H. destruct (String.eqb_spec k k') as [->|Hne]; simpl; auto.
  f_equal. apply IH. destruct H; congruence.
Qed.

Lemma dict_keys_set_new (k : string) (v : pyval) (d : dict) :
  ~ In k (dict_keys d) -> dict_keys (dict_set k v d) = dict_keys d ++ [k].
Proof.
  induction d as [|[k' v'] d IH]; simpl; auto.
  intros H. destruct (String.eqb_spec k k') as [->|Hne]; simpl.
  - exfalso; auto.
  - f_equal. apply IH. tauto.
Qed.

Lemma dict_set_In_keys (k k' : string) (v : pyval) (d : dict) :
  In k (dict_keys (dict_set k' v d)) <-> k = k' \/ In k (dict_keys d).
Proof.
  rewrite <- !dict_mem_In. unfold dict_mem. rewrite dict_get_set.
  destruct (String.eqb_spec k k') as [->|Hne].
  - split; auto.
  - split; [intros H; now right | intros [H|H]; congruence].
Qed.

(** [d.update(other)] looks up in [other] first. *)
Lemma dict_get_update (k : string) (other d : dict) :
  NoDup (dict_keys other) ->
  dict_get k (dict_update d other) =
  match dict_get k other with Some v => Some v | None => dict_get k d end.
Proof.
  unfold dict_update. revert d.
  induction other as [|[k' v'] other IH]; intros d Hnd; simpl; auto.
  inversion Hnd as [|? ? Hnotin Hnd']; subst.
  rewrite IH by assumption. rewrite dict_get_set.
  destruct (String.eqb_spec k k') as [->|Hne].
  - apply dict_get_None_notin in Hnotin. now rewrite Hnotin.
  - reflexivity.
Qed.

(** ** Reasoning on the state monad *)

Section Rules.
Context {A B : Type}.
Variable P : state -> Prop.

Lemma preserves_ret (a : A) : preserves P (ret a).
Proof. intros st H; exact H. Qed.

Lemma preserves_lift (r : result A) : preserves P (lift r).
Proof. intros st H; exact H. Qed.

Lemma preserves_bind (m : M A) (f : A -> M B) :
  preserves P m -> (forall a, preserves P (f a)) -> preserves P (bind m f).
Proof.
  intros Hm Hf st H. unfold bind. specialize (Hm st H).
  destruct (m st) as [st' [a|k msg]]; simpl in *; auto.
  now apply Hf.
Qed.

Lemma triple_frame (m : M A) : preserves P m -> triple P m P.
Proof.
  intros Hm st st' a H E. specialize (Hm st H). now rewrite E in Hm.
Qed.

Lemma triple_bind (Q R : state -> Prop) (m : M A) (f : A -> M B) :
  triple P m R -> (forall a, triple R (f a) Q) -> triple P (bind m f) Q.
Proof.
  intros Hm Hf st st' b H E. unfold bind in E.
  destruct (m st) as [st1 [a|k msg]] eqn:Em; [|discriminate].
  eapply Hf; eauto.
Qed.

Lemma never_raises_ret (a : A) : never_raises (ret a).
Proof. intros st; now exists a. Qed.

Lemma never_raises_bind (m : M A) (f : A -> M B) :
  never_raises m -> (forall a, never_raises (f a)) -> never_raises (bind m f).
Proof.
  intros Hm Hf st. unfold bind. destruct (Hm st) as [a Ha].
  destruct (m st) as [st' r]; simpl in Ha; subst r. apply Hf.
Qed.
End Rules.

Lemma preserves_try_except (P : state -> Prop) catches body handler :
  preserves P body -> (forall e, preserves P (handler e)) ->
  preserves P (try_except catches body handler).
Proof.
  intros Hb Hh st H. unfold try_except. specialize (Hb st H).
  destruct (body st) as [st' [a|k msg]]; simpl in *; auto.
  destruct (catches k); simpl; auto. now apply Hh.
Qed.

Lemma preserves_for_each (P : state -> Prop) xs body :
  (forall x, preserves P (body x)) -> preserves P (for_each xs body).
Proof.
  intros Hb. induction xs as [|x xs IH]; simpl.
  - apply preserves_ret.
  - apply preserves_bind; auto.
Qed.

Lemma never_raises_try_any body handler :
  (forall e, never_raises (handler e)) ->
  never_raises (try_except any_Exception body handler).
Proof.
  intros Hh st. unfold try_except.
  destruct (body st) as [st' [[]|k msg]]; simpl.
  - now exists tt.
  - apply Hh.
Qed.

Lemma never_raises_set_required key v : never_raises (set_required key v).
Proof. intros st; now exists tt. Qed.

Lemma never_raises_set_optional key v : never_raises (set_optional key v).
Proof. intros st; now exists tt. Qed.

Lemma never_raises_set_error key e : never_raises (set_error key e).
Proof. intros st; now exists tt. Qed.

Lemma never_raises_set_date_error key e : never_raises (set_date_error key e).
Proof. intros st; now exists tt. Qed.

(** *** What each assignment leaves alone *)

Lemma holds_set_required s ov key v :
  s <> Req key -> preserves (holds s ov) (set_required key v).
Proof.
  intros Hs st H. unfold holds in *. destruct s; simpl in *; auto.
  rewrite dict_get_set_other; auto. congruence.
Qed.

Lemma holds_set_optional s ov key v :
  s <> Opt key -> preserves (holds s ov) (set_optional key v).
Proof.
  intros Hs st H. unfold holds in *. destruct s; simpl in *; auto.
  rewrite dict_get_set_other; auto. congruence.
Qed.

Lemma holds_set_error s ov key v :
  s <> Err key -> preserves (holds s ov) (set_error key v).
Proof.
  intros Hs st H. unfold holds in *. destruct s; simpl in *; auto.
  rewrite dict_get_set_other; auto. congruence.
Qed.

Lemma holds_set_date_error s ov key v :
  s <> DErr key -> preserves (holds s ov) (set_date_error key v).
Proof.
  intros Hs st H. unfold holds in *. destruct s; simpl in *; auto.
  rewrite dict_get_set_other; auto. congruence.
Qed.

Lemma holds_optional_append s ov key item :
  s <> Opt key -> preserves (holds s ov) (optional_append key item).
Proof.
  intros Hs st H. unfold optional_append.
  destruct (dict_get key (optional st)) as [[]|]; simpl; auto.
  now apply holds_set_optional.
Qed.

Lemma keys_ok_set_required key v :
  In key (dict_keys init_required) -> preserves keys_ok (set_required key v).
Proof.
  intros Hin st [Hr Ho]. split; simpl; auto.
  rewrite dict_keys_set_in; auto. now rewrite Hr.
Qed.

Lemma keys_ok_set_optional key v :
  In key (dict_keys init_optional) -> preserves keys_ok (set_optional key v).
Proof.
  intros Hin st [Hr Ho]. split; simpl; auto.
  rewrite dict_keys_set_in; auto. now rewrite Ho.
Qed.

Lemma keys_ok_set_error key v : preserves keys_ok (set_error key v).
Proof. intros st H; exact H. Qed.

Lemma keys_ok_set_date_error key v : preserves keys_ok (set_date_error key v).
Proof. intros st H; exact H. Qed.

Lemma keys_ok_optional_append key item :
  In key (dict_keys init_optional) -> preserves keys_ok (optional_append key item).
Proof.
  intros Hin st H. unfold optional_append.
  destruct (dict_get key (optional st)) as [[]|]; simpl; auto.
  now apply keys_ok_set_optional.
Qed.

Lemma preserves_both {A} (P Q : state -> Prop) (m : M A) :
  preserves P m -> preserves Q m -> preserves (both P Q) m.
Proof. intros HP HQ st [H1 H2]. split; auto. Qed.

(** *** Automation for frame conditions *)

Ltac side_condition :=
  solve [ assumption | discriminate | congruence | simpl; auto 20 ].

Ltac unfold_blocks :=
  unfold creators_block, titles_block, publisher_block, publication_year_block,
    resource_type_block, subjects_block, contributors_block, dates_block,
    date_entry, language_block, alternate_identifiers_block,
    related_identifiers_block, sizes_block, formats_block, version_block,
    rights_block, descriptions_block, geolocations_block, funding_block,
    _add_required, append_each;
  cbv zeta.

Ltac frame_step :=
  first
    [ apply preserves_ret
    | apply preserves_lift
    | apply preserves_bind; [| intros ?]
    | apply preserves_try_except; [| intros ?]
    | apply preserves_for_each; intros ?
    | apply holds_set_required; side_condition
    | apply holds_set_optional; side_condition
    | apply holds_set_error; side_condition
    | apply holds_set_date_error; side_condition
    | apply holds_optional_append; side_condition
    | apply keys_ok_set_required; side_condition
    | apply keys_ok_set_optional; side_condition
    | apply keys_ok_set_error
    | apply keys_ok_set_date_error
    | apply keys_ok_optional_append; side_condition
    | match goal with
      | |- preserves _ (match ?x with _ => _ end) => destruct x
      end ].

Ltac frame :=
  unfold_blocks;
  repeat first
    [ match goal with |- preserves (both _ _) _ => apply preserves_both end
    | frame_step ].

(** One block of a sequence: either it leaves the assertion alone, or it is
    the block [spec] speaks of. *)
Ltac walk_block spec :=
  first [ solve [ apply triple_frame; frame ] | apply spec ].

Ltac walk spec :=
  unfold base_fields;
  repeat (eapply triple_bind; [ walk_block spec | intros _ ]);
  walk_block spec.

Lemma base_fields_keys_ok env pkg_dict : preserves keys_ok (base_fields env pkg_dict).
Proof. unfold base_fields. frame. Qed.

Lemma init_keys_ok : keys_ok init_state.
Proof. split; reflexivity. Qed.

(** No block writes [errors['dates']]. *)
Lemma base_fields_no_dates_error env pkg_dict :
  preserves (holds (Err "dates") None) (base_fields env pkg_dict).
Proof. unfold base_fields. frame. Qed.

(** ** The merged record *)

Lemma merged_get (st : state) (k : string) :
  keys_ok st ->
  dict_get k (merged st) =
  match dict_get k (optional st) with
  | Some v => Some v
  | None => dict_get k (required st)
  end.
Proof.
  intros [Hr Ho]. unfold merged.
  rewrite dict_get_update.
  - destruct (dict_get k (optional st)); auto.
    rewrite dict_get_update.
    + now destruct (dict_get k (required st)).
    + rewrite Hr. repeat constructor; simpl; intuition discriminate.
  - rewrite Ho. repeat constructor; simpl; intuition discriminate.
Qed.

(** A key of [optional] is read from [optional]. *)
Lemma merged_get_optional (st : state) (k : string) (v : pyval) :
  keys_ok st -> dict_get k (optional st) = Some v -> dict_get k (merged st) = Some v.
Proof. intros Hk Hv. rewrite merged_get by assumption. now rewrite Hv. Qed.

(** A key of [required] that [optional] lacks is read from [required]. *)
Lemma merged_get_required (st : state) (k : string) :
  keys_ok st -> ~ In k (dict_keys init_optional) ->
  dict_get k (merged st) = dict_get k (required st).
Proof.
  intros Hk Hnot. rewrite merged_get by assumption.
  destruct Hk as [_ Ho]. rewrite <- Ho in Hnot.
  apply dict_get_None_notin in Hnot. now rewrite Hnot.
Qed.

(** What [base_extract] returns, unfolded. *)
Lemma base_extract_Ok env pkg_dict st metadata_dict errs :
  base_extract env pkg_dict = Ok (st, metadata_dict, errs) ->
  base_fields env pkg_dict init_state = (st, Ok tt)
  /\ metadata_dict = merged st /\ errs = errors st /\ keys_ok st.
Proof.
  unfold base_extract. intros H.
  pose proof (base_fields_keys_ok env pkg_dict init_state init_keys_ok) as Hk.
  destruct (base_fields env pkg_dict init_state) as [st0 [[]|k msg]];
    [|discriminate].
  inversion H; subst. auto.
Qed.

(** ** DATES *)

Section Dates.
Variable env : Env.
Variable pkg_dict : dict.

Lemma date_entry_spec dateType source_key error_key l0 :
  triple (holds (Opt "dates") (Some (VList l0)))
    (date_entry env pkg_dict dateType source_key error_key)
    (holds (Opt "dates")
       (Some (VList (l0 ++ date_items env pkg_dict dateType source_key)))).
Proof.
  intros st st' a H E. unfold holds in *; simpl in *.
  unfold date_entry, try_except, bind, lift, optional_append, date_items in *.
  destruct (date_or_none env (py_get pkg_dict source_key)) as [d|k msg].
  - rewrite H in E. simpl in E. inversion E; subst; simpl.
    apply dict_get_set_same.
  - simpl in E. inversion E; subst; simpl. now rewrite app_nil_r.
Qed.

Lemma dates_block_spec :
  triple (holds (Opt "dates") (Some (VList [])))
    (dates_block env pkg_dict)
    (holds (Opt "dates") (Some (VList (expected_dates env pkg_dict)))).
Proof.
  unfold dates_block, expected_dates.
  eapply triple_bind; [apply date_entry_spec | intros _].
  eapply triple_bind; [apply date_entry_spec | intros _].
  simpl app. destruct (dict_mem "doi_date_published" pkg_dict).
  - rewrite app_assoc. apply date_entry_spec.
  - rewrite app_nil_r. apply triple_frame, preserves_ret.
Qed.

Lemma base_fields_dates :
  triple (holds (Opt "dates") (Some (VList [])))
    (base_fields env pkg_dict)
    (holds (Opt "dates") (Some (VList (expected_dates env pkg_dict)))).
Proof. walk dates_block_spec. Qed.

Lemma date_items_length dateType source_key :
  (List.length (date_items env pkg_dict dateType source_key) <= 1)%nat.
Proof. unfold date_items. destruct (date_or_none _ _); simpl; lia. Qed.
End Dates.

Lemma extracted_dates env pkg_dict st metadata_dict errs :
  base_extract env pkg_dict = Ok (st, metadata_dict, errs) ->
  dict_get "dates" metadata_dict = Some (VList (expected_dates env pkg_dict)).
Proof.
  intros H. apply base_extract_Ok in H as (Hrun & -> & _ & Hk).
  apply merged_get_optional; [assumption|].
  exact (base_fields_dates env pkg_dict init_state st tt eq_refl Hrun).
Qed.

(** C9. The extracted [dates] list is the Created entry (from
    [metadata_created]), then the Updated entry (from [metadata_modified]),
    then the Issued entry (from [doi_date_published]), so at most three
    entries in that order.  The Issued entry is attempted exactly when the
    key [doi_date_published] is in the source record, whatever its value.
    Each entry is there exactly when its own [date_or_none] call did not
    raise, so one failing derivation leaves the other two entries as they
    are. *)
Theorem dates_created_updated_issued env pkg_dict st metadata_dict errs :
  base_extract env pkg_dict = Ok (st, metadata_dict, errs) ->
  dict_get "dates" metadata_dict =
    Some (VList (date_items env pkg_dict "Created" "metadata_created"
                 ++ date_items env pkg_dict "Updated" "metadata_modified"
                 ++ (if dict_mem "doi_date_published" pkg_dict
                     then date_items env pkg_dict "Issued" "doi_date_published"
                     else [])))
  /\ (List.length (expected_dates env pkg_dict) <= 3)%nat.
Proof.
  intros H. split.
  - exact (extracted_dates env pkg_dict st metadata_dict errs H).
  - unfold expected_dates. rewrite !length_app.
    pose proof (date_items_length env pkg_dict "Created" "metadata_created").
    pose proof (date_items_length env pkg_dict "Updated" "metadata_modified").
    pose proof (date_items_length env pkg_dict "Issued" "doi_date_published").
    destruct (dict_mem "doi_date_published" pkg_dict); simpl; lia.
Qed.

(** ** Blocks of the shape [try: optional[key] = value  except Exception] *)

Lemma try_set_optional_value key r v0 :
  triple (holds (Opt key) (Some v0))
    (try_except any_Exception
       (bind (lift r) (fun v => set_optional key v))
       (fun e => set_error key e))
    (holds (Opt key) (Some (value_or r v0))).
Proof.
  intros st st' a H E. unfold holds in *; simpl in *.
  unfold try_except, bind, lift in E. destruct r as [v|k msg]; simpl in *.
  - inversion E; subst; simpl. apply dict_get_set_same.
  - inversion E; subst; simpl. exact H.
Qed.

Lemma try_set_optional_error key r :
  triple (holds (Err key) None)
    (try_except any_Exception
       (bind (lift r) (fun v => set_optional key v))
       (fun e => set_error key e))
    (holds (Err key) (failure_of r)).
Proof.
  intros st st' a H E. unfold holds in *; simpl in *.
  unfold try_except, bind, lift in E. destruct r as [v|k msg]; simpl in *.
  - inversion E; subst; simpl. exact H.
  - inversion E; subst; simpl. apply dict_get_set_same.
Qed.

Lemma try_set_required_error key r :
  triple (holds (Err key) None)
    (try_except any_Exception
       (bind (lift r) (fun v => set_required key v))
       (fun e => set_error key e))
    (holds (Err key) (failure_of r)).
Proof.
  intros st st' a H E. unfold holds in *; simpl in *.
  unfold try_except, bind, lift in E. destruct r as [v|k msg]; simpl in *.
  - inversion E; subst; simpl. exact H.
  - inversion E; subst; simpl. apply dict_get_set_same.
Qed.

(** ** PUBLICATION YEAR *)

Lemma publication_year_block_run env pkg_dict st :
  text_or_None (py_get pkg_dict "doi_date_published") ->
  publication_year_block env pkg_dict st =
    (mkState (dict_set "publicationYear" (expected_year env pkg_dict) (required st))
       (optional st) (errors st) (date_errors st), Ok tt).
Proof.
  unfold publication_year_block, expected_year, _add_required.
  intros [H|[s H]]; rewrite H; simpl.
  - reflexivity.
  - unfold bind, lift, try_except; simpl.
    destruct (isdecimal (text_prefix 4 s)); reflexivity.
Qed.

Lemma publication_year_block_spec env pkg_dict v0 :
  triple (holds (Req "publicationYear") (Some v0))
    (publication_year_block env pkg_dict)
    (holds (Req "publicationYear") (Some (expected_year env pkg_dict))).
Proof.
  intros st st' a H E. unfold holds in *; simpl in *.
  unfold publication_year_block, expected_year, _add_required in *.
  destruct (py_get pkg_dict "doi_date_published") as [| | | |s| | | |];
    simpl in E; unfold bind, lift, try_except in E; simpl in E;
    try discriminate;
    try (inversion E; subst; simpl; apply dict_get_set_same).
  destruct (isdecimal (text_prefix 4 s)); simpl in E;
    inversion E; subst; simpl; apply dict_get_set_same.
Qed.

Lemma base_fields_publication_year env pkg_dict :
  triple (holds (Req "publicationYear") (Some VNone))
    (base_fields env pkg_dict)
    (holds (Req "publicationYear") (Some (expected_year env pkg_dict))).
Proof. walk (publication_year_block_spec env pkg_dict). Qed.

(** ** RIGHTS *)

Lemma py_eq_str_false v s : v <> VStr s -> py_eq_str v s = false.
Proof.
  intros H. destruct v; simpl; auto.
  destruct (String.eqb_spec s0 s); congruence.
Qed.

Lemma is_none_false v : v <> VNone -> is_none v = false.
Proof. destruct v; simpl; congruence. Qed.

Lemma rights_block_spec env pkg_dict :
  triple (holds (Opt "rightsList") (Some (VList [])))
    (rights_block env pkg_dict)
    (holds (Opt "rightsList") (Some (expected_rights env pkg_dict))).
Proof.
  intros st st' a H E. unfold holds in *; simpl in *.
  unfold rights_block, expected_rights, register_lookup in *.
  destruct (py_eq_str (license_identifier pkg_dict) "cc-by-4.0-international").
  - unfold try_except, set_optional in E. inversion E; subst; simpl.
    apply dict_get_set_same.
  - destruct (py_eq_str (license_identifier pkg_dict) ""); simpl in *.
    + unfold try_except, set_optional in E. inversion E; subst; simpl.
      apply dict_get_set_same.
    + destruct (is_none (license_identifier pkg_dict)); simpl in *.
      * unfold try_except, set_optional in E. inversion E; subst; simpl.
        apply dict_get_set_same.
      * unfold try_except, bind, lift in E.
        destruct (get_license_register env) as [reg|k msg]; simpl in E.
        -- destruct (reg (license_identifier pkg_dict)) as [[lic|]|k msg];
             simpl in E; inversion E; subst; simpl; auto.
           apply dict_get_set_same.
        -- inversion E; subst; simpl; auto.
Qed.

Lemma base_fields_rights env pkg_dict :
  triple (holds (Opt "rightsList") (Some (VList [])))
    (base_fields env pkg_dict)
    (holds (Opt "rightsList") (Some (expected_rights env pkg_dict))).
Proof. walk (rights_block_spec env pkg_dict). Qed.

(** C7. The extracted [rightsList], by the license identifier
    ([license_id], or [license] when that is missing or [None]): the one
    SPDX entry for ['cc-by-4.0-international']; else, for an identifier
    that is neither empty nor [None], one entry with the register's URL
    and identifier when the lookup finds a license and the default empty
    list when it finds none; else one entry mapping ['rights'] to the raw
    identifier. *)
Theorem rights_list_precedence env pkg_dict st metadata_dict errs :
  base_extract env pkg_dict = Ok (st, metadata_dict, errs) ->
  let license_id :=
    match py_get pkg_dict "license_id" with
    | VNone => py_get_default pkg_dict "license" (VStr "")
    | v => v
    end in
  (license_id = VStr "cc-by-4.0-international" ->
   dict_get "rightsList" metadata_dict =
     Some (VList [ VDict [ ("rightsUri", VStr "https://spdx.org/licenses/CC-BY-4.0.html");
                           ("rightsIdentifier", VStr "CC-BY-4.0");
                           ("rightsIdentifierScheme", VStr "SPDX") ] ]))
  /\ (license_id <> VStr "cc-by-4.0-international" ->
      license_id <> VStr "" -> license_id <> VNone ->
      forall license_register,
        get_license_register env = Ok license_register ->
        (forall lic, license_register license_id = Ok (Some lic) ->
           dict_get "rightsList" metadata_dict =
             Some (VList [ VDict [ ("rightsUri", License_url lic);
                                   ("rightsIdentifier", License_id lic) ] ]))
        /\ (license_register license_id = Ok None ->
            dict_get "rightsList" metadata_dict = Some (VList [])))
  /\ (license_id = VStr "" \/ license_id = VNone ->
      dict_get "rightsList" metadata_dict =
        Some (VList [ VDict [ ("rights", license_id) ] ])).
Proof.
  intros H license_id.
  apply base_extract_Ok in H as (Hrun & -> & _ & Hk).
  pose proof (base_fields_rights env pkg_dict init_state st tt eq_refl Hrun) as Hr.
  unfold holds in Hr; simpl in Hr.
  rewrite (merged_get_optional st "rightsList" _ Hk Hr).
  assert (Hid : license_identifier pkg_dict = license_id).
  { unfold license_identifier, license_id.
    now destruct (py_get pkg_dict "license_id"). }
  unfold expected_rights, register_lookup. rewrite Hid. clear Hid Hr.
  split; [|split].
  - intros ->. reflexivity.
  - intros Hcc Hempty Hnone license_register Hreg.
    rewrite (py_eq_str_false _ _ Hcc), (py_eq_str_false _ _ Hempty),
      (is_none_false _ Hnone), Hreg.
    split.
    + intros lic Hlic. simpl. now rewrite Hlic.
    + intros Hlic. simpl. now rewrite Hlic.
  - intros [-> | ->]; reflexivity.
Qed.

(** ** SIZES *)

Local Open Scope Z_scope.





Local Close Scope Z_scope.





Lemma sizes_block_spec pkg_dict :
  triple (holds (Opt "sizes") (Some (VList [])))
    (sizes_block pkg_dict)
    (holds (Opt "sizes") (Some (value_or (sizes_value pkg_dict) (VList [])))).
Proof. apply try_set_optional_value. Qed.

Lemma base_fields_sizes env pkg_dict :
  triple (holds (Opt "sizes") (Some (VList [])))
    (base_fields env pkg_dict)
    (holds (Opt "sizes") (Some (value_or (sizes_value pkg_dict) (VList [])))).
Proof. walk (sizes_block_spec pkg_dict). Qed.


(** ** The projector *)

Lemma is_none_true v : is_none v = true <-> v = VNone.
Proof. destruct v; simpl; split; congruence. Qed.

(** [has_value] fails exactly for [None], for a zero length and for a
    value with no length. *)
Lemma has_value_false v :
  has_value v = false <->
  v = VNone \/ py_len v = Ok 0%nat \/ (exists k msg, py_len v = Raise k msg).
Proof.
  split.
  - unfold has_value. intros H.
    destruct (py_len v) as [n|k msg] eqn:Hlen.
    + destruct n as [|n]; [auto|].
      exfalso. destruct v; simpl in *; discriminate.
    + right; right; eauto.
  - unfold has_value. intros [->|[H|(k & msg & H)]].
    + reflexivity.
    + rewrite H. apply andb_false_r.
    + rewrite H. apply andb_false_r.
Qed.

Lemma has_value_true v :
  has_value v = true <-> v <> VNone /\ exists n, py_len v = Ok (S n).
Proof.
  split.
  - intros H. split.
    + intros ->. discriminate.
    + unfold has_value in H. apply andb_true_iff in H as [_ H].
      destruct (py_len v) as [[|n]|]; try discriminate. eauto.
  - intros [Hn [n Hlen]]. unfold has_value. rewrite Hlen.
    destruct v; try reflexivity. now elim Hn.
Qed.

Lemma date_entries_copy env l :
  forallb is_date_entry l = true ->
  exists item, mapM (date_entry_copy env) l = Ok item.
Proof.
  induction l as [|e l IH]; simpl; intros H.
  - eauto.
  - apply andb_true_iff in H as [He Hl]. destruct (IH Hl) as [item Hitem].
    destruct e as [| | | | | |d| |]; try discriminate. simpl in He.
    unfold dict_mem in He. simpl.
    destruct (dict_get "date" d); [|discriminate]. simpl.
    rewrite Hitem. eauto.
Qed.

Lemma valid_dates_copy env metadata_dict :
  valid_dates metadata_dict = true ->
  has_value (py_get metadata_dict "dates") = true ->
  exists c, dates_copy env metadata_dict = Ok c.
Proof.
  unfold valid_dates, dates_copy. intros Hv Hh.
  destruct (py_get metadata_dict "dates") as [| | | |s|l|d| |];
    try (rewrite Hh in Hv; discriminate).
  simpl. destruct (date_entries_copy env l Hv) as [item ->]. simpl. eauto.
Qed.

Lemma project_optional_eq env metadata_dict xml_dict k :
  (String.eqb k "dates" = true ->
   has_value (py_get metadata_dict "dates") = true ->
   exists c, dates_copy env metadata_dict = Ok c) ->
  project_optional env metadata_dict xml_dict k =
  Ok (if has_value (py_get metadata_dict k)
      then dict_set k (projected env metadata_dict k) xml_dict
      else xml_dict).
Proof.
  intros Hd. unfold project_optional, projected.
  destruct (has_value (py_get metadata_dict k)) eqn:Hh; auto.
  destruct (String.eqb k "dates") eqn:Ek; auto.
  apply String.eqb_eq in Ek. subst k.
  destruct (Hd eq_refl Hh) as [c Hc]. rewrite Hc.
  unfold dates_copy in Hc.
  destruct (py_iter (py_get metadata_dict "dates")) as [entries|]; [|discriminate].
  simpl in *. destruct (mapM (date_entry_copy env) entries); [|discriminate].
  simpl in *. now inversion Hc.
Qed.

Lemma project_fold env metadata_dict keys xml0 :
  valid_dates metadata_dict = true ->
  exists xml_dict,
    fold_left (fun acc k => rbind acc (fun x => project_optional env metadata_dict x k))
      keys (Ok xml0) = Ok xml_dict
    /\ forall k,
         dict_get k xml_dict =
         if existsb (String.eqb k) keys && has_value (py_get metadata_dict k)
         then Some (projected env metadata_dict k)
         else dict_get k xml0.
Proof.
  intros Hv. revert xml0. induction keys as [|k0 keys IH]; intros xml0.
  - exists xml0. split; auto.
  - cbn [fold_left rbind].
    rewrite project_optional_eq
      by (intros Hk Hh; apply (valid_dates_copy env metadata_dict Hv Hh)).
    destruct (IH (if has_value (py_get metadata_dict k0)
                  then dict_set k0 (projected env metadata_dict k0) xml0
                  else xml0)) as (xml_dict & Hfold & Hget).
    exists xml_dict. split; [exact Hfold|].
    intros k. rewrite Hget. cbn [existsb].
    destruct (String.eqb_spec k k0) as [->|Hne]; cbn [orb].
    + destruct (existsb (String.eqb k0) keys); cbn [andb];
        destruct (has_value (py_get metadata_dict k0)); auto.
      now rewrite dict_get_set_same.
    + destruct (existsb (String.eqb k) keys && has_value (py_get metadata_dict k));
        auto.
      destruct (has_value (py_get metadata_dict k0)); auto.
      now rewrite dict_get_set_other.
Qed.

Lemma In_existsb k keys : In k keys -> existsb (String.eqb k) keys = true.
Proof.
  intros H. apply existsb_exists. exists k. split; auto. apply String.eqb_refl.
Qed.

(** The record the base extraction returns is well formed. *)
Lemma extracted_record_valid_dates env pkg_dict st metadata_dict errs :
  base_extract env pkg_dict = Ok (st, metadata_dict, errs) ->
  valid_dates metadata_dict = true.
Proof.
  intros H.
  pose proof (extracted_dates env pkg_dict st metadata_dict errs H) as Hdates.
  unfold valid_dates, py_get. rewrite Hdates. unfold expected_dates.
  assert (Hitems : forall dateType source_key,
            forallb is_date_entry (date_items env pkg_dict dateType source_key)
            = true).
  { intros. unfold date_items. now destruct (date_or_none env _). }
  rewrite !forallb_app, !Hitems.
  destruct (dict_mem "doi_date_published" pkg_dict); [rewrite Hitems|]; reflexivity.
Qed.

(** C6. For a well-formed internal record, the document [build_xml_dict]
    hands to its extension pass (the one it returns when no plugin is
    registered) omits every optional key whose value is [None], has zero
    length or has no length, includes every optional key whose value is not
    [None] and has a nonzero length, and has [schemaVersion], a [types]
    block of the resolved [resourceType] and the constant ['Dataset'], and a
    [publicationYear] that is a text. *)
Theorem projection_keeps_nonempty_optionals env metadata_dict :
  valid_dates metadata_dict = true ->
  exists xml_dict,
    project env metadata_dict = Ok xml_dict
    /\ build_xml_dict env metadata_dict
       = run_xml_plugins metadata_dict (plugins env) xml_dict
    /\ (forall k, In k xml_optional ->
          py_get metadata_dict k = VNone
          \/ py_len (py_get metadata_dict k) = Ok 0%nat
          \/ (exists e msg, py_len (py_get metadata_dict k) = Raise e msg) ->
          dict_get k xml_dict = None)
    /\ (forall k, In k xml_optional ->
          py_get metadata_dict k <> VNone ->
          (exists n, py_len (py_get metadata_dict k) = Ok (S n)) ->
          dict_get k xml_dict =
            Some (if String.eqb k "dates"
                  then value_or (dates_copy env metadata_dict) VNone
                  else py_get metadata_dict k))
    /\ dict_get "schemaVersion" xml_dict
       = Some (VStr "http://datacite.org/schema/kernel-4")
    /\ dict_get "types" xml_dict
       = Some (VDict [ ("resourceType", py_get metadata_dict "resourceType");
                       ("resourceTypeGeneral", VStr "Dataset") ])
    /\ dict_get "publicationYear" xml_dict
       = Some (VStr (py_str env (py_get metadata_dict "publicationYear"))).
Proof.
  intros Hv.
  destruct (project_fold env metadata_dict xml_optional
              (xml_required env metadata_dict) Hv) as (xml_dict & Hfold & Hget).
  exists xml_dict. split; [exact Hfold|]. split.
  { unfold build_xml_dict. unfold project in Hfold |- *. now rewrite Hfold. }
  split; [|split; [|split; [|split]]].
  - intros k Hin Hempty. rewrite Hget.
    apply has_value_false in Hempty. rewrite Hempty, andb_false_r.
    unfold xml_optional in Hin. simpl in Hin.
    repeat (destruct Hin as [<-|Hin]; [reflexivity|]). contradiction.
  - intros k Hin Hnn Hlen. rewrite Hget.
    rewrite (In_existsb k xml_optional Hin).
    assert (has_value (py_get metadata_dict k) = true) as ->
      by (apply has_value_true; auto).
    reflexivity.
  - rewrite Hget. reflexivity.
  - rewrite Hget. reflexivity.
  - rewrite Hget. reflexivity.
Qed.

(** ** Required-field enforcement *)

Lemma py_get_set (d : dict) (k k' : string) (v : pyval) :
  py_get (dict_set k' v d) k = if String.eqb k k' then v else py_get d k.
Proof. unfold py_get. rewrite dict_get_set. now destruct (String.eqb k k'). Qed.

Lemma enforce_required_keys required_d metadata_dict errs k :
  In k (dict_keys (enforce_required required_d metadata_dict errs)) <->
  In k (dict_keys errs)
  \/ (In k (dict_keys required_d)
      /\ py_get metadata_dict k = VNone /\ py_get errs k = VNone).
Proof.
  unfold enforce_required. generalize (dict_keys required_d) as keys.
  intros keys. revert errs.
  induction keys as [|k0 keys IH]; intros errs; cbn [fold_left].
  - simpl. tauto.
  - rewrite IH. clear IH.
    destruct (is_none (py_get metadata_dict k0)) eqn:Hm; cbn [andb].
    + destruct (is_none (py_get errs k0)) eqn:He.
      * apply is_none_true in Hm, He.
        rewrite dict_set_In_keys, py_get_set.
        destruct (String.eqb_spec k k0) as [->|Hne].
        -- split; [intros _|intros _; auto].
           right. simpl. auto.
        -- simpl. intuition congruence.
      * assert (py_get errs k0 <> VNone).
        { intros Hc. apply is_none_true in Hc. congruence. }
        simpl. intuition congruence.
    + assert (py_get metadata_dict k0 <> VNone).
      { intros Hc. apply is_none_true in Hc. congruence. }
      simpl. intuition congruence.
Qed.

Lemma errors_in_keys d errs k :
  In k (dict_keys (errors_in d errs)) <->
  In k (dict_keys errs) /\ In k (dict_keys d).
Proof.
  rewrite <- (dict_mem_In k d). unfold errors_in, dict_keys. split.
  - intros H. apply in_map_iff in H as ([k' v] & <- & Hin).
    apply filter_In in Hin as [Hin Hmem]. simpl in *. split; auto.
    apply in_map_iff. exists (k', v). auto.
  - intros [H Hd]. apply in_map_iff in H as ([k' v] & <- & Hin).
    apply in_map_iff. exists (k', v). split; auto.
    apply filter_In. auto.
Qed.

(** The keys the aggregated message lists. *)
Lemma reported_keys st metadata_dict errs k :
  keys_ok st ->
  In k (dict_keys (errors_in (required st)
                     (enforce_required (required st) metadata_dict errs))) <->
  failed_required metadata_dict errs k.
Proof.
  intros [Hr _]. rewrite errors_in_keys, enforce_required_keys, Hr.
  unfold failed_required. rewrite dict_mem_In.
  change (dict_keys init_required) with required_names. tauto.
Qed.


(** ** Which failures reach the error map *)

Lemma append_each_cons key entry x xs st :
  append_each key entry (x :: xs) st =
  match entry x with
  | Ok (Some item) =>
      match optional_append key item st with
      | (st', Ok _) => append_each key entry xs st'
      | (st', Raise k msg) => (st', Raise k msg)
      end
  | Ok None => append_each key entry xs st
  | Raise k msg => (st, Raise k msg)
  end.
Proof.
  unfold append_each. cbn [for_each]. unfold bind, lift.
  destruct (entry x) as [[item|]|k msg]; reflexivity.
Qed.

Lemma append_each_run key entry xs st l0 :
  dict_get key (optional st) = Some (VList l0) ->
  snd (append_each key entry xs st) = outcome (mapM entry xs)
  /\ dict_get key (optional (fst (append_each key entry xs st)))
     = Some (VList (l0 ++ appended entry xs)).
Proof.
  revert st l0.
  induction xs as [|x xs IH]; intros st l0 H.
  - simpl. now rewrite app_nil_r.
  - rewrite append_each_cons. cbn [mapM appended].
    destruct (entry x) as [[item|]|k msg].
    + unfold optional_append. rewrite H. cbn [set_optional].
      edestruct (IH (mkState (required st)
                       (dict_set key (VList (l0 ++ [item])) (optional st))
                       (errors st) (date_errors st)) (l0 ++ [item])) as [Ho Hl].
      { simpl. apply dict_get_set_same. }
      rewrite Ho, Hl. split.
      * now destruct (mapM entry xs).
      * now rewrite <- app_assoc.
    + destruct (IH st l0 H) as [Ho Hl]. rewrite Ho, Hl. split; auto.
      now destruct (mapM entry xs).
    + simpl. now rewrite app_nil_r.
Qed.

(** An appending loop writes nothing but its list. *)
Lemma append_each_errors key entry xs st :
  errors (fst (append_each key entry xs st)) = errors st
  /\ required (fst (append_each key entry xs st)) = required st.
Proof.
  revert st. induction xs as [|x xs IH]; intros st.
  - split; reflexivity.
  - rewrite append_each_cons. destruct (entry x) as [[item|]|k msg]; auto.
    unfold optional_append.
    destruct (dict_get key (optional st)) as [[]|]; auto.
    cbn [set_optional]. destruct (IH (mkState (required st)
      (dict_set key (VList (l ++ [item])) (optional st)) (errors st)
      (date_errors st))) as [H1 H2].
    rewrite H1, H2. auto.
Qed.

Section ErrorMap.
Variable env : Env.
Variable pkg_dict : dict.

Lemma add_required_Ok_error key v ov :
  triple (holds (Err key) ov) (_add_required key (Ok v)) (holds (Err key) ov).
Proof.
  intros st st' a H E. unfold _add_required, try_except, bind, lift in E.
  simpl in E. inversion E; subst. exact H.
Qed.

Lemma publication_year_block_error ov :
  triple (holds (Err "publicationYear") ov)
    (publication_year_block env pkg_dict)
    (holds (Err "publicationYear") ov).
Proof.
  intros st st' a H E. unfold holds in *; simpl in *.
  unfold publication_year_block, _add_required in *.
  destruct (py_get pkg_dict "doi_date_published") as [| | | |s| | | |];
    simpl in E; unfold bind, lift, try_except in E; simpl in E;
    try discriminate.
  - inversion E; subst; reflexivity.
  - destruct (isdecimal (text_prefix 4 s)); simpl in E;
      inversion E; subst; reflexivity.
Qed.

Lemma related_identifiers_block_error :
  triple (both (holds (Err "relatedIdentifiers") None)
               (holds (Opt "relatedIdentifiers") (Some (VList []))))
    (related_identifiers_block env pkg_dict)
    (holds (Err "relatedIdentifiers") (failure_of (related_outcome env pkg_dict))).
Proof.
  intros st st' a [He Ho] E. unfold holds in *; simpl in *.
  unfold related_identifiers_block, related_outcome, try_except in *.
  unfold bind at 1 in E. unfold lift at 1 in E.
  destruct (literal_eval env (py_get pkg_dict "related_resource"))
    as [rel_list|k msg]; cbn [rbind failure_of].
  - destruct rel_list as [| | | | |l| | |];
      try (inversion E; subst; exact He).
    destruct (append_each_run "relatedIdentifiers" related_entry l st [] Ho)
      as [Hout _].
    pose proof (proj1 (append_each_errors "relatedIdentifiers" related_entry l st))
      as Hfr.
    destruct (append_each "relatedIdentifiers" related_entry l st) as [st1 r].
    simpl in Hout, Hfr. rewrite Hout in E.
    destruct (mapM related_entry l) as [items|k msg]; simpl in E;
      inversion E; subst; simpl.
    + now rewrite Hfr.
    + apply dict_get_set_same.
  - inversion E; subst; simpl. apply dict_get_set_same.
Qed.
End ErrorMap.

Section ErrorMapLoops.
Variable env : Env.
Variable pkg_dict : dict.

Lemma rights_block_error :
  triple (holds (Err "rightsList") None)
    (rights_block env pkg_dict)
    (holds (Err "rightsList") (failure_of (rights_outcome env pkg_dict))).
Proof.
  intros st st' a H E. unfold holds in *; simpl in *.
  unfold rights_block, rights_outcome in *.
  destruct (py_eq_str (license_identifier pkg_dict) "cc-by-4.0-international").
  - unfold try_except, set_optional in E. inversion E; subst; exact H.
  - destruct (negb (py_eq_str (license_identifier pkg_dict) "")
              && negb (is_none (license_identifier pkg_dict))).
    + unfold try_except, bind, lift in E.
      destruct (get_license_register env) as [reg|k msg]; simpl in *.
      * destruct (reg (license_identifier pkg_dict)) as [[lic|]|k msg];
          simpl in *; inversion E; subst; simpl; auto.
        apply dict_get_set_same.
      * inversion E; subst; simpl. apply dict_get_set_same.
    + unfold try_except, set_optional in E. inversion E; subst; exact H.
Qed.

Lemma try_append_each_run catches key (src : result (list pyval)) entry st :
  dict_get key (optional st) = Some (VList []) ->
  let m := try_except catches
             (bind (lift src) (fun xs => append_each key entry xs))
             (fun e => set_error key e) in
  let o := rbind src (fun xs => outcome (mapM entry xs)) in
  snd (m st) = caught_outcome catches o
  /\ errors (fst (m st)) = recorded catches key o (errors st).
Proof.
  intros Ho m o. unfold m, o, try_except, bind, lift.
  destruct src as [xs|k msg]; cbn [rbind].
  - destruct (append_each_run key entry xs st [] Ho) as [Hout _].
    pose proof (proj1 (append_each_errors key entry xs st)) as Hfr.
    destruct (append_each key entry xs st) as [st1 r]. simpl in Hout, Hfr.
    subst r. destruct (mapM entry xs) as [items|k msg]; simpl; auto.
    destruct (catches k); simpl; auto. now rewrite Hfr.
  - simpl. destruct (catches k); simpl; auto.
Qed.

Lemma geolocations_block_run st :
  snd (geolocations_block env pkg_dict st)
  = caught_outcome ValueError_KeyError_IndexError (geolocations_outcome env pkg_dict)
  /\ errors (fst (geolocations_block env pkg_dict st))
     = recorded ValueError_KeyError_IndexError "geoLocations"
         (geolocations_outcome env pkg_dict) (errors st).
Proof.
  unfold geolocations_block, geolocations_outcome.
  destruct (negb (is_none (py_get_default pkg_dict "location_choice" VNone)));
    [|split; reflexivity].
  destruct (py_eq_str (py_get_default pkg_dict "location_choice" VNone) "point").
  - unfold bind at 1. cbn [set_optional].
    exact (try_append_each_run ValueError_KeyError_IndexError "geoLocations"
             (location_features pkg_dict) (point_feature env)
             (mkState (required st)
                (dict_set "geoLocations" (VList []) (optional st))
                (errors st) (date_errors st))
             (dict_get_set_same _ _ _)).
  - destruct (py_eq_str (py_get_default pkg_dict "location_choice" VNone) "area");
      [|split; reflexivity].
    unfold bind at 1. cbn [set_optional].
    exact (try_append_each_run ValueError_KeyError_IndexError "geoLocations"
             (location_features pkg_dict) (polygon_feature env)
             (mkState (required st)
                (dict_set "geoLocations" (VList []) (optional st))
                (errors st) (date_errors st))
             (dict_get_set_same _ _ _)).
Qed.

Lemma geolocations_block_error :
  triple (holds (Err "geoLocations") None)
    (geolocations_block env pkg_dict)
    (holds (Err "geoLocations") (failure_of (geolocations_outcome env pkg_dict))).
Proof.
  intros st st' a H E. unfold holds in *; simpl in *.
  destruct (geolocations_block_run st) as [Hout Herr].
  rewrite E in Hout, Herr. simpl in Hout, Herr. rewrite Herr.
  destruct (geolocations_outcome env pkg_dict) as [[]|k msg]; simpl in *; auto.
  destruct (ValueError_KeyError_IndexError k); [|discriminate].
  apply dict_get_set_same.
Qed.

Lemma funding_block_run st :
  snd (funding_block env pkg_dict st) = Ok tt
  /\ errors (fst (funding_block env pkg_dict st))
     = recorded any_Exception "fundingReferences"
         (funding_outcome env pkg_dict) (errors st).
Proof.
  unfold funding_block, funding_outcome.
  destruct (negb (py_eq_str (py_get_default pkg_dict "funder" (VStr "")) ""));
    [|split; reflexivity].
  pose proof (fun funder_list =>
    try_append_each_run any_Exception "fundingReferences"
      (py_iter funder_list) funder_entry
      (mkState (required st)
         (dict_set "fundingReferences" (VList []) (optional st))
         (errors st) (date_errors st))
      (dict_get_set_same _ _ _)) as Hrun.
  cbv [try_except bind lift set_optional any_Exception] in Hrun |- *.
  destruct (literal_eval env (py_get pkg_dict "funder")) as [funder_list|k msg];
    cbn [rbind]; [|split; reflexivity].
  destruct (Hrun funder_list) as [Hout Herr]. clear Hrun.
  destruct (py_iter funder_list) as [funders|k msg]; cbn [rbind] in *.
  - destruct (append_each "fundingReferences" funder_entry funders _)
      as [st2 [[]|k msg]]; cbn [fst snd] in *; split; auto.
  - split; auto.
Qed.

Lemma funding_block_error :
  triple (holds (Err "fundingReferences") None)
    (funding_block env pkg_dict)
    (holds (Err "fundingReferences") (failure_of (funding_outcome env pkg_dict))).
Proof.
  intros st st' a H E. unfold holds in *; simpl in *.
  destruct (funding_block_run st) as [_ Herr].
  rewrite E in Herr. simpl in Herr. rewrite Herr.
  destruct (funding_outcome env pkg_dict) as [[]|k msg]; simpl in *; auto.
  apply dict_get_set_same.
Qed.
End ErrorMapLoops.

(** *** The error map of the base extraction, key by key *)

Ltac no_raise :=
  unfold_blocks;
  repeat first
    [ apply never_raises_ret
    | apply never_raises_bind; [| intros ?]
    | apply never_raises_try_any; intros ?
    | apply never_raises_set_required
    | apply never_raises_set_optional
    | apply never_raises_set_error
    | apply never_raises_set_date_error
    | match goal with
      | |- never_raises (match ?x with _ => _ end) => destruct x
      end ].

Section BaseErrors.
Variable env : Env.
Variable pkg_dict : dict.

Lemma publication_year_never_raises :
  text_or_None (py_get pkg_dict "doi_date_published") ->
  never_raises (publication_year_block env pkg_dict).
Proof.
  intros H st. exists tt. now rewrite publication_year_block_run.
Qed.

Lemma geolocations_never_raises :
  geolocations_caught env pkg_dict ->
  never_raises (geolocations_block env pkg_dict).
Proof.
  intros H st. exists tt.
  rewrite (proj1 (geolocations_block_run env pkg_dict st)).
  destruct (geolocations_outcome env pkg_dict) as [[]|k msg] eqn:E; auto.
  simpl. now rewrite (H k msg E).
Qed.

Lemma base_fields_never_raises :
  text_or_None (py_get pkg_dict "doi_date_published") ->
  geolocations_caught env pkg_dict ->
  never_raises (base_fields env pkg_dict).
Proof.
  intros Hpub Hgeo.
  pose proof (publication_year_never_raises Hpub) as Hp.
  pose proof (geolocations_never_raises Hgeo) as Hg.
  unfold base_fields.
  repeat (apply never_raises_bind;
          [ first [ exact Hp | exact Hg | solve [no_raise] ] | intros _ ]).
  no_raise.
Qed.

Lemma base_error_creators :
  triple (holds (Err "creators") None) (base_fields env pkg_dict)
    (holds (Err "creators") (failure_of (author_list env pkg_dict creator_entry))).
Proof. walk (try_set_required_error "creators" (author_list env pkg_dict creator_entry)). Qed.

Lemma base_error_titles :
  triple (holds (Err "titles") None) (base_fields env pkg_dict) (holds (Err "titles") None).
Proof.
  walk (add_required_Ok_error "titles"
          (VList [ VDict [ ("title", py_get pkg_dict "title") ] ]) None).
Qed.

Lemma base_error_publisher :
  triple (holds (Err "publisher") None) (base_fields env pkg_dict) (holds (Err "publisher") None).
Proof.
  walk (add_required_Ok_error "publisher"
          (py_get (config env) "ckanext.doi.publisher") None).
Qed.

Lemma base_error_publication_year :
  triple (holds (Err "publicationYear") None) (base_fields env pkg_dict)
    (holds (Err "publicationYear") None).
Proof. walk (publication_year_block_error env pkg_dict None). Qed.

Lemma base_error_resource_type :
  triple (holds (Err "resourceType") None) (base_fields env pkg_dict) (holds (Err "resourceType") None).
Proof. walk (add_required_Ok_error "resourceType" (py_get pkg_dict "type") None). Qed.

Lemma base_error_subjects :
  triple (holds (Err "subjects") None) (base_fields env pkg_dict)
    (holds (Err "subjects") (failure_of (subjects_value env pkg_dict))).
Proof. walk (try_set_optional_error "subjects" (subjects_value env pkg_dict)). Qed.

Lemma base_error_contributors :
  triple (holds (Err "contributors") None) (base_fields env pkg_dict)
    (holds (Err "contributors")
       (failure_of (author_list env pkg_dict contributor_entry))).
Proof.
  walk (try_set_optional_error "contributors"
          (author_list env pkg_dict contributor_entry)).
Qed.

Lemma base_error_language :
  triple (holds (Err "language") None) (base_fields env pkg_dict)
    (holds (Err "language") (failure_of (ckan_lang env))).
Proof. walk (try_set_optional_error "language" (ckan_lang env)). Qed.

Lemma base_error_alternate_identifiers :
  triple (holds (Err "alternateIdentifiers") None) (base_fields env pkg_dict)
    (holds (Err "alternateIdentifiers")
       (failure_of (alternate_identifiers_value env pkg_dict))).
Proof.
  walk (try_set_optional_error "alternateIdentifiers"
          (alternate_identifiers_value env pkg_dict)).
Qed.

Lemma base_error_related_identifiers :
  triple (both (holds (Err "relatedIdentifiers") None)
               (holds (Opt "relatedIdentifiers") (Some (VList []))))
    (base_fields env pkg_dict)
    (holds (Err "relatedIdentifiers") (failure_of (related_outcome env pkg_dict))).
Proof. walk (related_identifiers_block_error env pkg_dict). Qed.

Lemma base_error_sizes :
  triple (holds (Err "sizes") None) (base_fields env pkg_dict)
    (holds (Err "sizes") (failure_of (sizes_value pkg_dict))).
Proof. walk (try_set_optional_error "sizes" (sizes_value pkg_dict)). Qed.

Lemma base_error_formats :
  triple (holds (Err "formats") None) (base_fields env pkg_dict)
    (holds (Err "formats") (failure_of (formats_value env pkg_dict))).
Proof. walk (try_set_optional_error "formats" (formats_value env pkg_dict)). Qed.

Lemma base_error_rights :
  triple (holds (Err "rightsList") None) (base_fields env pkg_dict)
    (holds (Err "rightsList") (failure_of (rights_outcome env pkg_dict))).
Proof. walk (rights_block_error env pkg_dict). Qed.

Lemma base_error_geolocations :
  triple (holds (Err "geoLocations") None) (base_fields env pkg_dict)
    (holds (Err "geoLocations") (failure_of (geolocations_outcome env pkg_dict))).
Proof. walk (geolocations_block_error env pkg_dict). Qed.

Lemma base_error_funding :
  triple (holds (Err "fundingReferences") None) (base_fields env pkg_dict)
    (holds (Err "fundingReferences") (failure_of (funding_outcome env pkg_dict))).
Proof. walk (funding_block_error env pkg_dict). Qed.
End BaseErrors.

Lemma base_error_other env pkg_dict key :
  key <> "creators" -> key <> "titles" -> key <> "publisher" ->
  key <> "publicationYear" -> key <> "resourceType" -> key <> "subjects" ->
  key <> "contributors" -> key <> "language" -> key <> "alternateIdentifiers" ->
  key <> "relatedIdentifiers" -> key <> "sizes" -> key <> "formats" ->
  key <> "rightsList" -> key <> "geoLocations" -> key <> "fundingReferences" ->
  preserves (holds (Err key) None) (base_fields env pkg_dict).
Proof. intros. unfold base_fields. frame. Qed.

(** The only exception the reporting stage raises is the aggregated one. *)
Lemma enforce_and_report_raises env st metadata_dict errs k msg :
  snd (enforce_and_report env st metadata_dict errs) = Raise k msg ->
  k = DOIMetadataException.
Proof.
  unfold enforce_and_report.
  destruct (0 <? List.length _)%nat; simpl; intros H; now inversion H.
Qed.

Lemma base_error_map env pkg_dict st :
  base_fields env pkg_dict init_state = (st, Ok tt) ->
  forall key, dict_get key (errors st) = field_failure env pkg_dict key.
Proof.
  intros Hrun key.
  assert (Hinit : forall k, holds (Err k) None init_state) by reflexivity.
  destruct (String.eqb_spec key "creators") as [->|N1].
  { exact (base_error_creators env pkg_dict _ _ _ (Hinit _) Hrun). }
  destruct (String.eqb_spec key "titles") as [->|N2].
  { exact (base_error_titles env pkg_dict _ _ _ (Hinit _) Hrun). }
  destruct (String.eqb_spec key "publisher") as [->|N3].
  { exact (base_error_publisher env pkg_dict _ _ _ (Hinit _) Hrun). }
  destruct (String.eqb_spec key "publicationYear") as [->|N4].
  { exact (base_error_publication_year env pkg_dict _ _ _ (Hinit _) Hrun). }
  destruct (String.eqb_spec key "resourceType") as [->|N5].
  { exact (base_error_resource_type env pkg_dict _ _ _ (Hinit _) Hrun). }
  destruct (String.eqb_spec key "subjects") as [->|N6].
  { exact (base_error_subjects env pkg_dict _ _ _ (Hinit _) Hrun). }
  destruct (String.eqb_spec key "contributors") as [->|N7].
  { exact (base_error_contributors env pkg_dict _ _ _ (Hinit _) Hrun). }
  destruct (String.eqb_spec key "language") as [->|N8].
  { exact (base_error_language env pkg_dict _ _ _ (Hinit _) Hrun). }
  destruct (String.eqb_spec key "alternateIdentifiers") as [->|N9].
  { exact (base_error_alternate_identifiers env pkg_dict _ _ _ (Hinit _) Hrun). }
  destruct (String.eqb_spec key "relatedIdentifiers") as [->|N10].
  { exact (base_error_related_identifiers env pkg_dict _ _ _
             (conj (Hinit _) eq_refl) Hrun). }
  destruct (String.eqb_spec key "sizes") as [->|N11].
  { exact (base_error_sizes env pkg_dict _ _ _ (Hinit _) Hrun). }
  destruct (String.eqb_spec key "formats") as [->|N12].
  { exact (base_error_formats env pkg_dict _ _ _ (Hinit _) Hrun). }
  destruct (String.eqb_spec key "rightsList") as [->|N13].
  { exact (base_error_rights env pkg_dict _ _ _ (Hinit _) Hrun). }
  destruct (String.eqb_spec key "geoLocations") as [->|N14].
  { exact (base_error_geolocations env pkg_dict _ _ _ (Hinit _) Hrun). }
  destruct (String.eqb_spec key "fundingReferences") as [->|N15].
  { exact (base_error_funding env pkg_dict _ _ _ (Hinit _) Hrun). }
  pose proof (base_error_other env pkg_dict key N1 N2 N3 N4 N5 N6 N7 N8 N9 N10
                N11 N12 N13 N14 N15 init_state (Hinit key)) as Hp.
  rewrite Hrun in Hp. unfold holds in Hp; simpl in Hp. rewrite Hp.
  unfold field_failure.
  repeat match goal with
         | |- context [String.eqb key ?s] =>
             destruct (String.eqb_spec key s); [congruence|]
         end.
  reflexivity.
Qed.

(** *** The failures of the DATES section *)

Section DateErrors.
Variable env : Env.
Variable pkg_dict : dict.

Lemma date_entry_run dateType source_key error_key st l0 :
  dict_get "dates" (optional st) = Some (VList l0) ->
  date_entry env pkg_dict dateType source_key error_key st
  = (match date_or_none env (py_get pkg_dict source_key) with
     | Ok d =>
         mkState (required st)
           (dict_set "dates"
              (VList (l0 ++ [ VDict [ ("dateType", VStr dateType); ("date", d) ] ]))
              (optional st))
           (errors st) (date_errors st)
     | Raise k msg =>
         mkState (required st) (optional st) (errors st)
           (dict_set error_key (VExc k msg) (date_errors st))
     end, Ok tt).
Proof.
  intros H. unfold date_entry, try_except, bind, lift, optional_append.
  destruct (date_or_none env (py_get pkg_dict source_key)) as [d|k msg].
  - rewrite H. reflexivity.
  - reflexivity.
Qed.

(** One [try] of the section: its handler writes [date_errors] under its
    own key, and the entry is appended when there was nothing to handle. *)
Lemma date_entry_error key dateType source_key error_key l0 ov :
  triple (both (holds (DErr key) ov) (holds (Opt "dates") (Some (VList l0))))
    (date_entry env pkg_dict dateType source_key error_key)
    (both
       (holds (DErr key)
          (if String.eqb key error_key
           then or_failure (date_or_none env (py_get pkg_dict source_key)) ov
           else ov))
       (holds (Opt "dates")
          (Some (VList (l0 ++ date_items env pkg_dict dateType source_key))))).
Proof.
  intros st st' a [He Ho] E. unfold holds in *; simpl in *.
  rewrite (date_entry_run dateType source_key error_key st l0 Ho) in E.
  inversion E; subst; clear E. unfold date_items, or_failure.
  destruct (date_or_none env (py_get pkg_dict source_key)) as [d|k msg];
    split; simpl.
  - now destruct (String.eqb key error_key).
  - apply dict_get_set_same.
  - rewrite dict_get_set. now destruct (String.eqb key error_key).
  - now rewrite app_nil_r.
Qed.

Lemma dates_block_error key :
  triple (both (holds (DErr key) None) (holds (Opt "dates") (Some (VList []))))
    (dates_block env pkg_dict)
    (holds (DErr key) (date_failure env pkg_dict key)).
Proof.
  assert (Hkey : forall r1 r2 r3 : result pyval,
    (if String.eqb key "doi_date_published"
     then or_failure r3
            (if String.eqb key "updated"
             then or_failure r2
                    (if String.eqb key "created" then or_failure r1 None else None)
             else if String.eqb key "created" then or_failure r1 None else None)
     else if String.eqb key "updated"
          then or_failure r2
                 (if String.eqb key "created" then or_failure r1 None else None)
          else if String.eqb key "created" then or_failure r1 None else None)
    = (if String.eqb key "created" then failure_of r1
       else if String.eqb key "updated" then failure_of r2
       else if String.eqb key "doi_date_published" then failure_of r3
       else None)
    /\ (if String.eqb key "updated"
        then or_failure r2
               (if String.eqb key "created" then or_failure r1 None else None)
        else if String.eqb key "created" then or_failure r1 None else None)
       = (if String.eqb key "created" then failure_of r1
          else if String.eqb key "updated" then failure_of r2
          else None)).
  { intros r1 r2 r3.
    destruct (String.eqb_spec key "created") as [->|N1]; cbn [String.eqb Ascii.eqb Bool.eqb].
    - split; now destruct r1.
    - destruct (String.eqb_spec key "updated") as [->|N2];
        cbn [String.eqb Ascii.eqb Bool.eqb].
      + split; now destruct r2.
      + destruct (String.eqb key "doi_date_published"); split;
          try reflexivity; now destruct r3. }
  unfold dates_block.
  eapply triple_bind; [apply date_entry_error | intros _].
  eapply triple_bind; [apply date_entry_error | intros _].
  intros st st' a Hpre E. unfold date_failure.
  destruct (dict_mem "doi_date_published" pkg_dict).
  - destruct (date_entry_error key "Issued" "doi_date_published"
                "doi_date_published" _ _ st st' a Hpre E) as [He _].
    unfold holds in *. rewrite He. apply Hkey.
  - inversion E; subst. destruct Hpre as [He _]. unfold holds in *. rewrite He.
    rewrite (proj2 (Hkey _ _ (Ok VNone))).
    now destruct (String.eqb key "doi_date_published").
Qed.

Lemma base_date_error key :
  triple (both (holds (DErr key) None) (holds (Opt "dates") (Some (VList []))))
    (base_fields env pkg_dict)
    (holds (DErr key) (date_failure env pkg_dict key)).
Proof. walk (dates_block_error key). Qed.
End DateErrors.

(** [date_errors] after the base extraction, key by key. *)
Lemma base_date_error_map env pkg_dict st :
  base_fields env pkg_dict init_state = (st, Ok tt) ->
  forall key, dict_get key (date_errors st) = date_failure env pkg_dict key.
Proof.
  intros Hrun key.
  exact (base_date_error env pkg_dict key init_state st tt
           (conj eq_refl eq_refl) Hrun).
Qed.

(** C1, as amended.  When [doi_date_published] is missing, [None] or a
    text, and the GEOLOCATIONS loops raise nothing but [ValueError],
    [KeyError] or [IndexError], the base extraction raises nothing.  The
    error map holds, under each field's key, the failure of that field's
    derivation, and nothing else.  The failures of the three date
    derivations are caught too, but into the local map [date_errors]:
    under [created], [updated] and [doi_date_published] it holds the
    exception of the entry's own [date_or_none] call, it holds nothing
    else, and the error map has no entry for [dates].  Whatever
    [build_metadata_dict] then raises is the aggregated
    [DOIMetadataException] or comes out of a plugin. *)
Theorem field_failures_collected env pkg_dict :
  text_or_None (py_get pkg_dict "doi_date_published") ->
  geolocations_caught env pkg_dict ->
  exists st,
    base_extract env pkg_dict = Ok (st, merged st, errors st)
    /\ (forall key, dict_get key (errors st) = field_failure env pkg_dict key)
    /\ dict_get "created" (date_errors st)
       = failure_of (date_or_none env (py_get pkg_dict "metadata_created"))
    /\ dict_get "updated" (date_errors st)
       = failure_of (date_or_none env (py_get pkg_dict "metadata_modified"))
    /\ dict_get "doi_date_published" (date_errors st)
       = (if dict_mem "doi_date_published" pkg_dict
          then failure_of (date_or_none env (py_get pkg_dict "doi_date_published"))
          else None)
    /\ (forall key, dict_get key (date_errors st) = date_failure env pkg_dict key)
    /\ dict_get "dates" (errors st) = None
    /\ (forall k msg,
          snd (build_metadata_dict env pkg_dict) = Raise k msg ->
          k = DOIMetadataException
          \/ run_plugins (plugins env) pkg_dict (merged st) (errors st)
             = Raise k msg).
Proof.
  intros Hpub Hgeo.
  destruct (base_fields_never_raises env pkg_dict Hpub Hgeo init_state) as [[] Hok].
  destruct (base_fields env pkg_dict init_state) as [st r] eqn:Hrun.
  simpl in Hok. subst r. exists st.
  assert (Hbase : base_extract env pkg_dict = Ok (st, merged st, errors st)).
  { unfold base_extract. now rewrite Hrun. }
  pose proof (base_date_error_map env pkg_dict st Hrun) as Hdates.
  pose proof (base_error_map env pkg_dict st Hrun) as Herr.
  split; [exact Hbase|]. split; [exact Herr|].
  split; [exact (Hdates "created")|].
  split; [exact (Hdates "updated")|].
  split; [exact (Hdates "doi_date_published")|].
  split; [exact Hdates|].
  split; [now rewrite Herr|].
  intros k msg. unfold build_metadata_dict, extension_pass. rewrite Hbase.
  destruct (run_plugins (plugins env) pkg_dict (merged st) (errors st))
    as [[md errs]|k' msg'].
  - intros H. left. eapply enforce_and_report_raises; eauto.
  - simpl. intros H. inversion H; subst. now right.
Qed.

Lemma field_failure_without_dates f env pkg_dict key :
  field_failure (with_date_or_none f env) pkg_dict key
  = field_failure env pkg_dict key.
Proof. reflexivity. Qed.

(** C10. The error map the base extraction hands to the extension pass has
    no entry for [dates]; it is the same map, key by key, whatever
    [date_or_none] answers or raises; and the failures of the three date
    derivations sit in [date_errors], which the enforcement and reporting
    stage never reads. *)
Theorem dates_never_in_error_map env pkg_dict st metadata_dict errs :
  base_extract env pkg_dict = Ok (st, metadata_dict, errs) ->
  dict_get "dates" errs = None
  /\ (forall f st' md' errs',
        base_extract (with_date_or_none f env) pkg_dict = Ok (st', md', errs') ->
        forall key, dict_get key errs' = dict_get key errs)
  /\ (forall date_errors' md' errs',
        enforce_and_report env
          (mkState (required st) (optional st) (errors st) date_errors') md' errs'
        = enforce_and_report env st md' errs').
Proof.
  intros H. apply base_extract_Ok in H as (Hrun & _ & -> & _).
  split; [|split].
  - pose proof (base_fields_no_dates_error env pkg_dict init_state eq_refl) as Hp.
    now rewrite Hrun in Hp.
  - intros f st' md' errs' H' key.
    apply base_extract_Ok in H' as (Hrun' & _ & -> & _).
    rewrite (base_error_map _ _ _ Hrun' key), (base_error_map _ _ _ Hrun key).
    apply field_failure_without_dates.
  - intros. reflexivity.
Qed.

(** ** Worked examples *)

(** [doi_date_published = "abcd-05-10"], or none, gives the current year. *)
Example publication_year_fallbacks :
  expected_year Sample.env (Sample.pkg_with "doi_date_published" (VStr "abcd-05-10"))
  = VInt 2026
  /\ expected_year Sample.env [] = VInt 2026
  /\ expected_year Sample.env Sample.pkg = VStr "2021".
Proof. repeat split; reflexivity. Qed.

(** An empty or missing license gives the one raw [rights] entry, a
    license of the register its URL and identifier, an unknown one nothing. *)
Example rights_list_cases :
  expected_rights Sample.env [] = VList [ VDict [ ("rights", VStr "") ] ]
  /\ expected_rights Sample.env [ ("license", VNone) ]
     = VList [ VDict [ ("rights", VNone) ] ]
  /\ expected_rights Sample.env [ ("license_id", VStr "cc-by") ]
     = VList [ VDict [ ("rightsUri", VStr "http://www.opendefinition.org/licenses/cc-by");
                       ("rightsIdentifier", VStr "cc-by") ] ]
  /\ expected_rights Sample.env [ ("license_id", VStr "unknown") ] = VList [].
Proof. repeat split; reflexivity. Qed.

(** With no required input at all, every failed required key is named. *)
Example empty_record_fails :
  snd (build_metadata_dict Sample.env [])
  = Raise DOIMetadataException
      "Could not extract metadata for the following required keys: creators, resourceType".
Proof. vm_compute. reflexivity. Qed.

(** The debug branch of the reporting stage is never taken. *)
Lemma optional_diagnostics_never_logged env pkg_dict e :
  In e (fst (build_metadata_dict env pkg_dict)) -> exists msg, e = LogException msg.
Proof.
  unfold build_metadata_dict.
  destruct (extension_pass env pkg_dict) as [[[st md] errs]|k msg]; [|simpl; tauto].
  unfold enforce_and_report.
  destruct (0 <? List.length _)%nat eqn:E; [|simpl; tauto].
  simpl. intros [<-|H]; eauto.
  apply in_map_iff in H as (ke & <- & _). eauto.
Qed.

(** The record and the outcome for the sample dataset. *)
Example sample_dataset_extracted :
  exists metadata_dict,
    build_metadata_dict Sample.env Sample.pkg = ([], Ok metadata_dict)
    /\ dict_get "publicationYear" metadata_dict = Some (VStr "2021")
    /\ dict_get "sizes" metadata_dict = Some (VList [ VStr "3 kb" ])
    /\ dict_get "rightsList" metadata_dict
       = Some (VList [ VDict [ ("rightsUri", VStr "https://spdx.org/licenses/CC-BY-4.0.html");
                               ("rightsIdentifier", VStr "CC-BY-4.0");
                               ("rightsIdentifierScheme", VStr "SPDX") ] ]).
Proof.
  eexists. split; [vm_compute; reflexivity|].
  repeat split; vm_compute; reflexivity.
Qed.

(** C1, as stated, fails.  With [location_choice = 'point'] and
    [location_data = None] the [TypeError] of the GEOLOCATIONS section
    leaves [build_metadata_dict]; and a creation date that [date_or_none]
    refuses is recorded in [date_errors] only, the error map staying
    empty. *)
Lemma field_failure_escapes :
  build_metadata_dict Sample.env Cases.point_without_data
  = ([], Raise TypeError "'NoneType' object is not subscriptable")
  /\ exists st metadata_dict errs,
       base_extract Sample.env Cases.unreadable_date = Ok (st, metadata_dict, errs)
       /\ date_or_none Sample.env (py_get Cases.unreadable_date "metadata_created")
          = Raise ValueError "Unknown string format"
       /\ errs = []
       /\ date_errors st = [ ("created", VExc ValueError "Unknown string format") ].
Proof.
  split; [vm_compute; reflexivity|].
  do 3 eexists. split; [vm_compute; reflexivity|].
  repeat split; vm_compute; reflexivity.
Qed.

Lemma field_failures_collected_witness :
  exists st,
    base_extract Sample.env Cases.unreadable_date_unparsable_funder
    = Ok (st, merged st, errors st)
    /\ dict_get "fundingReferences" (errors st)
       = Some (VExc SyntaxError "invalid syntax")
    /\ dict_get "dates" (errors st) = None
    /\ dict_get "created" (date_errors st)
       = Some (VExc ValueError "Unknown string format")
    /\ dict_get "updated" (date_errors st) = None.
Proof.
  destruct (field_failures_collected Sample.env
              Cases.unreadable_date_unparsable_funder)
    as (st & Hbase & Herr & Hcreated & Hupdated & _ & _ & Hdates & _).
  - right. exists "2021-05-10". reflexivity.
  - intros k msg H. vm_compute in H. discriminate.
  - exists st. split; [exact Hbase|]. split; [|split; [|split]].
    + rewrite Herr. vm_compute. reflexivity.
    + exact Hdates.
    + rewrite Hcreated. vm_compute. reflexivity.
    + rewrite Hupdated. vm_compute. reflexivity.
Defined.


Lemma related_identifiers_block_value env pkg_dict :
  triple (holds (Opt "relatedIdentifiers") (Some (VList [])))
    (related_identifiers_block env pkg_dict)
    (holds (Opt "relatedIdentifiers") (Some (VList (related_items env pkg_dict)))).
Proof.
  intros st st' a Ho E. unfold holds in *; simpl in *.
  unfold related_identifiers_block, related_items, try_except in *.
  unfold bind at 1 in E. unfold lift at 1 in E.
  destruct (literal_eval env (py_get pkg_dict "related_resource"))
    as [rel_list|k msg].
  - destruct rel_list as [| | | | |l| | |];
      try (inversion E; subst; exact Ho).
    destruct (append_each_run "relatedIdentifiers" related_entry l st [] Ho)
      as [_ Hval].
    destruct (append_each "relatedIdentifiers" related_entry l st) as [st1 [[]|k msg]];
      simpl in *; inversion E; subst; simpl; exact Hval.
  - inversion E; subst; simpl. exact Ho.
Qed.

Lemma related_identifiers_extracted env pkg_dict st metadata_dict errs :
  base_extract env pkg_dict = Ok (st, metadata_dict, errs) ->
  dict_get "relatedIdentifiers" metadata_dict
  = Some (VList (related_items env pkg_dict)).
Proof.
  intros H. apply base_extract_Ok in H as (Hrun & -> & _ & Hk).
  apply merged_get_optional; [assumption|].
  assert (Ht : triple (holds (Opt "relatedIdentifiers") (Some (VList [])))
                 (base_fields env pkg_dict)
                 (holds (Opt "relatedIdentifiers")
                    (Some (VList (related_items env pkg_dict)))))
    by (walk (related_identifiers_block_value env pkg_dict)).
  exact (Ht init_state st tt eq_refl Hrun).
Qed.

(** C3 on the code: with a second related resource that lacks its
    [relation_type], and with a second funder that lacks its identifier
    type, the extraction succeeds, records the [KeyError], and returns
    the list of the entries built before the failure, not the default
    empty list. *)
Theorem related_identifiers_keep_partial_list :
  (exists metadata_dict,
     build_metadata_dict Sample.env Cases.second_relation_incomplete
     = ([], Ok metadata_dict)
     /\ field_failure Sample.env Cases.second_relation_incomplete "relatedIdentifiers"
        = Some (VExc KeyError "'relation_type'")
     /\ dict_get "relatedIdentifiers" metadata_dict
        = Some (VList [ VDict [ ("relatedIdentifier", VStr "https://a.example");
                                ("relatedIdentifierType", VStr "URL");
                                ("relationType", VStr "Cites") ] ]))
  /\ (exists metadata_dict,
        build_metadata_dict Sample.env Cases.second_funder_incomplete
        = ([], Ok metadata_dict)
        /\ field_failure Sample.env Cases.second_funder_incomplete "fundingReferences"
           = Some (VExc KeyError "'funder_identifier_type'")
        /\ dict_get "fundingReferences" metadata_dict
           = Some (VList [ VDict [ ("funderName", VStr "ARC");
                                   ("funderIdentifier", VStr "https://ror.org/05mmh0f86");
                                   ("funderIdentifierType", VStr "ROR") ] ])).
Proof.
  split; eexists; (split; [vm_compute; reflexivity|]);
    split; vm_compute; reflexivity.
Qed.

(** *** The test of the PUBLICATION YEAR section *)

Lemma always_raises_bind_left {A B} k msg (m : M A) (f : A -> M B) :
  always_raises k msg m -> always_raises k msg (bind m f).
Proof.
  intros H st. destruct (H st) as [st' E]. exists st'.
  unfold bind. now rewrite E.
Qed.

Lemma always_raises_bind_right {A B} k msg (m : M A) (f : A -> M B) :
  never_raises m -> (forall a, always_raises k msg (f a)) ->
  always_raises k msg (bind m f).
Proof.
  intros Hm Hf st. unfold bind. destruct (Hm st) as [a Ha].
  destruct (m st) as [st' r]; simpl in Ha; subst r. apply Hf.
Qed.

(** [doi_date_published[:4].isdecimal()] raises on everything but a
    text. *)
Lemma year_test_raises pkg_dict :
  ~ text_or_None (py_get pkg_dict "doi_date_published") ->
  exists k msg, year_test pkg_dict = Raise k msg.
Proof.
  unfold year_test, text_or_None. intros H.
  destruct (py_get pkg_dict "doi_date_published") as [| | | |s|l|d| |];
    cbn [slice_to rbind method_isdecimal];
    try (do 2 eexists; reflexivity).
  exfalso. apply H. right. now exists s.
Qed.

(** The test stands outside [_add_required]: what it raises leaves the
    section. *)
Lemma publication_year_block_raises env pkg_dict k msg :
  ~ text_or_None (py_get pkg_dict "doi_date_published") ->
  year_test pkg_dict = Raise k msg ->
  always_raises k msg (publication_year_block env pkg_dict).
Proof.
  unfold year_test, publication_year_block, text_or_None. intros H E st.
  exists st.
  destruct (py_get pkg_dict "doi_date_published") as [| | | |s|l|d| |];
    cbn [is_none slice_to rbind method_isdecimal] in *;
    unfold bind, lift; cbn [rbind];
    try (inversion E; subst; reflexivity).
  exfalso. apply H. now left.
Qed.

Lemma base_fields_raises_at_year env pkg_dict k msg :
  ~ text_or_None (py_get pkg_dict "doi_date_published") ->
  year_test pkg_dict = Raise k msg ->
  always_raises k msg (base_fields env pkg_dict).
Proof.
  intros H E. unfold base_fields.
  do 3 (apply always_raises_bind_right; [solve [no_raise] | intros _]).
  apply always_raises_bind_left. now apply publication_year_block_raises.
Qed.

Lemma base_extract_raises_at_year env pkg_dict k msg :
  ~ text_or_None (py_get pkg_dict "doi_date_published") ->
  year_test pkg_dict = Raise k msg ->
  base_extract env pkg_dict = Raise k msg.
Proof.
  intros H E. unfold base_extract.
  destruct (base_fields_raises_at_year env pkg_dict k msg H E init_state)
    as [st' ->].
  reflexivity.
Qed.

(** A completed base extraction read a text, [None] or nothing. *)
Lemma extraction_needs_text env pkg_dict st metadata_dict errs :
  base_extract env pkg_dict = Ok (st, metadata_dict, errs) ->
  text_or_None (py_get pkg_dict "doi_date_published").
Proof.
  intros Hok.
  destruct (py_get pkg_dict "doi_date_published") as [| | | |s|l|d| |] eqn:Hv;
    try (left; reflexivity); try (right; now exists s); exfalso;
    (assert (Hn : ~ text_or_None (py_get pkg_dict "doi_date_published"))
       by (rewrite Hv; intros [Hc|[s' Hc]]; discriminate));
    destruct (year_test_raises pkg_dict Hn) as (kt & msgt & E);
    rewrite (base_extract_raises_at_year env pkg_dict kt msgt Hn E) in Hok;
    discriminate.
Qed.

Lemma Forall_firstn {A} (P : A -> Prop) n (l : list A) :
  Forall P l -> Forall P (firstn n l).
Proof.
  intros H. revert n. induction H; intros [|n]; simpl; auto.
Qed.

(** The year of a text, read code point by code point. *)
Lemma expected_year_text_of env pkg_dict cps :
  Forall is_code_point cps ->
  py_get pkg_dict "doi_date_published" = VStr (text_of cps) ->
  expected_year env pkg_dict
  = if (0 <? List.length cps)%nat && forallb decimal_code_point (firstn 4 cps)
    then VStr (text_of (firstn 4 cps))
    else VInt (now_year env).
Proof.
  intros Hcps Hv. unfold expected_year. rewrite Hv.
  rewrite (text_prefix_text_of 4 cps Hcps).
  rewrite (isdecimal_text_of (firstn 4 cps) (Forall_firstn _ 4 cps Hcps)).
  now destruct cps.
Qed.

(** C4 on the code.  The rule of the claim is that of every extraction
    that completes: [doi_date_published] was then missing, [None] or a
    text, the PUBLICATION YEAR section raised nothing, and
    [publicationYear] is the first four characters of the text when they
    are decimal digits, at least one and each a decimal digit of any
    script, and the current year in every other case.  The claim fails
    for any other value: the test [doi_date_published[:4].isdecimal()]
    stands outside [_add_required], so its exception is noted nowhere and
    leaves the function, which extracts no year, logs nothing and runs no
    plugin. *)
Theorem publication_year_of_text env pkg_dict :
  (forall st metadata_dict errs,
     base_extract env pkg_dict = Ok (st, metadata_dict, errs) ->
     text_or_None (py_get pkg_dict "doi_date_published")
     /\ dict_get "publicationYear" metadata_dict
        = Some (match py_get pkg_dict "doi_date_published" with
                | VStr s =>
                    if isdecimal (text_prefix 4 s)
                    then VStr (text_prefix 4 s)
                    else VInt (now_year env)
                | _ => VInt (now_year env)
                end))
  /\ (forall cps st metadata_dict errs,
        Forall is_code_point cps ->
        py_get pkg_dict "doi_date_published" = VStr (text_of cps) ->
        base_extract env pkg_dict = Ok (st, metadata_dict, errs) ->
        dict_get "publicationYear" metadata_dict
        = Some (if (0 <? List.length cps)%nat
                   && forallb decimal_code_point (firstn 4 cps)
                then VStr (text_of (firstn 4 cps))
                else VInt (now_year env)))
  /\ (text_or_None (py_get pkg_dict "doi_date_published") ->
      forall st, snd (publication_year_block env pkg_dict st) = Ok tt)
  /\ (~ text_or_None (py_get pkg_dict "doi_date_published") ->
      exists k msg,
        rbind (slice_to 4 (py_get pkg_dict "doi_date_published"))
          method_isdecimal = Raise k msg
        /\ (forall st, snd (publication_year_block env pkg_dict st) = Raise k msg)
        /\ base_extract env pkg_dict = Raise k msg
        /\ build_metadata_dict env pkg_dict = ([], Raise k msg)).
Proof.
  assert (Hyear : forall st metadata_dict errs,
            base_extract env pkg_dict = Ok (st, metadata_dict, errs) ->
            dict_get "publicationYear" metadata_dict
            = Some (expected_year env pkg_dict)).
  { intros st metadata_dict errs H.
    apply base_extract_Ok in H as (Hrun & -> & _ & Hk).
    rewrite merged_get_required; [| assumption | simpl; intuition discriminate].
    exact (base_fields_publication_year env pkg_dict init_state st tt eq_refl Hrun). }
  repeat split.
  - exact (extraction_needs_text env pkg_dict st metadata_dict errs H).
  - exact (Hyear st metadata_dict errs H).
  - intros cps st metadata_dict errs Hcps Hv H.
    rewrite (Hyear st metadata_dict errs H).
    now rewrite (expected_year_text_of env pkg_dict cps Hcps Hv).
  - intros Htext st. now rewrite publication_year_block_run.
  - intros Hn. destruct (year_test_raises pkg_dict Hn) as (k & msg & E).
    exists k, msg. split; [exact E|]. split; [|split].
    + intros st.
      destruct (publication_year_block_raises env pkg_dict k msg Hn E st)
        as [st' ->].
      reflexivity.
    + exact (base_extract_raises_at_year env pkg_dict k msg Hn E).
    + unfold build_metadata_dict, extension_pass.
      now rewrite (base_extract_raises_at_year env pkg_dict k msg Hn E).
Qed.

Lemma publication_year_of_text_witness :
  (exists st metadata_dict errs,
     base_extract Sample.env Sample.pkg = Ok (st, metadata_dict, errs)
     /\ dict_get "publicationYear" metadata_dict = Some (VStr "2021"))
  /\ (exists st metadata_dict errs,
        base_extract Sample.env Cases.arabic_indic_year
        = Ok (st, metadata_dict, errs)
        /\ dict_get "publicationYear" metadata_dict
           = Some (VStr (text_of [1634; 1632; 1634; 1633]%N)))
  /\ build_metadata_dict Sample.env Cases.integer_year
     = ([], Raise TypeError "'int' object is not subscriptable")
  /\ build_metadata_dict Sample.env Cases.datetime_published
     = ([], Raise TypeError "'datetime.datetime' object is not subscriptable").
Proof.
  split; [|split; [|split]].
  - destruct (publication_year_of_text Sample.env Sample.pkg) as (Hyear & _).
    eassert (Hok : base_extract Sample.env Sample.pkg = Ok (_, _, _))
      by (vm_compute; reflexivity).
    do 3 eexists. split; [exact Hok|].
    rewrite (proj2 (Hyear _ _ _ Hok)). vm_compute. reflexivity.
  - destruct (publication_year_of_text Sample.env Cases.arabic_indic_year)
      as (_ & Hcps & _).
    eassert (Hok : base_extract Sample.env Cases.arabic_indic_year = Ok (_, _, _))
      by (vm_compute; reflexivity).
    assert (Htext : Forall is_code_point
                      [1634; 1632; 1634; 1633; 45; 48; 53; 45; 49; 48]%N)
      by (repeat constructor; unfold is_code_point; lia).
    do 3 eexists. split; [exact Hok|].
    pose proof (fun Hv => Hcps _ _ _ _ Htext Hv Hok) as Hyear.
    rewrite Hyear; vm_compute; reflexivity.
  - destruct (publication_year_of_text Sample.env Cases.integer_year)
      as (_ & _ & _ & Hraise).
    destruct Hraise as (k & msg & Htest & _ & _ & Hbuild).
    + intros [H|[s H]]; vm_compute in H; discriminate.
    + vm_compute in Htest. inversion Htest; subst. exact Hbuild.
  - destruct (publication_year_of_text Sample.env Cases.datetime_published)
      as (_ & _ & _ & Hraise).
    destruct Hraise as (k & msg & Htest & _ & _ & Hbuild).
    + intros [H|[s H]]; vm_compute in H; discriminate.
    + vm_compute in Htest. inversion Htest; subst. exact Hbuild.
Defined.

(** C5 on the code: an unparsable [funder] leaves an entry for an optional
    key in the final error map and the function returns the record, yet
    nothing is logged. *)
Theorem optional_errors_not_logged :
  exists st metadata_dict errs,
    extension_pass Sample.env Cases.unparsable_funder = Ok (st, metadata_dict, errs)
    /\ errors_in (optional st) errs
       = [ ("fundingReferences", VExc SyntaxError "invalid syntax") ]
    /\ build_metadata_dict Sample.env Cases.unparsable_funder = ([], Ok metadata_dict).
Proof.
  do 3 eexists. split; [vm_compute; reflexivity|].
  split; vm_compute; reflexivity.
Qed.

Lemma projection_keeps_nonempty_optionals_witness :
  exists xml_dict,
    project Sample.env Cases.record = Ok xml_dict
    /\ dict_get "subjects" xml_dict = None
    /\ dict_get "language" xml_dict = None
    /\ dict_get "version" xml_dict = None
    /\ dict_get "formats" xml_dict = None
    /\ dict_get "sizes" xml_dict = Some (VList [ VStr "3 kb" ])
    /\ dict_get "publicationYear" xml_dict = Some (VStr "2021").
Proof.
  destruct (projection_keeps_nonempty_optionals Sample.env Cases.record eq_refl)
    as (xml_dict & Hp & _ & Homit & Hkeep & _ & _ & Hyear).
  exists xml_dict. split; [exact Hp|].
  split; [apply Homit; [simpl; auto 20 | right; left; reflexivity]|].
  split; [apply Homit; [simpl; auto 20 | right; left; reflexivity]|].
  split; [apply Homit; [simpl; auto 20 | left; reflexivity]|].
  split; [apply Homit; [simpl; auto 20 | right; right; do 2 eexists; reflexivity]|].
  split; [|exact Hyear].
  apply (Hkeep "sizes"); [simpl; auto 20 | discriminate | exists 0%nat; reflexivity].
Defined.

Lemma rights_list_precedence_witness :
  exists st metadata_dict errs,
    base_extract Sample.env Sample.pkg = Ok (st, metadata_dict, errs)
    /\ dict_get "rightsList" metadata_dict
       = Some (VList [ VDict [ ("rightsUri", VStr "https://spdx.org/licenses/CC-BY-4.0.html");
                               ("rightsIdentifier", VStr "CC-BY-4.0");
                               ("rightsIdentifierScheme", VStr "SPDX") ] ]).
Proof.
  eassert (Hbase : base_extract Sample.env Sample.pkg = Ok (_, _, _))
    by (vm_compute; reflexivity).
  pose proof (rights_list_precedence Sample.env Sample.pkg _ _ _ Hbase) as Hr.
  cbv zeta in Hr. destruct Hr as [Hcc _].
  do 3 eexists. split; [exact Hbase|]. apply Hcc. reflexivity.
Defined.



Lemma dates_created_updated_issued_witness :
  exists st metadata_dict errs,
    base_extract Sample.env Cases.unreadable_date = Ok (st, metadata_dict, errs)
    /\ dict_get "dates" metadata_dict
       = Some (VList [ VDict [ ("dateType", VStr "Updated");
                               ("date", VObj "datetime.datetime" "2021-05-02 00:00:00") ];
                       VDict [ ("dateType", VStr "Issued");
                               ("date", VObj "datetime.datetime" "2021-05-10 00:00:00") ] ]).
Proof.
  eassert (Hbase : base_extract Sample.env Cases.unreadable_date = Ok (_, _, _))
    by (vm_compute; reflexivity).
  destruct (dates_created_updated_issued Sample.env Cases.unreadable_date _ _ _ Hbase)
    as [Hdates _].
  do 3 eexists. split; [exact Hbase|]. exact Hdates.
Defined.

Lemma dates_never_in_error_map_witness :
  exists st metadata_dict errs,
    base_extract Sample.env Cases.unreadable_date = Ok (st, metadata_dict, errs)
    /\ dict_get "dates" errs = None.
Proof.
  eassert (Hbase : base_extract Sample.env Cases.unreadable_date = Ok (_, _, _))
    by (vm_compute; reflexivity).
  destruct (dates_never_in_error_map Sample.env Cases.unreadable_date _ _ _ Hbase)
    as [Hnone _].
  do 3 eexists. split; [exact Hbase|]. exact Hnone.
Defined.

(** * Further properties *)

(** ** The record of the base extraction, key by key *)

Lemma try_set_required_value key r v0 :
  triple (holds (Req key) (Some v0))
    (try_except any_Exception
       (bind (lift r) (fun v => set_required key v))
       (fun e => set_error key e))
    (holds (Req key) (Some (value_or r v0))).
Proof.
  intros st st' a H E. unfold holds in *; simpl in *.
  unfold try_except, bind, lift in E. destruct r as [v|k msg]; simpl in *.
  - inversion E; subst; simpl. apply dict_get_set_same.
  - inversion E; subst; simpl. exact H.
Qed.

Lemma add_required_Ok_value key v ov :
  triple (holds (Req key) ov) (_add_required key (Ok v)) (holds (Req key) (Some v)).
Proof.
  intros st st' a H E. unfold _add_required, try_except, bind, lift in E.
  simpl in E. inversion E; subst. unfold holds; simpl. apply dict_get_set_same.
Qed.

Lemma set_optional_value key v ov :
  triple (holds (Opt key) ov) (set_optional key v) (holds (Opt key) (Some v)).
Proof.
  intros st st' a H E. unfold set_optional in E. inversion E; subst.
  unfold holds; simpl. apply dict_get_set_same.
Qed.

Lemma try_append_each_value catches key (src : result (list pyval)) entry st :
  dict_get key (optional st) = Some (VList []) ->
  dict_get key
    (optional
       (fst (try_except catches
               (bind (lift src) (fun xs => append_each key entry xs))
               (fun e => set_error key e) st)))
  = Some (VList (loop_items src entry)).
Proof.
  intros Ho. unfold try_except, bind, lift, loop_items.
  destruct src as [xs|k msg].
  - destruct (append_each_run key entry xs st [] Ho) as [_ Hval].
    destruct (append_each key entry xs st) as [st1 [[]|k msg]]; simpl in *; auto.
    destruct (catches k); simpl; auto.
  - destruct (catches k); simpl; auto.
Qed.

Section BaseValues.
Variable env : Env.
Variable pkg_dict : dict.

Lemma geolocations_block_value :
  triple (holds (Opt "geoLocations") (Some (VList [])))
    (geolocations_block env pkg_dict)
    (holds (Opt "geoLocations") (Some (VList (geolocations_items env pkg_dict)))).
Proof.
  intros st st' a H E. unfold holds in *; simpl in *.
  unfold geolocations_block, geolocations_items in *.
  destruct (py_get_default pkg_dict "location_choice" VNone) as [| | | |s| | | |];
    cbn [py_eq_str is_none negb] in E |- *; try (inversion E; subst; exact H).
  destruct (String.eqb s "point").
  - unfold bind at 1 in E. cbn [set_optional] in E.
    pose proof (try_append_each_value ValueError_KeyError_IndexError "geoLocations"
                  (location_features pkg_dict) (point_feature env)
                  (mkState (required st)
                     (dict_set "geoLocations" (VList []) (optional st))
                     (errors st) (date_errors st))
                  (dict_get_set_same _ _ _)) as Hv.
    rewrite E in Hv. exact Hv.
  - destruct (String.eqb s "area").
    + unfold bind at 1 in E. cbn [set_optional] in E.
      pose proof (try_append_each_value ValueError_KeyError_IndexError "geoLocations"
                    (location_features pkg_dict) (polygon_feature env)
                    (mkState (required st)
                       (dict_set "geoLocations" (VList []) (optional st))
                       (errors st) (date_errors st))
                    (dict_get_set_same _ _ _)) as Hv.
      rewrite E in Hv. exact Hv.
    + inversion E; subst; exact H.
Qed.

Lemma funding_block_value :
  triple (holds (Opt "fundingReferences") (Some (VList [])))
    (funding_block env pkg_dict)
    (holds (Opt "fundingReferences") (Some (VList (funding_items env pkg_dict)))).
Proof.
  intros st st' a H E. unfold holds in *; simpl in *.
  unfold funding_block, funding_items in *.
  destruct (py_eq_str (py_get_default pkg_dict "funder" (VStr "")) "");
    simpl in E; [inversion E; subst; exact H|].
  pose proof (fun funder_list =>
    try_append_each_value any_Exception "fundingReferences"
      (py_iter funder_list) funder_entry
      (mkState (required st)
         (dict_set "fundingReferences" (VList []) (optional st))
         (errors st) (date_errors st))
      (dict_get_set_same _ _ _)) as Hrun.
  cbv [try_except bind lift set_optional any_Exception] in Hrun, E.
  destruct (literal_eval env (py_get pkg_dict "funder")) as [funder_list|k msg].
  - specialize (Hrun funder_list).
    destruct (py_iter funder_list) as [funders|k msg].
    + destruct (append_each "fundingReferences" funder_entry funders _)
        as [st2 [[]|k msg]]; cbn [fst snd] in *; inversion E; subst; exact Hrun.
    + inversion E; subst. exact Hrun.
  - inversion E; subst; simpl. exact H.
Qed.

Lemma base_value_creators :
  triple (holds (Req "creators") (Some (VList []))) (base_fields env pkg_dict)
    (holds (Req "creators")
       (Some (value_or (author_list env pkg_dict creator_entry) (VList [])))).
Proof.
  walk (try_set_required_value "creators" (author_list env pkg_dict creator_entry)
          (VList [])).
Qed.

Lemma base_value_titles :
  triple (holds (Req "titles") (Some (VList []))) (base_fields env pkg_dict)
    (holds (Req "titles")
       (Some (VList [ VDict [ ("title", py_get pkg_dict "title") ] ]))).
Proof.
  walk (add_required_Ok_value "titles"
          (VList [ VDict [ ("title", py_get pkg_dict "title") ] ])
          (Some (VList []))).
Qed.

Lemma base_value_publisher :
  triple (holds (Req "publisher") (Some VNone)) (base_fields env pkg_dict)
    (holds (Req "publisher") (Some (py_get (config env) "ckanext.doi.publisher"))).
Proof.
  walk (add_required_Ok_value "publisher"
          (py_get (config env) "ckanext.doi.publisher") (Some VNone)).
Qed.

Lemma base_value_resource_type :
  triple (holds (Req "resourceType") (Some VNone)) (base_fields env pkg_dict)
    (holds (Req "resourceType") (Some (py_get pkg_dict "type"))).
Proof.
  walk (add_required_Ok_value "resourceType" (py_get pkg_dict "type") (Some VNone)).
Qed.

Lemma base_value_subjects :
  triple (holds (Opt "subjects") (Some (VList []))) (base_fields env pkg_dict)
    (holds (Opt "subjects")
       (Some (value_or (subjects_value env pkg_dict) (VList [])))).
Proof.
  walk (try_set_optional_value "subjects" (subjects_value env pkg_dict) (VList [])).
Qed.

Lemma base_value_contributors :
  triple (holds (Opt "contributors") (Some (VList []))) (base_fields env pkg_dict)
    (holds (Opt "contributors")
       (Some (value_or (author_list env pkg_dict contributor_entry) (VList [])))).
Proof.
  walk (try_set_optional_value "contributors"
          (author_list env pkg_dict contributor_entry) (VList [])).
Qed.

Lemma base_value_language :
  triple (holds (Opt "language") (Some (VStr ""))) (base_fields env pkg_dict)
    (holds (Opt "language") (Some (value_or (ckan_lang env) (VStr "")))).
Proof. walk (try_set_optional_value "language" (ckan_lang env) (VStr "")). Qed.

Lemma base_value_alternate_identifiers :
  triple (holds (Opt "alternateIdentifiers") (Some (VList [])))
    (base_fields env pkg_dict)
    (holds (Opt "alternateIdentifiers")
       (Some (value_or (alternate_identifiers_value env pkg_dict) (VList [])))).
Proof.
  walk (try_set_optional_value "alternateIdentifiers"
          (alternate_identifiers_value env pkg_dict) (VList [])).
Qed.

Lemma base_value_related_identifiers :
  triple (holds (Opt "relatedIdentifiers") (Some (VList [])))
    (base_fields env pkg_dict)
    (holds (Opt "relatedIdentifiers") (Some (VList (related_items env pkg_dict)))).
Proof. walk (related_identifiers_block_value env pkg_dict). Qed.

Lemma base_value_formats :
  triple (holds (Opt "formats") (Some (VList []))) (base_fields env pkg_dict)
    (holds (Opt "formats")
       (Some (value_or (formats_value env pkg_dict) (VList [])))).
Proof.
  walk (try_set_optional_value "formats" (formats_value env pkg_dict) (VList [])).
Qed.

Lemma base_value_version :
  triple (holds (Opt "version") (Some (VStr ""))) (base_fields env pkg_dict)
    (holds (Opt "version") (Some (py_get pkg_dict "version"))).
Proof.
  walk (set_optional_value "version" (py_get pkg_dict "version") (Some (VStr ""))).
Qed.

Lemma base_value_descriptions :
  triple (holds (Opt "descriptions") (Some (VList []))) (base_fields env pkg_dict)
    (holds (Opt "descriptions")
       (Some (VList [ VDict [ ("descriptionType", VStr "Other");
                              ("description",
                                py_get_default pkg_dict "notes" (VStr "")) ] ]))).
Proof.
  walk (set_optional_value "descriptions"
          (VList [ VDict [ ("descriptionType", VStr "Other");
                           ("description",
                             py_get_default pkg_dict "notes" (VStr "")) ] ])
          (Some (VList []))).
Qed.

Lemma base_value_geolocations :
  triple (holds (Opt "geoLocations") (Some (VList []))) (base_fields env pkg_dict)
    (holds (Opt "geoLocations") (Some (VList (geolocations_items env pkg_dict)))).
Proof. walk geolocations_block_value. Qed.

Lemma base_value_funding :
  triple (holds (Opt "fundingReferences") (Some (VList [])))
    (base_fields env pkg_dict)
    (holds (Opt "fundingReferences") (Some (VList (funding_items env pkg_dict)))).
Proof. walk funding_block_value. Qed.
End BaseValues.

Lemma merged_get_required_key (st : state) (k : string) :
  keys_ok st -> In k (dict_keys init_required) ->
  dict_get k (merged st) = dict_get k (required st).
Proof.
  intros Hk Hin. apply merged_get_required; [assumption|].
  simpl in Hin |- *. intuition (subst; discriminate).
Qed.

Lemma merged_get_other (st : state) (k : string) :
  keys_ok st -> ~ In k (dict_keys init_required) ->
  ~ In k (dict_keys init_optional) ->
  dict_get k (merged st) = None.
Proof.
  intros Hk Hr Ho. rewrite merged_get_required by assumption.
  destruct Hk as [Hkr _]. rewrite <- Hkr in Hr.
  now apply dict_get_None_notin.
Qed.

(** The record the base extraction returns, key by key. *)
Lemma base_value_map env pkg_dict st :
  base_fields env pkg_dict init_state = (st, Ok tt) ->
  forall key, dict_get key (merged st) = field_value env pkg_dict key.
Proof.
  intros Hrun key.
  pose proof (base_fields_keys_ok env pkg_dict init_state init_keys_ok) as Hk.
  rewrite Hrun in Hk. simpl in Hk.
  assert (Hreq : forall k v, In k (dict_keys init_required) ->
            dict_get k (required st) = Some v -> dict_get k (merged st) = Some v).
  { intros k v Hin Hv. now rewrite merged_get_required_key. }
  pose proof (merged_get_optional st) as Hopt.
  unfold field_value.
  destruct (String.eqb_spec key "creators") as [->|N1].
  { apply Hreq; [simpl; auto|].
    exact (base_value_creators env pkg_dict init_state st tt eq_refl Hrun). }
  destruct (String.eqb_spec key "titles") as [->|N2].
  { apply Hreq; [simpl; auto|].
    exact (base_value_titles env pkg_dict init_state st tt eq_refl Hrun). }
  destruct (String.eqb_spec key "publisher") as [->|N3].
  { apply Hreq; [simpl; auto|].
    exact (base_value_publisher env pkg_dict init_state st tt eq_refl Hrun). }
  destruct (String.eqb_spec key "publicationYear") as [->|N4].
  { apply Hreq; [simpl; auto|].
    exact (base_fields_publication_year env pkg_dict init_state st tt eq_refl Hrun). }
  destruct (String.eqb_spec key "resourceType") as [->|N5].
  { apply Hreq; [simpl; auto 10|].
    exact (base_value_resource_type env pkg_dict init_state st tt eq_refl Hrun). }
  destruct (String.eqb_spec key "subjects") as [->|N6].
  { apply Hopt; [assumption|].
    exact (base_value_subjects env pkg_dict init_state st tt eq_refl Hrun). }
  destruct (String.eqb_spec key "contributors") as [->|N7].
  { apply Hopt; [assumption|].
    exact (base_value_contributors env pkg_dict init_state st tt eq_refl Hrun). }
  destruct (String.eqb_spec key "dates") as [->|N8].
  { apply Hopt; [assumption|].
    exact (base_fields_dates env pkg_dict init_state st tt eq_refl Hrun). }
  destruct (String.eqb_spec key "language") as [->|N9].
  { apply Hopt; [assumption|].
    exact (base_value_language env pkg_dict init_state st tt eq_refl Hrun). }
  destruct (String.eqb_spec key "alternateIdentifiers") as [->|N10].
  { apply Hopt; [assumption|].
    exact (base_value_alternate_identifiers env pkg_dict init_state st tt eq_refl Hrun). }
  destruct (String.eqb_spec key "relatedIdentifiers") as [->|N11].
  { apply Hopt; [assumption|].
    exact (base_value_related_identifiers env pkg_dict init_state st tt eq_refl Hrun). }
  destruct (String.eqb_spec key "sizes") as [->|N12].
  { apply Hopt; [assumption|].
    exact (base_fields_sizes env pkg_dict init_state st tt eq_refl Hrun). }
  destruct (String.eqb_spec key "formats") as [->|N13].
  { apply Hopt; [assumption|].
    exact (base_value_formats env pkg_dict init_state st tt eq_refl Hrun). }
  destruct (String.eqb_spec key "version") as [->|N14].
  { apply Hopt; [assumption|].
    exact (base_value_version env pkg_dict init_state st tt eq_refl Hrun). }
  destruct (String.eqb_spec key "rightsList") as [->|N15].
  { apply Hopt; [assumption|].
    exact (base_fields_rights env pkg_dict init_state st tt eq_refl Hrun). }
  destruct (String.eqb_spec key "descriptions") as [->|N16].
  { apply Hopt; [assumption|].
    exact (base_value_descriptions env pkg_dict init_state st tt eq_refl Hrun). }
  destruct (String.eqb_spec key "geoLocations") as [->|N17].
  { apply Hopt; [assumption|].
    exact (base_value_geolocations env pkg_dict init_state st tt eq_refl Hrun). }
  destruct (String.eqb_spec key "fundingReferences") as [->|N18].
  { apply Hopt; [assumption|].
    exact (base_value_funding env pkg_dict init_state st tt eq_refl Hrun). }
  apply merged_get_other; [assumption| |]; simpl; intuition congruence.
Qed.

(** The record and the error map of a base extraction that completed. *)
Lemma base_extract_maps env pkg_dict st metadata_dict errs :
  base_extract env pkg_dict = Ok (st, metadata_dict, errs) ->
  (forall key, dict_get key metadata_dict = field_value env pkg_dict key)
  /\ (forall key, dict_get key errs = field_failure env pkg_dict key).
Proof.
  intros H. apply base_extract_Ok in H as (Hrun & -> & -> & Hk). split.
  - now apply base_value_map.
  - now apply base_error_map.
Qed.


(** ** The keys of the record *)

Lemma dict_keys_update_fresh (d other : dict) :
  NoDup (dict_keys other) ->
  (forall k, In k (dict_keys other) -> ~ In k (dict_keys d)) ->
  dict_keys (dict_update d other) = dict_keys d ++ dict_keys other.
Proof.
  unfold dict_update. revert d.
  induction other as [|[k v] other IH]; intros d Hnd Hfresh; simpl.
  - now rewrite app_nil_r.
  - inversion Hnd as [|? ? Hk Hnd']; subst.
    rewrite IH; [| assumption |].
    + rewrite dict_keys_set_new by (apply Hfresh; simpl; auto).
      now rewrite <- app_assoc.
    + intros k' Hin. rewrite dict_set_In_keys. intros [->|Hd].
      * contradiction.
      * apply (Hfresh k'); simpl; auto.
Qed.

Lemma merged_keys (st : state) :
  keys_ok st ->
  dict_keys (merged st) = dict_keys init_required ++ dict_keys init_optional.
Proof.
  intros [Hr Ho]. unfold merged.
  rewrite dict_keys_update_fresh.
  - rewrite dict_keys_update_fresh.
    + now rewrite Hr, Ho.
    + rewrite Hr. repeat constructor; simpl; intuition discriminate.
    + intros k _ [].
  - rewrite Ho. repeat constructor; simpl; intuition discriminate.
  - intros k Hin. rewrite dict_keys_update_fresh.
    + rewrite Hr. rewrite Ho in Hin. simpl in Hin |- *.
      intuition (subst; discriminate).
    + rewrite Hr. repeat constructor; simpl; intuition discriminate.
    + intros k' _ [].
Qed.

Lemma field_failure_keys env pkg_dict key e :
  field_failure env pkg_dict key = Some e ->
  In key [ "creators"; "subjects"; "contributors"; "language";
           "alternateIdentifiers"; "relatedIdentifiers"; "sizes"; "formats";
           "rightsList"; "geoLocations"; "fundingReferences" ].
Proof.
  unfold field_failure.
  repeat match goal with
         | |- context [String.eqb key ?s] =>
             destruct (String.eqb_spec key s); [subst; simpl; auto 20|]
         end.
  discriminate.
Qed.

(** X1.  The record of a completed base extraction has the five required
    keys and then the thirteen optional keys, in the order of the two
    literals, whatever the source record holds; and every key of the error
    map is one of them. *)
Theorem extracted_record_keys env pkg_dict st metadata_dict errs :
  base_extract env pkg_dict = Ok (st, metadata_dict, errs) ->
  dict_keys metadata_dict
  = [ "creators"; "titles"; "publisher"; "publicationYear"; "resourceType";
      "subjects"; "contributors"; "dates"; "language"; "alternateIdentifiers";
      "relatedIdentifiers"; "sizes"; "formats"; "version"; "rightsList";
      "descriptions"; "geoLocations"; "fundingReferences" ]
  /\ forall k, In k (dict_keys errs) -> In k (dict_keys metadata_dict).
Proof.
  intros H.
  destruct (base_extract_maps env pkg_dict st metadata_dict errs H) as [_ Herr].
  apply base_extract_Ok in H as (_ & -> & _ & Hk).
  rewrite (merged_keys st Hk). split; [reflexivity|].
  intros k Hin. apply dict_mem_In in Hin. unfold dict_mem in Hin.
  rewrite Herr in Hin.
  destruct (field_failure env pkg_dict k) as [e|] eqn:E; [|discriminate].
  apply field_failure_keys in E. simpl in E |- *.
  intuition (subst; auto 20).
Qed.

Lemma extracted_record_keys_witness :
  exists st metadata_dict errs,
    base_extract Sample.env Cases.unparsable_funder = Ok (st, metadata_dict, errs)
    /\ List.length (dict_keys metadata_dict) = 18%nat
    /\ dict_keys errs = [ "fundingReferences" ].
Proof.
  eassert (Hbase : base_extract Sample.env Cases.unparsable_funder = Ok (_, _, _))
    by (vm_compute; reflexivity).
  destruct (extracted_record_keys Sample.env Cases.unparsable_funder _ _ _ Hbase)
    as [Hkeys _].
  do 3 eexists. split; [exact Hbase|]. split.
  - rewrite Hkeys. reflexivity.
  - reflexivity.
Defined.

(** ** The extension passes *)

Lemma run_plugins_app ps1 ps2 pkg_dict metadata_dict errs :
  run_plugins (ps1 ++ ps2) pkg_dict metadata_dict errs
  = match run_plugins ps1 pkg_dict metadata_dict errs with
    | Ok (metadata_dict', errs') => run_plugins ps2 pkg_dict metadata_dict' errs'
    | Raise k msg => Raise k msg
    end.
Proof.
  revert metadata_dict errs.
  induction ps1 as [|p ps1 IH]; intros metadata_dict errs; simpl.
  - reflexivity.
  - destruct (plugin_build_metadata_dict p pkg_dict metadata_dict errs)
      as [[md' errs']|k msg]; auto.
Qed.

Lemma run_xml_plugins_app ps1 ps2 metadata_dict xml_dict :
  run_xml_plugins metadata_dict (ps1 ++ ps2) xml_dict
  = rbind (run_xml_plugins metadata_dict ps1 xml_dict)
      (run_xml_plugins metadata_dict ps2).
Proof.
  revert xml_dict. induction ps1 as [|p ps1 IH]; intros xml_dict; simpl.
  - reflexivity.
  - destruct (plugin_build_xml_dict p metadata_dict xml_dict) as [xml'|k msg];
      simpl; auto.
Qed.

Lemma plugin_step_raised pkg_dict ps k msg :
  fold_left (plugin_step pkg_dict) ps (Raise k msg) = Raise k msg.
Proof. induction ps as [|p ps IH]; simpl; auto. Qed.

Lemma xml_plugin_step_raised metadata_dict ps k msg :
  fold_left (xml_plugin_step metadata_dict) ps (Raise k msg) = Raise k msg.
Proof. induction ps as [|p ps IH]; simpl; auto. Qed.

(** The pass is the loop: the plugins taken from left to right, each
    called with what the turn before left. *)
Lemma run_plugins_fold ps pkg_dict metadata_dict errs :
  run_plugins ps pkg_dict metadata_dict errs
  = fold_left (plugin_step pkg_dict) ps (Ok (metadata_dict, errs)).
Proof.
  revert metadata_dict errs.
  induction ps as [|p ps IH]; intros metadata_dict errs; simpl.
  - reflexivity.
  - destruct (plugin_build_metadata_dict p pkg_dict metadata_dict errs)
      as [[md' errs']|k msg].
    + apply IH.
    + symmetry. apply plugin_step_raised.
Qed.

Lemma run_xml_plugins_fold ps metadata_dict xml_dict :
  run_xml_plugins metadata_dict ps xml_dict
  = fold_left (xml_plugin_step metadata_dict) ps (Ok xml_dict).
Proof.
  revert xml_dict. induction ps as [|p ps IH]; intros xml_dict; simpl.
  - reflexivity.
  - destruct (plugin_build_xml_dict p metadata_dict xml_dict) as [xml'|k msg];
      simpl.
    + apply IH.
    + symmetry. apply xml_plugin_step_raised.
Qed.

(** X2.  Both extension passes call every registered plugin, in
    registration order: the first with what the function built, each
    later one with what the one before it returned (and, in
    [build_metadata_dict], with the source record), and the pass gives
    what the last one returned.  The first exception a plugin raises stops
    the pass: no later plugin changes the outcome.  [build_metadata_dict]
    enforces and reports on what its pass gave, or raises what it raised
    with nothing logged; [build_xml_dict] returns or raises what its pass
    did. *)
Theorem plugins_run_in_order (ps1 ps2 : list IDoi) (plugin : IDoi) :
  (forall pkg_dict metadata_dict errs,
     run_plugins ps1 pkg_dict metadata_dict errs
     = fold_left (plugin_step pkg_dict) ps1 (Ok (metadata_dict, errs)))
  /\ (forall pkg_dict metadata_dict errs metadata_dict' errs',
        run_plugins ps1 pkg_dict metadata_dict errs = Ok (metadata_dict', errs') ->
        run_plugins (ps1 ++ [plugin]) pkg_dict metadata_dict errs
        = plugin_build_metadata_dict plugin pkg_dict metadata_dict' errs')
  /\ (forall pkg_dict metadata_dict errs metadata_dict' errs' k msg,
        run_plugins ps1 pkg_dict metadata_dict errs = Ok (metadata_dict', errs') ->
        plugin_build_metadata_dict plugin pkg_dict metadata_dict' errs'
        = Raise k msg ->
        run_plugins (ps1 ++ plugin :: ps2) pkg_dict metadata_dict errs
        = Raise k msg)
  /\ (forall pkg_dict metadata_dict errs,
        run_plugins (ps1 ++ ps2) pkg_dict metadata_dict errs
        = match run_plugins ps1 pkg_dict metadata_dict errs with
          | Ok (metadata_dict', errs') =>
              run_plugins ps2 pkg_dict metadata_dict' errs'
          | Raise k msg => Raise k msg
          end)
  /\ (forall metadata_dict xml_dict,
        run_xml_plugins metadata_dict ps1 xml_dict
        = fold_left (xml_plugin_step metadata_dict) ps1 (Ok xml_dict))
  /\ (forall metadata_dict xml_dict xml_dict',
        run_xml_plugins metadata_dict ps1 xml_dict = Ok xml_dict' ->
        run_xml_plugins metadata_dict (ps1 ++ [plugin]) xml_dict
        = plugin_build_xml_dict plugin metadata_dict xml_dict')
  /\ (forall metadata_dict xml_dict xml_dict' k msg,
        run_xml_plugins metadata_dict ps1 xml_dict = Ok xml_dict' ->
        plugin_build_xml_dict plugin metadata_dict xml_dict' = Raise k msg ->
        run_xml_plugins metadata_dict (ps1 ++ plugin :: ps2) xml_dict
        = Raise k msg)
  /\ (forall metadata_dict xml_dict,
        run_xml_plugins metadata_dict (ps1 ++ ps2) xml_dict
        = rbind (run_xml_plugins metadata_dict ps1 xml_dict)
            (run_xml_plugins metadata_dict ps2))
  /\ (forall env pkg_dict st metadata_dict errs,
        plugins env = ps1 ->
        base_extract env pkg_dict = Ok (st, metadata_dict, errs) ->
        build_metadata_dict env pkg_dict
        = match fold_left (plugin_step pkg_dict) ps1 (Ok (metadata_dict, errs)) with
          | Ok (metadata_dict', errs') =>
              enforce_and_report env st metadata_dict' errs'
          | Raise k msg => ([], Raise k msg)
          end)
  /\ (forall env metadata_dict xml_dict,
        plugins env = ps1 ->
        project env metadata_dict = Ok xml_dict ->
        build_xml_dict env metadata_dict
        = fold_left (xml_plugin_step metadata_dict) ps1 (Ok xml_dict)).
Proof.
  repeat split.
  - intros. apply run_plugins_fold.
  - intros pkg_dict metadata_dict errs metadata_dict' errs' H.
    rewrite run_plugins_app, H. simpl.
    now destruct (plugin_build_metadata_dict plugin pkg_dict metadata_dict' errs')
      as [[md e]|k msg].
  - intros pkg_dict metadata_dict errs metadata_dict' errs' k msg H Hp.
    rewrite run_plugins_app, H. simpl. now rewrite Hp.
  - intros. apply run_plugins_app.
  - intros. apply run_xml_plugins_fold.
  - intros metadata_dict xml_dict xml_dict' H.
    rewrite run_xml_plugins_app, H. simpl.
    now destruct (plugin_build_xml_dict plugin metadata_dict xml_dict').
  - intros metadata_dict xml_dict xml_dict' k msg H Hp.
    rewrite run_xml_plugins_app, H. simpl. now rewrite Hp.
  - intros. apply run_xml_plugins_app.
  - intros env pkg_dict st metadata_dict errs Hps Hbase.
    unfold build_metadata_dict, extension_pass. rewrite Hbase, Hps.
    rewrite run_plugins_fold.
    now destruct (fold_left (plugin_step pkg_dict) ps1 (Ok (metadata_dict, errs)))
      as [[md e]|k msg].
  - intros env metadata_dict xml_dict Hps Hproj.
    unfold build_xml_dict. rewrite Hproj, Hps. simpl.
    apply run_xml_plugins_fold.
Qed.

Lemma plugins_run_in_order_witness :
  run_plugins [ MoreCases.stamp "A"; MoreCases.stamp "B" ] [] [] []
  = Ok ([ ("publisher", VStr "B") ], [])
  /\ run_plugins [ MoreCases.stamp "B"; MoreCases.stamp "A" ] [] [] []
     = Ok ([ ("publisher", VStr "A") ], [])
  /\ run_plugins [ MoreCases.stamp "A"; MoreCases.refuse; MoreCases.stamp "B" ]
       [] [] []
     = Raise OtherException "refused"
  /\ snd (build_metadata_dict (MoreCases.no_publisher_with []) Sample.pkg)
     = Raise DOIMetadataException
         "Could not extract metadata for the following required keys: publisher"
  /\ (exists metadata_dict,
        build_metadata_dict
          (MoreCases.no_publisher_with [ MoreCases.stamp "AuScope" ]) Sample.pkg
        = ([], Ok metadata_dict)
        /\ dict_get "publisher" metadata_dict = Some (VStr "AuScope"))
  /\ build_metadata_dict
       (MoreCases.no_publisher_with [ MoreCases.stamp "AuScope"; MoreCases.refuse ])
       Sample.pkg
     = ([], Raise OtherException "refused")
  /\ build_xml_dict
       (MoreCases.no_publisher_with [ MoreCases.stamp "A"; MoreCases.stamp "B" ])
       Cases.record
     = rbind (project (MoreCases.no_publisher_with []) Cases.record)
         (fun xml_dict => Ok (dict_set "publisher" (VStr "B") xml_dict)).
Proof.
  split; [|split; [|split; [|split; [|split; [|split]]]]].
  - destruct (plugins_run_in_order
                [ MoreCases.stamp "A"; MoreCases.stamp "B" ] [] MoreCases.refuse)
      as (Hloop & _).
    rewrite Hloop. reflexivity.
  - destruct (plugins_run_in_order
                [ MoreCases.stamp "B"; MoreCases.stamp "A" ] [] MoreCases.refuse)
      as (Hloop & _).
    rewrite Hloop. reflexivity.
  - destruct (plugins_run_in_order
                [ MoreCases.stamp "A" ] [ MoreCases.stamp "B" ] MoreCases.refuse)
      as (_ & _ & Hstop & _).
    exact (Hstop [] [] [] _ _ _ _ eq_refl eq_refl).
  - destruct (plugins_run_in_order [] [] MoreCases.refuse)
      as (_ & _ & _ & _ & _ & _ & _ & _ & Hbuild & _).
    assert (Hps : plugins (MoreCases.no_publisher_with []) = [])
      by reflexivity.
    eassert (Hbase : base_extract (MoreCases.no_publisher_with []) Sample.pkg
                     = Ok (_, _, _)) by (vm_compute; reflexivity).
    rewrite (Hbuild _ _ _ _ _ Hps Hbase). vm_compute. reflexivity.
  - destruct (plugins_run_in_order [ MoreCases.stamp "AuScope" ] []
                MoreCases.refuse)
      as (_ & _ & _ & _ & _ & _ & _ & _ & Hbuild & _).
    assert (Hps : plugins
                    (MoreCases.no_publisher_with [ MoreCases.stamp "AuScope" ])
                  = [ MoreCases.stamp "AuScope" ]) by reflexivity.
    eassert (Hbase : base_extract
                       (MoreCases.no_publisher_with [ MoreCases.stamp "AuScope" ])
                       Sample.pkg
                     = Ok (_, _, _)) by (vm_compute; reflexivity).
    rewrite (Hbuild _ _ _ _ _ Hps Hbase).
    eexists. split; vm_compute; reflexivity.
  - destruct (plugins_run_in_order
                [ MoreCases.stamp "AuScope"; MoreCases.refuse ] []
                MoreCases.refuse)
      as (_ & _ & _ & _ & _ & _ & _ & _ & Hbuild & _).
    assert (Hps : plugins
                    (MoreCases.no_publisher_with
                       [ MoreCases.stamp "AuScope"; MoreCases.refuse ])
                  = [ MoreCases.stamp "AuScope"; MoreCases.refuse ])
      by reflexivity.
    eassert (Hbase : base_extract
                       (MoreCases.no_publisher_with
                          [ MoreCases.stamp "AuScope"; MoreCases.refuse ])
                       Sample.pkg
                     = Ok (_, _, _)) by (vm_compute; reflexivity).
    rewrite (Hbuild _ _ _ _ _ Hps Hbase). vm_compute. reflexivity.
  - destruct (plugins_run_in_order
                [ MoreCases.stamp "A"; MoreCases.stamp "B" ] []
                MoreCases.refuse)
      as (_ & _ & _ & _ & _ & _ & _ & _ & _ & Hxml).
    assert (Hps : plugins
                    (MoreCases.no_publisher_with
                       [ MoreCases.stamp "A"; MoreCases.stamp "B" ])
                  = [ MoreCases.stamp "A"; MoreCases.stamp "B" ])
      by reflexivity.
    eassert (Hproj : project
                       (MoreCases.no_publisher_with
                          [ MoreCases.stamp "A"; MoreCases.stamp "B" ])
                       Cases.record
                     = Ok _) by (vm_compute; reflexivity).
    rewrite (Hxml _ _ _ Hps Hproj). vm_compute. reflexivity.
Defined.

(** ** Enforcement, entry by entry *)

Lemma enforce_required_fold keys metadata_dict errs k :
  dict_get k
    (fold_left
       (fun errs k =>
          if is_none (py_get metadata_dict k) && is_none (py_get errs k)
          then dict_set k required_cannot_be_None errs
          else errs) keys errs)
  = if existsb (String.eqb k) keys
       && is_none (py_get metadata_dict k) && is_none (py_get errs k)
    then Some required_cannot_be_None
    else dict_get k errs.
Proof.
  revert errs. induction keys as [|k0 keys IH]; intros errs; cbn [fold_left existsb].
  - reflexivity.
  - rewrite IH. clear IH.
    destruct (String.eqb_spec k k0) as [->|Hne]; cbn [orb].
    + destruct (is_none (py_get metadata_dict k0)) eqn:Hm; cbn [andb].
      * destruct (is_none (py_get errs k0)) eqn:He.
        -- rewrite py_get_set, String.eqb_refl, dict_get_set_same.
           cbn [required_cannot_be_None is_none].
           now rewrite !andb_false_r.
        -- rewrite He. now rewrite !andb_false_r.
      * now rewrite !andb_false_r.
    + assert (Hsame :
        forall c : bool,
          py_get (if c then dict_set k0 required_cannot_be_None errs else errs) k
          = py_get errs k
          /\ dict_get k (if c then dict_set k0 required_cannot_be_None errs else errs)
             = dict_get k errs).
      { intros [|]; [|auto]. rewrite py_get_set, dict_get_set_other by assumption.
        apply String.eqb_neq in Hne. now rewrite Hne. }
      destruct (Hsame (is_none (py_get metadata_dict k0) && is_none (py_get errs k0)))
        as [-> ->].
      reflexivity.
Qed.

Lemma existsb_dict_mem k (d : dict) :
  existsb (String.eqb k) (dict_keys d) = dict_mem k d.
Proof.
  unfold dict_mem. induction d as [|[k' v] d IH]; simpl; auto.
  destruct (String.eqb k k'); simpl; auto.
Qed.

(** X3.  Enforcement, entry by entry: the error map it returns holds
    ['Required field cannot be None'] under a key exactly when the key is
    required, its value in the record is [None] (or missing) and the map
    had no cause for it (or [None]); every other entry is what it was.  So
    a recorded cause is never overwritten, and the entries of optional and
    foreign keys are left alone. *)
Theorem enforcement_entry_by_entry required_d metadata_dict errs k :
  dict_get k (enforce_required required_d metadata_dict errs)
  = (if dict_mem k required_d
        && is_none (py_get metadata_dict k) && is_none (py_get errs k)
     then Some (VExc DOIMetadataException "Required field cannot be None")
     else dict_get k errs)
  /\ (forall e,
        dict_get k errs = Some e -> e <> VNone ->
        dict_get k (enforce_required required_d metadata_dict errs) = Some e)
  /\ (dict_mem k required_d = false ->
      dict_get k (enforce_required required_d metadata_dict errs) = dict_get k errs).
Proof.
  assert (Hget : dict_get k (enforce_required required_d metadata_dict errs)
                 = (if dict_mem k required_d
                       && is_none (py_get metadata_dict k) && is_none (py_get errs k)
                    then Some required_cannot_be_None
                    else dict_get k errs)).
  { unfold enforce_required. rewrite enforce_required_fold.
    now rewrite existsb_dict_mem. }
  split; [exact Hget|]. split.
  - intros e He Hn. rewrite Hget. unfold py_get at 2. rewrite He.
    rewrite (is_none_false e Hn). now rewrite andb_false_r.
  - intros Hm. rewrite Hget, Hm. reflexivity.
Qed.


(** ** Runs without plugins *)

Lemma py_get_of_get (d : dict) (k : string) (v : pyval) :
  dict_get k d = Some v -> py_get d k = v.
Proof. unfold py_get. now intros ->. Qed.

Lemma dict_mem_of_get (d : dict) (k : string) (ov : option pyval) :
  dict_get k d = ov -> dict_mem k d = match ov with Some _ => true | None => false end.
Proof. unfold dict_mem. now intros ->. Qed.

(** The required keys a completed base extraction leaves failed. *)
Lemma failed_required_base env pkg_dict st metadata_dict errs k :
  base_extract env pkg_dict = Ok (st, metadata_dict, errs) ->
  failed_required metadata_dict errs k <->
  (k = "creators" /\ creators_fail env pkg_dict)
  \/ (k = "publisher" /\ py_get (config env) "ckanext.doi.publisher" = VNone)
  \/ (k = "resourceType" /\ py_get pkg_dict "type" = VNone).
Proof.
  intros H.
  destruct (base_extract_maps env pkg_dict st metadata_dict errs H) as [Hval Herr].
  assert (Hmem : forall key,
            dict_mem key errs
            = match field_failure env pkg_dict key with
              | Some _ => true | None => false
              end).
  { intros key. apply dict_mem_of_get, Herr. }
  assert (Hpy : forall key v,
            field_value env pkg_dict key = Some v -> py_get metadata_dict key = v).
  { intros key v Hv. apply py_get_of_get. now rewrite Hval. }
  assert (Hperr : forall key,
            field_failure env pkg_dict key = None -> py_get errs key = VNone).
  { intros key Hf. unfold py_get. now rewrite Herr, Hf. }
  unfold failed_required, required_names, creators_fail. split.
  - intros [Hin Hfail]. simpl in Hin.
    destruct Hin as [<-|[<-|[<-|[<-|[<-|[]]]]]].
    + left. split; [reflexivity|].
      destruct Hfail as [Hm|[Hn _]].
      * rewrite Hmem in Hm. unfold field_failure in Hm. simpl in Hm.
        destruct (author_list env pkg_dict creator_entry) as [v|e msg]; [discriminate|].
        eauto.
      * rewrite (Hpy "creators" _ eq_refl) in Hn.
        destruct (author_list env pkg_dict creator_entry) as [v|e msg] eqn:E; [|eauto].
        exfalso. unfold author_list in E.
        destruct (literal_eval env (py_get pkg_dict "author")) as [a|]; [|discriminate].
        simpl in E. destruct a; try (inversion E; subst; discriminate).
        destruct (mapM creator_entry l); simpl in E; inversion E; subst; discriminate.
    + exfalso. destruct Hfail as [Hm|[Hn _]].
      * rewrite Hmem in Hm. discriminate.
      * rewrite (Hpy "titles" _ eq_refl) in Hn. discriminate.
    + right; left. split; [reflexivity|].
      destruct Hfail as [Hm|[Hn _]].
      * rewrite Hmem in Hm. discriminate.
      * now rewrite (Hpy "publisher" _ eq_refl) in Hn.
    + exfalso. destruct Hfail as [Hm|[Hn _]].
      * rewrite Hmem in Hm. discriminate.
      * rewrite (Hpy "publicationYear" _ eq_refl) in Hn. unfold expected_year in Hn.
        destruct (py_get pkg_dict "doi_date_published"); try discriminate.
        destruct (isdecimal (text_prefix 4 s)); discriminate.
    + right; right. split; [reflexivity|].
      destruct Hfail as [Hm|[Hn _]].
      * rewrite Hmem in Hm. discriminate.
      * now rewrite (Hpy "resourceType" _ eq_refl) in Hn.
  - intros [[-> (e & msg & Hf)]|[[-> Hp]|[-> Ht]]].
    + split; [simpl; auto|]. left. rewrite Hmem. unfold field_failure. simpl.
      now rewrite Hf.
    + split; [simpl; auto|]. right. split.
      * now rewrite (Hpy "publisher" _ eq_refl).
      * now apply Hperr.
    + split; [simpl; auto 10|]. right. split.
      * now rewrite (Hpy "resourceType" _ eq_refl).
      * now apply Hperr.
Qed.

(** The reporting stage returns the record exactly when no required key
    failed. *)
Lemma enforce_and_report_Ok env st metadata_dict errs :
  keys_ok st ->
  snd (enforce_and_report env st metadata_dict errs) = Ok metadata_dict <->
  forall k, ~ failed_required metadata_dict errs k.
Proof.
  intros Hk. unfold enforce_and_report.
  pose proof (fun k => reported_keys st metadata_dict errs k Hk) as Hrep.
  destruct (errors_in (required st)
              (enforce_required (required st) metadata_dict errs))
    as [|[k0 v0] rest]; cbn [List.length Nat.ltb Nat.leb snd].
  - split; [|reflexivity]. intros _ k Hf. now apply Hrep in Hf.
  - split; [discriminate|]. intros Hnone. exfalso.
    apply (Hnone k0). apply Hrep. simpl. auto.
Qed.

Lemma build_without_plugins env pkg_dict st metadata_dict errs :
  plugins env = [] ->
  base_extract env pkg_dict = Ok (st, metadata_dict, errs) ->
  build_metadata_dict env pkg_dict = enforce_and_report env st metadata_dict errs.
Proof.
  intros Hp Hb. unfold build_metadata_dict, extension_pass.
  now rewrite Hb, Hp.
Qed.

(** What a successful run without plugins went through. *)
Lemma build_Ok_without_plugins env pkg_dict metadata_dict :
  plugins env = [] ->
  snd (build_metadata_dict env pkg_dict) = Ok metadata_dict ->
  exists st errs, base_extract env pkg_dict = Ok (st, metadata_dict, errs).
Proof.
  intros Hp. unfold build_metadata_dict, extension_pass.
  destruct (base_extract env pkg_dict) as [[[st md] errs]|k msg]; [|discriminate].
  rewrite Hp. cbn [run_plugins]. unfold enforce_and_report.
  destruct (0 <? List.length _)%nat; cbn [snd]; intros H; inversion H; subst.
  eauto.
Qed.

Lemma build_succeeds_iff env pkg_dict st metadata_dict errs :
  plugins env = [] ->
  base_extract env pkg_dict = Ok (st, metadata_dict, errs) ->
  snd (build_metadata_dict env pkg_dict) = Ok metadata_dict <->
  (exists v, author_list env pkg_dict creator_entry = Ok v)
  /\ py_get (config env) "ckanext.doi.publisher" <> VNone
  /\ py_get pkg_dict "type" <> VNone.
Proof.
  intros Hp Hb. rewrite (build_without_plugins env pkg_dict st metadata_dict errs Hp Hb).
  pose proof (base_extract_Ok env pkg_dict st metadata_dict errs Hb) as (_ & _ & _ & Hk).
  rewrite (enforce_and_report_Ok env st metadata_dict errs Hk).
  pose proof (fun k => failed_required_base env pkg_dict st metadata_dict errs k Hb)
    as Hfail.
  unfold creators_fail in Hfail. split.
  - intros Hnone. repeat split.
    + destruct (author_list env pkg_dict creator_entry) as [v|e msg] eqn:E; [eauto|].
      exfalso. apply (Hnone "creators"), Hfail. left. eauto.
    + intros Hc. apply (Hnone "publisher"), Hfail. auto.
    + intros Hc. apply (Hnone "resourceType"), Hfail. auto.
  - intros ([v Hv] & Hpub & Hty) k Hf. apply Hfail in Hf.
    destruct Hf as [[_ (e & msg & Hc)]|[[_ Hc]|[_ Hc]]]; congruence.
Qed.

(** ** Creators and contributors *)

Lemma mapM_length {A B} (f : A -> result B) l ys :
  mapM f l = Ok ys -> List.length ys = List.length l.
Proof.
  revert ys. induction l as [|x l IH]; simpl; intros ys H.
  - now inversion H.
  - destruct (f x); [|discriminate].
    destruct (mapM f l); [|discriminate]. inversion H; subst. simpl.
    now rewrite (IH _ eq_refl).
Qed.

(** The two entries of one author: built or refused together. *)
Lemma author_entries_alike (auth_dict : pyval) :
  match creator_entry auth_dict, contributor_entry auth_dict with
  | Ok c, Ok k => contributor_of c k
  | Raise e msg, Raise e' msg' => e = e' /\ msg = msg'
  | _, _ => False
  end.
Proof.
  unfold creator_entry, contributor_entry.
  destruct (getitem auth_dict "author_name"); cbn [rbind]; [|auto].
  destruct (getitem auth_dict "author_name_type"); cbn [rbind]; [|auto].
  destruct (getitem auth_dict "author_affiliation"); cbn [rbind]; [|auto].
  destruct (getitem auth_dict "author_affiliation_identifier"); cbn [rbind]; [|auto].
  destruct (getitem auth_dict "author_affiliation_identifier_type"); cbn [rbind];
    [|auto].
  destruct (getitem auth_dict "author_identifier"); cbn [rbind]; [|auto].
  destruct (getitem auth_dict "author_identifier_type"); cbn [rbind]; [|auto].
  unfold contributor_of. eauto.
Qed.

Lemma author_lists_alike (l : list pyval) :
  match mapM creator_entry l, mapM contributor_entry l with
  | Ok cs, Ok ks => Forall2 contributor_of cs ks
  | Raise e msg, Raise e' msg' => e = e' /\ msg = msg'
  | _, _ => False
  end.
Proof.
  induction l as [|x l IH]; cbn [mapM].
  - constructor.
  - pose proof (author_entries_alike x) as Hx.
    destruct (creator_entry x) as [c|e msg], (contributor_entry x) as [k|e' msg'];
      try contradiction; [|exact Hx].
    destruct (mapM creator_entry l) as [cs|e msg],
             (mapM contributor_entry l) as [ks|e' msg'];
      try contradiction; [|exact IH].
    now constructor.
Qed.

Lemma author_values_alike env pkg_dict :
  match author_list env pkg_dict creator_entry,
        author_list env pkg_dict contributor_entry with
  | Ok c, Ok k =>
      exists cs ks, c = VList cs /\ k = VList ks /\ Forall2 contributor_of cs ks
  | Raise e msg, Raise e' msg' => e = e' /\ msg = msg'
  | _, _ => False
  end.
Proof.
  unfold author_list.
  destruct (literal_eval env (py_get pkg_dict "author")) as [a|e msg];
    cbn [rbind]; [|auto].
  destruct a; try (exists [], []; repeat split; constructor).
  pose proof (author_lists_alike l) as Hl.
  destruct (mapM creator_entry l) as [cs|e msg],
           (mapM contributor_entry l) as [ks|e' msg'];
    try contradiction; cbn [rbind]; [|exact Hl].
  exists cs, ks. auto.
Qed.

(** X4.  Creators and contributors come from the same [author] literal and
    stand or fall together: the error map has the same exception under
    both keys or under neither, and the contributors are the creators, one
    for one and in order, each with [contributorType] ['ContactPerson']
    put after its name (both lists empty when the derivation failed). *)
Theorem creators_and_contributors_alike env pkg_dict st metadata_dict errs :
  base_extract env pkg_dict = Ok (st, metadata_dict, errs) ->
  dict_get "contributors" errs = dict_get "creators" errs
  /\ exists cs ks,
       dict_get "creators" metadata_dict = Some (VList cs)
       /\ dict_get "contributors" metadata_dict = Some (VList ks)
       /\ Forall2 contributor_of cs ks.
Proof.
  intros H.
  destruct (base_extract_maps env pkg_dict st metadata_dict errs H) as [Hval Herr].
  rewrite !Herr, !Hval. unfold field_failure, field_value. cbn [String.eqb Ascii.eqb Bool.eqb].
  pose proof (author_values_alike env pkg_dict) as Ha.
  destruct (author_list env pkg_dict creator_entry) as [c|e msg],
           (author_list env pkg_dict contributor_entry) as [k|e' msg'];
    try contradiction; cbn [failure_of value_or].
  - destruct Ha as (cs & ks & -> & -> & Hall). split; [reflexivity|]. eauto.
  - destruct Ha as [-> ->]. split; [reflexivity|].
    exists [], []. repeat split. constructor.
Qed.

Lemma creators_and_contributors_alike_witness :
  exists st metadata_dict errs cs ks,
    base_extract Sample.env Sample.pkg = Ok (st, metadata_dict, errs)
    /\ dict_get "creators" metadata_dict = Some (VList cs)
    /\ dict_get "contributors" metadata_dict = Some (VList ks)
    /\ Forall2 contributor_of cs ks
    /\ List.length cs = 1%nat.
Proof.
  eassert (Hbase : base_extract Sample.env Sample.pkg = Ok (_, _, _))
    by (vm_compute; reflexivity).
  destruct (creators_and_contributors_alike Sample.env Sample.pkg _ _ _ Hbase)
    as (_ & cs & ks & Hc & Hk & Hall).
  do 3 eexists. exists cs, ks. split; [exact Hbase|].
  repeat split; try assumption.
  vm_compute in Hc. now inversion Hc.
Defined.

(** X5.  An [author] literal that is no list (a mapping, a text, a number,
    [None]) is not an error: creators and contributors are the empty list,
    nothing is recorded for them, and the creators requirement counts as
    met. *)
Theorem author_not_a_list env pkg_dict st metadata_dict errs v :
  base_extract env pkg_dict = Ok (st, metadata_dict, errs) ->
  literal_eval env (py_get pkg_dict "author") = Ok v ->
  (forall l, v <> VList l) ->
  dict_get "creators" metadata_dict = Some (VList [])
  /\ dict_get "contributors" metadata_dict = Some (VList [])
  /\ dict_get "creators" errs = None
  /\ dict_get "contributors" errs = None
  /\ ~ failed_required metadata_dict errs "creators".
Proof.
  intros H Hlit Hv.
  destruct (base_extract_maps env pkg_dict st metadata_dict errs H) as [Hval Herr].
  assert (Hlist : forall entry, author_list env pkg_dict entry = Ok (VList [])).
  { intros entry. unfold author_list. rewrite Hlit. cbn [rbind].
    destruct v; try reflexivity. now elim (Hv l). }
  rewrite !Herr, !Hval. unfold field_failure, field_value.
  cbn [String.eqb Ascii.eqb Bool.eqb]. rewrite !Hlist. cbn [failure_of value_or].
  repeat split.
  intros Hf. apply (failed_required_base env pkg_dict st metadata_dict errs) in Hf;
    [|assumption].
  destruct Hf as [[_ (e & msg & Hc)]|[[Hc _]|[Hc _]]]; try discriminate.
  rewrite Hlist in Hc. discriminate.
Qed.

Lemma author_not_a_list_witness :
  exists st metadata_dict errs,
    base_extract Sample.env MoreCases.author_mapping = Ok (st, metadata_dict, errs)
    /\ dict_get "creators" metadata_dict = Some (VList [])
    /\ dict_get "creators" errs = None.
Proof.
  eassert (Hbase : base_extract Sample.env MoreCases.author_mapping = Ok (_, _, _))
    by (vm_compute; reflexivity).
  eassert (Hlit : literal_eval Sample.env (py_get MoreCases.author_mapping "author")
                  = Ok (VDict _)) by (vm_compute; reflexivity).
  destruct (author_not_a_list Sample.env _ _ _ _ _ Hbase Hlit)
    as (Hc & _ & He & _).
  - intros l. discriminate.
  - do 3 eexists. split; [exact Hbase|]. split; [exact Hc | exact He].
Defined.

(** ** A failed derivation keeps the default *)

Lemma rights_failure_default env pkg_dict k msg :
  rights_outcome env pkg_dict = Raise k msg ->
  expected_rights env pkg_dict = VList [].
Proof.
  unfold rights_outcome, expected_rights, register_lookup.
  destruct (py_eq_str (license_identifier pkg_dict) "cc-by-4.0-international");
    [discriminate|].
  destruct (py_eq_str (license_identifier pkg_dict) ""); cbn [negb andb orb];
    [discriminate|].
  destruct (is_none (license_identifier pkg_dict)); cbn [negb]; [discriminate|].
  destruct (get_license_register env) as [reg|]; cbn [rbind]; [|reflexivity].
  destruct (reg (license_identifier pkg_dict)) as [[lic|]|]; cbn [outcome];
    try discriminate; reflexivity.
Qed.

(** X6.  For the eight fields whose derivation assigns as its last step
    (creators, subjects, contributors, language, alternateIdentifiers,
    sizes, formats, rightsList), an entry in the error map of the base
    extraction means the record still holds the field's initial default. *)
Theorem failed_field_keeps_default env pkg_dict st metadata_dict errs key :
  base_extract env pkg_dict = Ok (st, metadata_dict, errs) ->
  In key [ "creators"; "subjects"; "contributors"; "language";
           "alternateIdentifiers"; "sizes"; "formats"; "rightsList" ] ->
  dict_mem key errs = true ->
  dict_get key metadata_dict = dict_get key (init_required ++ init_optional).
Proof.
  intros H Hin Hmem.
  destruct (base_extract_maps env pkg_dict st metadata_dict errs H) as [Hval Herr].
  unfold dict_mem in Hmem. rewrite Herr in Hmem. rewrite Hval.
  simpl in Hin.
  destruct Hin as [<-|[<-|[<-|[<-|[<-|[<-|[<-|[<-|[]]]]]]]]];
    unfold field_failure, field_value in *;
    cbn [String.eqb Ascii.eqb Bool.eqb] in *.
  - destruct (author_list env pkg_dict creator_entry); [discriminate|reflexivity].
  - destruct (subjects_value env pkg_dict); [discriminate|reflexivity].
  - destruct (author_list env pkg_dict contributor_entry); [discriminate|reflexivity].
  - destruct (ckan_lang env); [discriminate|reflexivity].
  - destruct (alternate_identifiers_value env pkg_dict); [discriminate|reflexivity].
  - destruct (sizes_value pkg_dict); [discriminate|reflexivity].
  - destruct (formats_value env pkg_dict); [discriminate|reflexivity].
  - destruct (rights_outcome env pkg_dict) as [|k msg] eqn:E; [discriminate|].
    now rewrite (rights_failure_default env pkg_dict k msg E).
Qed.

Lemma failed_field_keeps_default_witness :
  exists st metadata_dict errs,
    base_extract Sample.env Cases.text_size = Ok (st, metadata_dict, errs)
    /\ dict_mem "sizes" errs = true
    /\ dict_get "sizes" metadata_dict = Some (VList []).
Proof.
  eassert (Hbase : base_extract Sample.env Cases.text_size = Ok (_, _, _))
    by (vm_compute; reflexivity).
  assert (Hin : In "sizes" [ "creators"; "subjects"; "contributors"; "language";
                             "alternateIdentifiers"; "sizes"; "formats"; "rightsList" ])
    by (simpl; auto 10).
  eassert (Hmem : dict_mem "sizes" _ = true); [|
    pose proof (failed_field_keeps_default Sample.env Cases.text_size _ _ _ "sizes"
                  Hbase Hin Hmem) as Hd;
    do 3 eexists; split; [exact Hbase|]; split; [exact Hmem | exact Hd] ].
  vm_compute. reflexivity.
Defined.


(** ** Projection of an extracted record *)

Lemma mapM_app {A B} (f : A -> result B) l1 l2 ys1 ys2 :
  mapM f l1 = Ok ys1 -> mapM f l2 = Ok ys2 -> mapM f (l1 ++ l2) = Ok (ys1 ++ ys2).
Proof.
  revert ys1. induction l1 as [|x l1 IH]; simpl; intros ys1 H1 H2.
  - inversion H1; subst. exact H2.
  - destruct (f x); [|discriminate].
    destruct (mapM f l1) as [ys|]; [|discriminate].
    inversion H1; subst. now rewrite (IH ys eq_refl H2).
Qed.

Lemma date_items_copy env pkg_dict dateType source_key :
  mapM (date_entry_copy env) (date_items env pkg_dict dateType source_key)
  = Ok (date_texts env pkg_dict dateType source_key).
Proof.
  unfold date_items, date_texts.
  now destruct (date_or_none env (py_get pkg_dict source_key)).
Qed.

Lemma expected_dates_copy env pkg_dict :
  mapM (date_entry_copy env) (expected_dates env pkg_dict)
  = Ok (expected_date_texts env pkg_dict).
Proof.
  unfold expected_dates, expected_date_texts.
  apply mapM_app; [apply date_items_copy|].
  apply mapM_app; [apply date_items_copy|].
  destruct (dict_mem "doi_date_published" pkg_dict);
    [apply date_items_copy | reflexivity].
Qed.

Lemma date_texts_length env pkg_dict dateType source_key :
  List.length (date_texts env pkg_dict dateType source_key)
  = List.length (date_items env pkg_dict dateType source_key).
Proof.
  unfold date_items, date_texts.
  now destruct (date_or_none env (py_get pkg_dict source_key)).
Qed.

(** The document built from a record, before the plugins. *)
Lemma project_get env metadata_dict :
  valid_dates metadata_dict = true ->
  exists xml_dict,
    project env metadata_dict = Ok xml_dict
    /\ forall k,
         dict_get k xml_dict =
         if existsb (String.eqb k) xml_optional && has_value (py_get metadata_dict k)
         then Some (projected env metadata_dict k)
         else dict_get k (xml_required env metadata_dict).
Proof.
  intros Hv.
  exact (project_fold env metadata_dict xml_optional (xml_required env metadata_dict) Hv).
Qed.

(** The document of an extracted record. *)
Lemma project_extracted env pkg_dict st metadata_dict errs :
  base_extract env pkg_dict = Ok (st, metadata_dict, errs) ->
  exists xml_dict,
    project env metadata_dict = Ok xml_dict
    /\ forall k,
         dict_get k xml_dict =
         if existsb (String.eqb k) xml_optional && has_value (py_get metadata_dict k)
         then Some (projected env metadata_dict k)
         else dict_get k (xml_required env metadata_dict).
Proof.
  intros H. apply project_get.
  exact (extracted_record_valid_dates env pkg_dict st metadata_dict errs H).
Qed.

(** X7.  The two functions compose: with no plugin registered, the record
    [build_metadata_dict] returns is always accepted by [build_xml_dict],
    which raises nothing on it.  The document's [dates] are the record's
    Created, Updated and Issued entries in the same order with each date
    replaced by its text ([str], so a [None] date becomes ['None']); with
    no entry at all the document has no [dates] key. *)
Theorem extracted_record_projects env pkg_dict metadata_dict :
  plugins env = [] ->
  snd (build_metadata_dict env pkg_dict) = Ok metadata_dict ->
  exists xml_dict,
    build_xml_dict env metadata_dict = Ok xml_dict
    /\ dict_get "dates" xml_dict
       = match date_texts env pkg_dict "Created" "metadata_created"
               ++ date_texts env pkg_dict "Updated" "metadata_modified"
               ++ (if dict_mem "doi_date_published" pkg_dict
                   then date_texts env pkg_dict "Issued" "doi_date_published"
                   else [])
         with
         | [] => None
         | texts => Some (VList texts)
         end.
Proof.
  intros Hp Hok.
  destruct (build_Ok_without_plugins env pkg_dict metadata_dict Hp Hok)
    as (st & errs & Hb).
  destruct (project_extracted env pkg_dict st metadata_dict errs Hb)
    as (xml_dict & Hproj & Hget).
  exists xml_dict. split.
  { unfold build_xml_dict. rewrite Hproj, Hp. reflexivity. }
  rewrite Hget.
  destruct (base_extract_maps env pkg_dict st metadata_dict errs Hb) as [Hval _].
  unfold projected, dates_copy.
  rewrite (py_get_of_get metadata_dict "dates" _ (Hval "dates")).
  cbn [xml_optional existsb String.eqb Ascii.eqb Bool.eqb orb andb py_iter rbind].
  rewrite expected_dates_copy. cbn [rbind value_or].
  fold (expected_date_texts env pkg_dict).
  assert (Hlen : List.length (expected_date_texts env pkg_dict)
                 = List.length (expected_dates env pkg_dict)).
  { unfold expected_date_texts, expected_dates.
    rewrite !length_app, !date_texts_length.
    destruct (dict_mem "doi_date_published" pkg_dict);
      [rewrite date_texts_length|]; reflexivity. }
  unfold has_value. cbn [is_none negb py_len andb].
  destruct (expected_dates env pkg_dict) as [|d ds],
           (expected_date_texts env pkg_dict) as [|t ts];
    try discriminate; reflexivity.
Qed.

Lemma extracted_record_projects_witness :
  exists metadata_dict xml_dict,
    snd (build_metadata_dict Sample.env Cases.unreadable_date) = Ok metadata_dict
    /\ build_xml_dict Sample.env metadata_dict = Ok xml_dict
    /\ dict_get "dates" xml_dict
       = Some (VList [ VDict [ ("dateType", VStr "Updated");
                               ("date", VStr "2021-05-02 00:00:00") ];
                       VDict [ ("dateType", VStr "Issued");
                               ("date", VStr "2021-05-10 00:00:00") ] ]).
Proof.
  eassert (Hok : snd (build_metadata_dict Sample.env Cases.unreadable_date) = Ok _)
    by (vm_compute; reflexivity).
  destruct (extracted_record_projects Sample.env Cases.unreadable_date _ eq_refl Hok)
    as (xml_dict & Hxml & Hdates).
  eexists. exists xml_dict. split; [exact Hok|]. split; [exact Hxml|].
  rewrite Hdates. vm_compute. reflexivity.
Defined.

(** X8.  From the source record to the document, with no plugin
    registered: the document of a successful extraction carries the derived
    creators, the title entry, the configured publisher, the publication
    year as a text, the [types] block of the record's [type], the schema
    version and one ['Other'] description of the record's [notes] (the
    empty text when there are none); [version] is in the document exactly
    when the record's [version] has a nonzero length. *)
Theorem document_of_source_record env pkg_dict metadata_dict xml_dict :
  plugins env = [] ->
  snd (build_metadata_dict env pkg_dict) = Ok metadata_dict ->
  build_xml_dict env metadata_dict = Ok xml_dict ->
  (exists creators,
     author_list env pkg_dict creator_entry = Ok creators
     /\ dict_get "creators" xml_dict = Some creators)
  /\ dict_get "titles" xml_dict
     = Some (VList [ VDict [ ("title", py_get pkg_dict "title") ] ])
  /\ dict_get "publisher" xml_dict
     = Some (py_get (config env) "ckanext.doi.publisher")
  /\ py_get (config env) "ckanext.doi.publisher" <> VNone
  /\ dict_get "publicationYear" xml_dict
     = Some (VStr (py_str env (expected_year env pkg_dict)))
  /\ dict_get "types" xml_dict
     = Some (VDict [ ("resourceType", py_get pkg_dict "type");
                     ("resourceTypeGeneral", VStr "Dataset") ])
  /\ py_get pkg_dict "type" <> VNone
  /\ dict_get "schemaVersion" xml_dict
     = Some (VStr "http://datacite.org/schema/kernel-4")
  /\ dict_get "descriptions" xml_dict
     = Some (VList [ VDict [ ("descriptionType", VStr "Other");
                             ("description",
                               py_get_default pkg_dict "notes" (VStr "")) ] ])
  /\ dict_get "version" xml_dict
     = (if has_value (py_get pkg_dict "version")
        then Some (py_get pkg_dict "version")
        else None).
Proof.
  intros Hp Hok Hxml.
  destruct (build_Ok_without_plugins env pkg_dict metadata_dict Hp Hok)
    as (st & errs & Hb).
  destruct (proj1 (build_succeeds_iff env pkg_dict st metadata_dict errs Hp Hb) Hok)
    as ([creators Hc] & Hpub & Hty).
  destruct (project_extracted env pkg_dict st metadata_dict errs Hb)
    as (xml0 & Hproj & Hget).
  assert (xml0 = xml_dict) as ->.
  { unfold build_xml_dict in Hxml. rewrite Hproj, Hp in Hxml.
    cbn [rbind run_xml_plugins] in Hxml. now inversion Hxml. }
  destruct (base_extract_maps env pkg_dict st metadata_dict errs Hb) as [Hval _].
  assert (Hpy : forall key v,
            field_value env pkg_dict key = Some v -> py_get metadata_dict key = v).
  { intros key v Hv. apply py_get_of_get. now rewrite Hval. }
  rewrite !Hget. unfold projected, xml_required, py_get_default.
  rewrite !Hval.
  rewrite (Hpy "publisher" _ eq_refl), (Hpy "publicationYear" _ eq_refl),
    (Hpy "resourceType" _ eq_refl), (Hpy "descriptions" _ eq_refl),
    (Hpy "version" _ eq_refl).
  unfold field_value.
  cbn [xml_optional existsb String.eqb Ascii.eqb Bool.eqb orb andb dict_get dict_set].
  rewrite Hc. cbn [value_or].
  split; [eauto|]. repeat split; assumption.
Qed.

Lemma document_of_source_record_witness :
  exists metadata_dict xml_dict,
    snd (build_metadata_dict Sample.env Sample.pkg) = Ok metadata_dict
    /\ build_xml_dict Sample.env metadata_dict = Ok xml_dict
    /\ dict_get "publicationYear" xml_dict = Some (VStr "2021")
    /\ dict_get "version" xml_dict = None
    /\ dict_get "descriptions" xml_dict
       = Some (VList [ VDict [ ("descriptionType", VStr "Other");
                               ("description", VStr "") ] ]).
Proof.
  eassert (Hok : snd (build_metadata_dict Sample.env Sample.pkg) = Ok _)
    by (vm_compute; reflexivity).
  match type of Hok with
  | _ = Ok ?md =>
      eassert (Hxml : build_xml_dict Sample.env md = Ok _)
        by (vm_compute; reflexivity)
  end.
  destruct (document_of_source_record Sample.env Sample.pkg _ _ eq_refl Hok Hxml)
    as (_ & _ & _ & _ & Hyear & _ & _ & _ & Hdesc & Hver).
  do 2 eexists. split; [exact Hok|]. split; [exact Hxml|].
  split; [exact Hyear|]. split; [exact Hver | exact Hdesc].
Defined.

(** ** Projection of a malformed record *)

Lemma fold_raised {A B} (f : A -> B -> result A) keys k msg :
  fold_left (fun acc x => rbind acc (fun a => f a x)) keys (Raise k msg)
  = Raise k msg.
Proof. induction keys as [|x keys IH]; simpl; auto. Qed.

Lemma date_entries_refused env l :
  forallb is_date_entry l = false ->
  exists k msg,
    mapM (date_entry_copy env) l = Raise k msg
    /\ (k = AttributeError \/ k = KeyError).
Proof.
  induction l as [|e l IH]; cbn [forallb mapM]; intros H; [discriminate|].
  destruct (is_date_entry e) eqn:He; cbn [andb] in H.
  - destruct (IH H) as (k & msg & Hl & Hk).
    destruct e as [| | | | | |d| |]; try discriminate. cbn [is_date_entry] in He.
    unfold dict_mem in He. cbn [date_entry_copy getitem].
    destruct (dict_get "date" d); [|discriminate]. cbn [rbind].
    rewrite Hl. eauto.
  - destruct e as [| | | | | |d| |]; cbn [date_entry_copy]; eauto.
    cbn [is_date_entry] in He. unfold dict_mem in He. cbn [getitem].
    destruct (dict_get "date" d); [discriminate|]. cbn [rbind]. eauto.
Qed.

Lemma malformed_dates_refused env metadata_dict :
  valid_dates metadata_dict = false ->
  has_value (py_get metadata_dict "dates") = true
  /\ exists k msg,
       dates_copy env metadata_dict = Raise k msg
       /\ (k = AttributeError \/ k = KeyError).
Proof.
  unfold valid_dates, dates_copy. intros Hv.
  destruct (py_get metadata_dict "dates") as [| | | |s|l|d| |];
    try discriminate.
  - apply negb_false_iff in Hv. split; [exact Hv|].
    unfold has_value in Hv. cbn [is_none negb andb py_len] in Hv.
    unfold text_length in Hv. unfold py_iter, chars_of.
    destruct (characters s) as [|w ws]; [discriminate|].
    cbn [map rbind mapM date_entry_copy]. eauto.
  - split.
    + destruct l; [discriminate|reflexivity].
    + cbn [py_iter rbind].
      destruct (date_entries_refused env l Hv) as (k & msg & -> & Hk).
      cbn [rbind]. eauto.
  - apply negb_false_iff in Hv. split; [exact Hv|].
    destruct d as [|[k v] d]; [discriminate|].
    cbn [py_iter dict_keys map fst rbind mapM date_entry_copy]. eauto.
Qed.

(** X9.  The projector accepts a record exactly when its [dates] are
    well formed (a value it leaves out, or a list of mappings that each
    have a [date]).  On any other record [build_xml_dict] raises
    [AttributeError] or [KeyError] out of the dates copy, before any
    plugin runs. *)
Theorem projection_refuses_malformed_dates env metadata_dict :
  ((exists xml_dict, project env metadata_dict = Ok xml_dict)
   <-> valid_dates metadata_dict = true)
  /\ (valid_dates metadata_dict = false ->
      exists k msg,
        build_xml_dict env metadata_dict = Raise k msg
        /\ (k = AttributeError \/ k = KeyError)).
Proof.
  assert (Hbad : valid_dates metadata_dict = false ->
                 exists k msg,
                   project env metadata_dict = Raise k msg
                   /\ (k = AttributeError \/ k = KeyError)).
  { intros Hv.
    destruct (malformed_dates_refused env metadata_dict Hv)
      as (Hh & k & msg & Hcopy & Hk).
    exists k, msg. split; [|exact Hk].
    unfold project, xml_optional. cbn [fold_left rbind].
    rewrite (project_optional_eq env metadata_dict _ "subjects")
      by (intros Hc; discriminate Hc).
    cbn [rbind].
    rewrite (project_optional_eq env metadata_dict _ "contributors")
      by (intros Hc; discriminate Hc).
    cbn [rbind].
    assert (Hd : forall x, project_optional env metadata_dict x "dates" = Raise k msg).
    { intros x. unfold project_optional. rewrite Hh. cbn [String.eqb Ascii.eqb Bool.eqb].
      unfold dates_copy in Hcopy.
      destruct (py_iter (py_get metadata_dict "dates")) as [entries|];
        cbn [rbind] in *; [|now inversion Hcopy].
      destruct (mapM (date_entry_copy env) entries); cbn [rbind] in *;
        [discriminate|now inversion Hcopy]. }
    rewrite Hd. reflexivity. }
  split.
  - split.
    + intros [xml_dict Hx].
      destruct (valid_dates metadata_dict) eqn:Hv; [reflexivity|].
      destruct (Hbad eq_refl) as (k & msg & Hr & _). congruence.
    + intros Hv. destruct (project_get env metadata_dict Hv) as (xml_dict & Hx & _).
      eauto.
  - intros Hv. destruct (Hbad Hv) as (k & msg & Hr & Hk).
    exists k, msg. split; [|exact Hk]. unfold build_xml_dict. now rewrite Hr.
Qed.

Lemma projection_refuses_malformed_dates_witness :
  build_xml_dict Sample.env MoreCases.malformed_dates = Raise KeyError "'date'".
Proof.
  destruct (projection_refuses_malformed_dates Sample.env MoreCases.malformed_dates)
    as [_ Hbad].
  destruct (Hbad eq_refl) as (k & msg & Hr & _).
  rewrite Hr. vm_compute in Hr. symmetry. exact Hr.
Defined.

(** ** The keys of the document *)

Lemma project_optional_keys env metadata_dict xml_dict k xml_dict' :
  project_optional env metadata_dict xml_dict k = Ok xml_dict' ->
  ~ In k (dict_keys xml_dict) ->
  dict_keys xml_dict'
  = dict_keys xml_dict ++ (if has_value (py_get metadata_dict k) then [k] else []).
Proof.
  unfold project_optional. intros H Hfresh.
  destruct (has_value (py_get metadata_dict k)).
  - destruct (String.eqb k "dates").
    + destruct (py_iter (py_get metadata_dict k)) as [entries|]; [|discriminate].
      cbn [rbind] in H.
      destruct (mapM (date_entry_copy env) entries); [|discriminate].
      cbn [rbind] in H. inversion H; subst. now apply dict_keys_set_new.
    + inversion H; subst. now apply dict_keys_set_new.
  - inversion H; subst. now rewrite app_nil_r.
Qed.

Lemma project_fold_keys env metadata_dict keys xml0 xml_dict :
  NoDup keys ->
  (forall k, In k keys -> ~ In k (dict_keys xml0)) ->
  fold_left (fun acc k => rbind acc (fun x => project_optional env metadata_dict x k))
    keys (Ok xml0) = Ok xml_dict ->
  dict_keys xml_dict
  = dict_keys xml0 ++ filter (fun k => has_value (py_get metadata_dict k)) keys.
Proof.
  revert xml0. induction keys as [|k0 keys IH]; intros xml0 Hnd Hfresh H.
  - simpl in *. inversion H; subst. now rewrite app_nil_r.
  - cbn [fold_left rbind filter] in *.
    inversion Hnd as [|? ? Hk0 Hnd']; subst.
    destruct (project_optional env metadata_dict xml0 k0) as [xml1|k msg] eqn:E.
    + pose proof (project_optional_keys env metadata_dict xml0 k0 xml1 E
                    (Hfresh k0 (or_introl eq_refl))) as Hkeys.
      rewrite (IH xml1 Hnd'); [| |exact H].
      * rewrite Hkeys, <- app_assoc.
        now destruct (has_value (py_get metadata_dict k0)).
      * intros k Hin. rewrite Hkeys. intros Hc. apply in_app_or in Hc as [Hc|Hc].
        -- apply (Hfresh k (or_intror Hin) Hc).
        -- destruct (has_value (py_get metadata_dict k0)); [|contradiction].
           destruct Hc as [<-|[]]. contradiction.
    + rewrite fold_raised in H. discriminate.
Qed.

(** X10.  The document has the six fixed keys (creators, titles,
    publisher, publicationYear, types, schemaVersion) and then, in the
    order of the projector's list, the optional keys whose value in the
    record is not [None] and has a nonzero length; it has no other key,
    whatever else the record holds. *)
Theorem document_keys env metadata_dict xml_dict :
  project env metadata_dict = Ok xml_dict ->
  dict_keys xml_dict
  = [ "creators"; "titles"; "publisher"; "publicationYear"; "types";
      "schemaVersion" ]
    ++ filter (fun k => has_value (py_get metadata_dict k))
         [ "subjects"; "contributors"; "dates"; "language";
           "alternateIdentifiers"; "relatedIdentifiers"; "sizes"; "formats";
           "version"; "rightsList"; "descriptions"; "geoLocations";
           "fundingReferences" ].
Proof.
  intros H. unfold project in H.
  apply project_fold_keys in H.
  - exact H.
  - unfold xml_optional. repeat constructor; simpl; intuition discriminate.
  - unfold xml_optional, xml_required. simpl. intuition (subst; discriminate).
Qed.

Lemma document_keys_witness :
  exists xml_dict,
    project Sample.env Cases.record = Ok xml_dict
    /\ dict_keys xml_dict
       = [ "creators"; "titles"; "publisher"; "publicationYear"; "types";
           "schemaVersion"; "dates"; "sizes" ].
Proof.
  eassert (Hx : project Sample.env Cases.record = Ok _) by (vm_compute; reflexivity).
  pose proof (document_keys Sample.env Cases.record _ Hx) as Hkeys.
  eexists. split; [exact Hx|]. rewrite Hkeys. reflexivity.
Defined.


(** ** Loops that append *)

Lemma appended_Forall (P : pyval -> Prop) entry xs :
  (forall x item, entry x = Ok (Some item) -> P item) ->
  Forall P (appended entry xs).
Proof.
  intros H. induction xs as [|x xs IH]; cbn [appended]; [constructor|].
  destruct (entry x) as [[item|]|] eqn:E; auto.
  constructor; eauto.
Qed.

Lemma loop_items_Forall (P : pyval -> Prop) src entry :
  (forall x item, entry x = Ok (Some item) -> P item) ->
  Forall P (loop_items src entry).
Proof.
  intros H. unfold loop_items. destruct src; [|constructor].
  now apply appended_Forall.
Qed.

Ltac step_bind H :=
  match type of H with
  | rbind ?r _ = _ =>
      let E := fresh "E" in
      destruct r eqn:E; cbn [rbind] in H; [|discriminate H]
  | (if ?b then _ else _) = _ =>
      let E := fresh "E" in
      destruct b eqn:E; [|try discriminate H]
  end.

(** ** FUNDING *)

Lemma funder_entry_shape funder item :
  funder_entry funder = Ok (Some item) -> funding_reference item.
Proof.
  unfold funder_entry. intros H.
  destruct (getitem funder "funder_identifier_type") as [id_type|] eqn:E1;
    cbn [rbind] in H; [|discriminate].
  destruct (getitem funder "funder_name") as [name|]; cbn [rbind] in H;
    [|discriminate].
  destruct (getitem funder "funder_identifier") as [ident|]; cbn [rbind] in H;
    [|discriminate].
  inversion H; subst. do 3 eexists. split; [reflexivity|].
  destruct (py_eq_str id_type "Wikidata") eqn:Ew; cbn [orb].
  - split; discriminate.
  - destruct (py_eq_str id_type "") eqn:Ee.
    + split; discriminate.
    + split; intros ->; discriminate.
Qed.

(** X11.  Every funding reference the extraction returns has the three
    keys funderName, funderIdentifier and funderIdentifierType, and its
    identifier type is never ['Wikidata'] nor the empty text (both are
    replaced by ['Other']).  A [funder] that is missing or the empty text
    gives the empty list and records nothing. *)
Theorem funding_references_shape env pkg_dict st metadata_dict errs :
  base_extract env pkg_dict = Ok (st, metadata_dict, errs) ->
  exists l,
    dict_get "fundingReferences" metadata_dict = Some (VList l)
    /\ Forall funding_reference l
    /\ (py_get_default pkg_dict "funder" (VStr "") = VStr "" ->
        l = [] /\ dict_get "fundingReferences" errs = None).
Proof.
  intros H.
  destruct (base_extract_maps env pkg_dict st metadata_dict errs H) as [Hval Herr].
  exists (funding_items env pkg_dict). split; [now rewrite Hval|]. split.
  - unfold funding_items.
    destruct (py_eq_str (py_get_default pkg_dict "funder" (VStr "")) "");
      [constructor|].
    destruct (literal_eval env (py_get pkg_dict "funder")); [|constructor].
    apply loop_items_Forall. exact funder_entry_shape.
  - intros Hf. rewrite Herr. unfold funding_items, field_failure, funding_outcome.
    rewrite Hf. split; reflexivity.
Qed.

Lemma funding_references_shape_witness :
  exists st metadata_dict errs,
    base_extract Sample.env MoreCases.wikidata_funder = Ok (st, metadata_dict, errs)
    /\ dict_get "fundingReferences" metadata_dict
       = Some (VList [ VDict [ ("funderName", VStr "ARC");
                               ("funderIdentifier", VStr "Q781365");
                               ("funderIdentifierType", VStr "Other") ] ]).
Proof.
  eassert (Hbase : base_extract Sample.env MoreCases.wikidata_funder = Ok (_, _, _))
    by (vm_compute; reflexivity).
  destruct (funding_references_shape Sample.env MoreCases.wikidata_funder _ _ _ Hbase)
    as (l & Hl & _).
  do 3 eexists. split; [exact Hbase|].
  rewrite Hl. vm_compute in Hl. inversion Hl. reflexivity.
Defined.

(** ** GEOLOCATIONS *)

Lemma str_float_Ok env v p :
  str_float env v = Ok p -> exists f, p = VStr (float_repr env f).
Proof.
  unfold str_float. destruct (py_float env v); cbn [rbind]; intros H;
    inversion H; eauto.
Qed.

Lemma point_feature_shape env feat item :
  point_feature env feat = Ok (Some item) -> geo_point env item.
Proof.
  unfold point_feature. intros H.
  repeat step_bind H.
  inversion H; subst.
  repeat match goal with
         | E : str_float env _ = Ok _ |- _ =>
             apply str_float_Ok in E; destruct E as [? ->]
         end.
  unfold geo_point. eauto.
Qed.

Lemma polygon_feature_shape env feat item :
  polygon_feature env feat = Ok (Some item) -> geo_box env item.
Proof.
  unfold polygon_feature. intros H.
  repeat step_bind H.
  inversion H; subst.
  repeat match goal with
         | E : str_float env _ = Ok _ |- _ =>
             apply str_float_Ok in E; destruct E as [? ->]
         end.
  unfold geo_box. eauto 10.
Qed.

(** X12.  What [geoLocations] can hold.  With [location_choice] ['point']
    every entry is a [geoLocationPoint] with its longitude and latitude as
    texts of floats; with ['area'] every entry is a [geoLocationBox] with
    its four bounds as texts of floats.  With any other choice, or none,
    the section reads nothing: the list is empty and no error is recorded,
    whatever [location_data] holds. *)
Theorem geolocations_by_choice env pkg_dict st metadata_dict errs :
  base_extract env pkg_dict = Ok (st, metadata_dict, errs) ->
  let location_choice := py_get_default pkg_dict "location_choice" VNone in
  exists l,
    dict_get "geoLocations" metadata_dict = Some (VList l)
    /\ (location_choice = VStr "point" -> Forall (geo_point env) l)
    /\ (location_choice = VStr "area" -> Forall (geo_box env) l)
    /\ (location_choice <> VStr "point" -> location_choice <> VStr "area" ->
        l = [] /\ dict_get "geoLocations" errs = None).
Proof.
  intros H location_choice.
  destruct (base_extract_maps env pkg_dict st metadata_dict errs H) as [Hval Herr].
  exists (geolocations_items env pkg_dict). split; [now rewrite Hval|].
  unfold geolocations_items. fold location_choice.
  split; [|split].
  - intros ->. cbn [py_eq_str String.eqb Ascii.eqb Bool.eqb].
    apply loop_items_Forall. apply point_feature_shape.
  - intros ->. cbn [py_eq_str String.eqb Ascii.eqb Bool.eqb].
    apply loop_items_Forall. apply polygon_feature_shape.
  - intros Hp Ha. rewrite Herr. unfold field_failure, geolocations_outcome.
    fold location_choice.
    rewrite (py_eq_str_false _ _ Hp), (py_eq_str_false _ _ Ha).
    cbn [String.eqb Ascii.eqb Bool.eqb].
    split; [reflexivity|]. now destruct (negb (is_none location_choice)).
Qed.

Lemma geolocations_by_choice_witness :
  (exists st metadata_dict errs,
     base_extract Sample.env MoreCases.unread_location = Ok (st, metadata_dict, errs)
     /\ dict_get "geoLocations" metadata_dict = Some (VList [])
     /\ dict_get "geoLocations" errs = None)
  /\ (exists st metadata_dict errs l,
        base_extract Sample.env MoreCases.point_and_line = Ok (st, metadata_dict, errs)
        /\ dict_get "geoLocations" metadata_dict = Some (VList l)
        /\ List.length l = 1%nat
        /\ Forall (geo_point Sample.env) l).
Proof.
  split.
  - eassert (Hbase : base_extract Sample.env MoreCases.unread_location = Ok (_, _, _))
      by (vm_compute; reflexivity).
    destruct (geolocations_by_choice Sample.env MoreCases.unread_location _ _ _ Hbase)
      as (l & Hl & _ & _ & Hother).
    destruct Hother as [-> He]; [vm_compute; discriminate
                                |vm_compute; discriminate|].
    do 3 eexists. split; [exact Hbase|]. split; [exact Hl | exact He].
  - eassert (Hbase : base_extract Sample.env MoreCases.point_and_line = Ok (_, _, _))
      by (vm_compute; reflexivity).
    destruct (geolocations_by_choice Sample.env MoreCases.point_and_line _ _ _ Hbase)
      as (l & Hl & Hpoint & _).
    do 3 eexists. exists l. split; [exact Hbase|]. split; [exact Hl|]. split.
    + vm_compute in Hl. inversion Hl. reflexivity.
    + apply Hpoint. reflexivity.
Defined.

(** ** ALTERNATE IDENTIFIERS *)

(** X13.  The permalink needs the record's [id].  With a site URL at
    hand, a record that has an [id] gets one alternate identifier of type
    ['URL'], the site URL, ['/dataset/'] and the id put together; a record
    without [id] keeps the empty list, and the [KeyError] is recorded
    under [alternateIdentifiers] without failing the extraction. *)
Theorem permalink_needs_id env pkg_dict st metadata_dict errs site :
  base_extract env pkg_dict = Ok (st, metadata_dict, errs) ->
  get_site_url env = Ok site ->
  (forall id,
     dict_get "id" pkg_dict = Some id ->
     dict_get "alternateIdentifiers" metadata_dict
     = Some (VList [ VDict [ ("alternateIdentifierType", VStr "URL");
                             ("alternateIdentifier",
                               VStr (py_str env site ++ "/dataset/"
                                     ++ py_str env id)) ] ])
     /\ dict_get "alternateIdentifiers" errs = None)
  /\ (dict_get "id" pkg_dict = None ->
      dict_get "alternateIdentifiers" metadata_dict = Some (VList [])
      /\ dict_get "alternateIdentifiers" errs = Some (VExc KeyError "'id'")).
Proof.
  intros H Hsite.
  destruct (base_extract_maps env pkg_dict st metadata_dict errs H) as [Hval Herr].
  rewrite Hval, Herr. unfold field_value, field_failure.
  cbn [String.eqb Ascii.eqb Bool.eqb].
  unfold alternate_identifiers_value. rewrite Hsite. cbn [rbind getitem].
  split.
  - intros id ->. split; reflexivity.
  - intros ->. split; reflexivity.
Qed.

Lemma permalink_needs_id_witness :
  exists st metadata_dict errs,
    base_extract Sample.env Sample.pkg = Ok (st, metadata_dict, errs)
    /\ dict_get "alternateIdentifiers" metadata_dict
       = Some (VList [ VDict [ ("alternateIdentifierType", VStr "URL");
                               ("alternateIdentifier",
                                 VStr "https://data.example.org/dataset/ds-1") ] ]).
Proof.
  eassert (Hbase : base_extract Sample.env Sample.pkg = Ok (_, _, _))
    by (vm_compute; reflexivity).
  destruct (permalink_needs_id Sample.env Sample.pkg _ _ _ _ Hbase eq_refl)
    as [Hid _].
  destruct (Hid (VStr "ds-1") eq_refl) as [Hv _].
  do 3 eexists. split; [exact Hbase|]. exact Hv.
Defined.

(** ** SUBJECTS *)

Lemma text_lt_trans a b c : text_lt a b -> text_lt b c -> text_lt a c.
Proof.
  unfold text_lt. intros H1 H2.
  apply OrderedTypeEx.String_as_OT.cmp_lt in H1, H2.
  apply OrderedTypeEx.String_as_OT.cmp_lt.
  eapply OrderedTypeEx.String_as_OT.lt_trans; eauto.
Qed.

Lemma text_gt_lt a b : String.compare a b = Gt -> text_lt b a.
Proof.
  unfold text_lt. intros H. rewrite String.compare_antisym, H. reflexivity.
Qed.

Lemma insert_sorted_In s l x :
  In x (insert_sorted s l) <-> x = s \/ In x l.
Proof.
  induction l as [|y l IH]; cbn [insert_sorted].
  - simpl. intuition.
  - destruct (String.compare s y) eqn:E.
    + apply String.compare_eq_iff in E. subst. simpl. intuition.
    + simpl. intuition.
    + simpl. rewrite IH. intuition.
Qed.

Lemma insert_sorted_sorted s l :
  Sorted.StronglySorted text_lt l -> Sorted.StronglySorted text_lt (insert_sorted s l).
Proof.
  induction l as [|y l IH]; cbn [insert_sorted]; intros Hs.
  - repeat constructor.
  - inversion Hs as [|? ? Hl Hy]; subst.
    destruct (String.compare s y) eqn:E.
    + exact Hs.
    + constructor; [exact Hs|]. constructor; [exact E|].
      eapply Forall_impl; [|exact Hy]. intros z Hz.
      now apply (text_lt_trans s y z).
    + constructor; [auto|].
      apply Forall_forall. intros z Hz. apply insert_sorted_In in Hz.
      destruct Hz as [->|Hz].
      * now apply text_gt_lt.
      * rewrite Forall_forall in Hy. auto.
Qed.

Lemma sort_unique_sorted l : Sorted.StronglySorted text_lt (sort_unique l).
Proof.
  unfold sort_unique. induction l as [|x l IH]; cbn [fold_right].
  - constructor.
  - now apply insert_sorted_sorted.
Qed.

Lemma sort_unique_In l x : In x (sort_unique l) <-> In x l.
Proof.
  unfold sort_unique. induction l as [|y l IH]; cbn [fold_right].
  - reflexivity.
  - rewrite insert_sorted_In, IH. simpl. intuition.
Qed.

Lemma text_lt_irrefl a : ~ text_lt a a.
Proof.
  unfold text_lt. intros H.
  pose proof (String.compare_antisym a a) as Ha. rewrite H in Ha. discriminate.
Qed.

Lemma sorted_NoDup l : Sorted.StronglySorted text_lt l -> NoDup l.
Proof.
  induction 1 as [|x l Hs IH Hx]; constructor; auto.
  intros Hin. rewrite Forall_forall in Hx.
  exact (text_lt_irrefl x (Hx x Hin)).
Qed.

Lemma all_strings_texts l : all_strings (map VStr l) = Some l.
Proof. induction l as [|x l IH]; simpl; [reflexivity|]. now rewrite IH. Qed.

Lemma filter_texts l :
  filter (fun t => negb (py_eq_str t "")) (map VStr l)
  = map VStr (filter (fun t => negb (String.eqb t "")) l).
Proof.
  induction l as [|x l IH]; simpl; [reflexivity|].
  destruct (String.eqb x ""); simpl; now rewrite IH.
Qed.

Lemma subjects_of_texts env pkg_dict s tags names :
  py_get_default pkg_dict "tag_string" (VStr "") = VStr s ->
  py_get_default pkg_dict "tags" (VList []) = VList tags ->
  mapM tag_name tags = Ok (map VStr names) ->
  subjects_value env pkg_dict
  = Ok (VList (map subject_of
                 (sort_unique
                    (filter (fun t => negb (String.eqb t ""))
                       (split_on "," s ++ names))))).
Proof.
  intros Hs Ht Hn. unfold subjects_value. rewrite Hs, Ht.
  cbn [method_split_comma py_iter rbind]. rewrite Hn. cbn [rbind].
  rewrite <- map_app, filter_texts. unfold sorted_set.
  rewrite all_strings_texts. cbn [rbind]. now rewrite map_map.
Qed.

(** X14.  When [tag_string] is a text and every tag's name is a text, the
    extracted subjects are the pieces of [tag_string] between commas and
    the names of [tags], without the empty ones, each exactly once and in
    increasing order, one [subject] entry per tag; nothing is recorded
    under [subjects]. *)
Theorem subjects_sorted_without_duplicates env pkg_dict st metadata_dict errs
    s tags names :
  base_extract env pkg_dict = Ok (st, metadata_dict, errs) ->
  py_get_default pkg_dict "tag_string" (VStr "") = VStr s ->
  py_get_default pkg_dict "tags" (VList []) = VList tags ->
  mapM tag_name tags = Ok (map VStr names) ->
  exists subjects,
    dict_get "subjects" metadata_dict = Some (VList (map subject_of subjects))
    /\ dict_get "subjects" errs = None
    /\ Sorted.StronglySorted text_lt subjects
    /\ NoDup subjects
    /\ forall t, In t subjects <-> t <> "" /\ (In t (split_on "," s) \/ In t names).
Proof.
  intros H Hs Ht Hn.
  destruct (base_extract_maps env pkg_dict st metadata_dict errs H) as [Hval Herr].
  pose proof (subjects_of_texts env pkg_dict s tags names Hs Ht Hn) as Hsub.
  eexists. split; [|split; [|split; [|split]]].
  - rewrite Hval. unfold field_value. cbn [String.eqb Ascii.eqb Bool.eqb].
    rewrite Hsub. reflexivity.
  - rewrite Herr. unfold field_failure. cbn [String.eqb Ascii.eqb Bool.eqb].
    now rewrite Hsub.
  - apply sort_unique_sorted.
  - apply sorted_NoDup, sort_unique_sorted.
  - intros t. rewrite sort_unique_In, filter_In, in_app_iff.
    rewrite negb_true_iff, String.eqb_neq. tauto.
Qed.

Lemma subjects_sorted_without_duplicates_witness :
  exists st metadata_dict errs subjects,
    base_extract Sample.env MoreCases.repeated_tags = Ok (st, metadata_dict, errs)
    /\ dict_get "subjects" metadata_dict = Some (VList (map subject_of subjects))
    /\ NoDup subjects
    /\ In "ash" subjects /\ In "basalt" subjects /\ In "geology" subjects
    /\ ~ In "" subjects.
Proof.
  eassert (Hbase : base_extract Sample.env MoreCases.repeated_tags = Ok (_, _, _))
    by (vm_compute; reflexivity).
  destruct (subjects_sorted_without_duplicates Sample.env MoreCases.repeated_tags _ _ _
              "geology,,basalt,ash"
              [ VDict [ ("name", VStr "geology") ]; VStr "basalt" ]
              [ "geology"; "basalt" ] Hbase eq_refl eq_refl eq_refl)
    as (subjects & Hs & _ & _ & Hnd & Hin).
  do 3 eexists. exists subjects. split; [exact Hbase|].
  split; [exact Hs|]. split; [exact Hnd|].
  repeat split; try (apply Hin; split; [discriminate|vm_compute; auto 10]).
  intros Hc. apply Hin in Hc. now destruct Hc as [Hc _].
Defined.


(** ** The exceptions that leave the base extraction *)

Lemma raises_only_never {A} Q (m : M A) : never_raises m -> raises_only Q m.
Proof.
  intros H st k msg E. destruct (H st) as [a Ha]. congruence.
Qed.

Lemma raises_only_bind {A B} Q (m : M A) (f : A -> M B) :
  raises_only Q m -> (forall a, raises_only Q (f a)) -> raises_only Q (bind m f).
Proof.
  intros Hm Hf st k msg. unfold bind.
  pose proof (Hm st) as Hm'.
  destruct (m st) as [st' [a|k' msg']]; simpl in *.
  - apply Hf.
  - intros E. inversion E; subst. now apply Hm'.
Qed.

Lemma add_required_never_raises key r : never_raises (_add_required key r).
Proof. no_raise. Qed.

Lemma publication_year_raises_only env pkg_dict :
  raises_only
    (fun k msg =>
       ~ text_or_None (py_get pkg_dict "doi_date_published")
       /\ year_test pkg_dict = Raise k msg)
    (publication_year_block env pkg_dict).
Proof.
  intros st k msg. unfold publication_year_block, year_test.
  destruct (py_get pkg_dict "doi_date_published") as [| | | |s|l|d| |];
    cbn [is_none slice_to rbind method_isdecimal]; unfold bind, lift, ret;
    cbn [rbind];
    try (intros E; inversion E; subst;
         split; [intros [Hc|[s Hc]]; discriminate | reflexivity]).
  - intros E. destruct (add_required_never_raises "publicationYear"
                          (Ok (VInt (now_year env))) st) as [a Ha]. congruence.
  - intros E.
    destruct (negb (isdecimal (text_prefix 4 s)));
      [ destruct (add_required_never_raises "publicationYear"
                    (Ok (VInt (now_year env))) st) as [a Ha]
      | destruct (add_required_never_raises "publicationYear"
                    (Ok (VStr (text_prefix 4 s))) st) as [a Ha] ];
      congruence.
Qed.

Lemma geolocations_raises_only env pkg_dict :
  raises_only
    (fun k msg =>
       geolocations_outcome env pkg_dict = Raise k msg
       /\ ValueError_KeyError_IndexError k = false)
    (geolocations_block env pkg_dict).
Proof.
  intros st k msg E.
  rewrite (proj1 (geolocations_block_run env pkg_dict st)) in E.
  destruct (geolocations_outcome env pkg_dict) as [[]|k' msg']; [discriminate|].
  cbn [caught_outcome] in E.
  destruct (ValueError_KeyError_IndexError k') eqn:Ec; [discriminate|].
  inversion E; subst. auto.
Qed.

Lemma base_fields_raises_only env pkg_dict :
  raises_only (escapes env pkg_dict) (base_fields env pkg_dict).
Proof.
  assert (Hp : raises_only (escapes env pkg_dict)
                 (publication_year_block env pkg_dict)).
  { intros st k msg E. left.
    exact (publication_year_raises_only env pkg_dict st k msg E). }
  assert (Hg : raises_only (escapes env pkg_dict)
                 (geolocations_block env pkg_dict)).
  { intros st k msg E. right.
    exact (geolocations_raises_only env pkg_dict st k msg E). }
  unfold base_fields.
  repeat (apply raises_only_bind;
          [ first [ exact Hp | exact Hg
                  | apply raises_only_never; solve [no_raise] ]
          | intros _ ]).
  apply raises_only_never. no_raise.
Qed.

(** X15.  The only exceptions that leave the base extraction.  When it
    raises, either [doi_date_published] is neither [None] nor a text and
    the exception is that of [doi_date_published[:4].isdecimal()], which
    stands outside every [try]; or it is an exception of the GEOLOCATIONS
    loops that is none of [ValueError], [KeyError], [IndexError].
    [build_metadata_dict] then raises the same exception, with nothing
    logged and no plugin run. *)
Theorem exceptions_leaving_base_extraction env pkg_dict k msg :
  base_extract env pkg_dict = Raise k msg ->
  ((~ text_or_None (py_get pkg_dict "doi_date_published")
    /\ rbind (slice_to 4 (py_get pkg_dict "doi_date_published")) method_isdecimal
       = Raise k msg)
   \/ (geolocations_outcome env pkg_dict = Raise k msg
       /\ ValueError_KeyError_IndexError k = false))
  /\ build_metadata_dict env pkg_dict = ([], Raise k msg).
Proof.
  intros H. split.
  - unfold base_extract in H.
    pose proof (base_fields_raises_only env pkg_dict init_state) as Hr.
    destruct (base_fields env pkg_dict init_state) as [st [[]|k' msg']];
      [discriminate|].
    inversion H; subst. exact (Hr k msg eq_refl).
  - unfold build_metadata_dict, extension_pass. now rewrite H.
Qed.

Lemma exceptions_leaving_base_extraction_witness :
  geolocations_outcome Sample.env Cases.point_without_data
  = Raise TypeError "'NoneType' object is not subscriptable"
  /\ build_metadata_dict Sample.env Cases.point_without_data
     = ([], Raise TypeError "'NoneType' object is not subscriptable").
Proof.
  assert (Htext : text_or_None (py_get Cases.point_without_data "doi_date_published"))
    by (right; exists "2021-05-10"; reflexivity).
  assert (Hbase : base_extract Sample.env Cases.point_without_data
                  = Raise TypeError "'NoneType' object is not subscriptable")
    by (vm_compute; reflexivity).
  destruct (exceptions_leaving_base_extraction Sample.env Cases.point_without_data
              _ _ Hbase) as [[[Hn _]|[Hg _]] Hbuild].
  - contradiction.
  - split; [exact Hg | exact Hbuild].
Defined.

(** ** What a run without plugins logs and returns *)

Lemma dict_set_NoDup (k : string) (v : pyval) (d : dict) :
  NoDup (dict_keys d) -> NoDup (dict_keys (dict_set k v d)).
Proof.
  intros H. destruct (in_dec string_dec k (dict_keys d)) as [Hin|Hnot].
  - now rewrite dict_keys_set_in.
  - rewrite dict_keys_set_new by assumption.
    apply NoDup_app; [assumption | repeat constructor; simpl; tauto |].
    intros x Hx [<-|[]]. contradiction.
Qed.

Lemma dict_set_new (k : string) (v : pyval) (d : dict) :
  ~ In k (dict_keys d) -> dict_set k v d = d ++ [(k, v)].
Proof.
  induction d as [|[k' v'] d IH]; simpl; intros H; [reflexivity|].
  destruct (String.eqb_spec k k') as [->|Hne]; [tauto|].
  rewrite IH by tauto. reflexivity.
Qed.

Lemma errors_distinct_set_required key v : preserves errors_distinct (set_required key v).
Proof. intros st H; exact H. Qed.

Lemma errors_distinct_set_optional key v : preserves errors_distinct (set_optional key v).
Proof. intros st H; exact H. Qed.

Lemma errors_distinct_set_date_error key v :
  preserves errors_distinct (set_date_error key v).
Proof. intros st H; exact H. Qed.

Lemma errors_distinct_set_error key v : preserves errors_distinct (set_error key v).
Proof. intros st H. unfold errors_distinct in *. simpl. now apply dict_set_NoDup. Qed.

Lemma errors_distinct_optional_append key item :
  preserves errors_distinct (optional_append key item).
Proof.
  intros st H. unfold optional_append.
  destruct (dict_get key (optional st)) as [[]|]; exact H.
Qed.

Ltac distinct :=
  unfold_blocks;
  repeat first
    [ apply preserves_ret
    | apply preserves_lift
    | apply preserves_bind; [| intros ?]
    | apply preserves_try_except; [| intros ?]
    | apply preserves_for_each; intros ?
    | apply errors_distinct_set_required
    | apply errors_distinct_set_optional
    | apply errors_distinct_set_error
    | apply errors_distinct_set_date_error
    | apply errors_distinct_optional_append
    | match goal with
      | |- preserves _ (match ?x with _ => _ end) => destruct x
      end ].

Lemma base_fields_errors_distinct env pkg_dict :
  preserves errors_distinct (base_fields env pkg_dict).
Proof. unfold base_fields. distinct. Qed.

Lemma py_get_app_other (d : dict) (k k0 : string) (v : pyval) :
  k <> k0 -> py_get (d ++ [(k0, v)]) k = py_get d k.
Proof.
  intros H. unfold py_get.
  induction d as [|[k' v'] d IH]; simpl.
  - apply String.eqb_neq in H. now rewrite H.
  - destruct (String.eqb k k'); auto.
Qed.

(** Enforcement appends: the entries it adds come last, in the order of
    the required keys. *)
Lemma enforce_required_appends keys metadata_dict errs :
  NoDup keys ->
  (forall k, In k (dict_keys errs) -> py_get errs k <> VNone) ->
  fold_left
    (fun errs k =>
       if is_none (py_get metadata_dict k) && is_none (py_get errs k)
       then dict_set k required_cannot_be_None errs
       else errs) keys errs
  = errs
    ++ map (fun k => (k, required_cannot_be_None))
         (filter (fun k => is_none (py_get metadata_dict k) && is_none (py_get errs k))
            keys).
Proof.
  revert errs. induction keys as [|k0 keys IH]; intros errs Hnd Hval;
    cbn [fold_left filter map].
  - now rewrite app_nil_r.
  - inversion Hnd as [|? ? Hk0 Hnd']; subst.
    assert (Hfilter : forall v,
              filter (fun k => is_none (py_get metadata_dict k)
                               && is_none (py_get (errs ++ [(k0, v)]) k)) keys
              = filter (fun k => is_none (py_get metadata_dict k)
                                 && is_none (py_get errs k)) keys).
    { intros v. apply filter_ext_in. intros k Hin.
      assert (k <> k0) by (intros ->; contradiction).
      now rewrite py_get_app_other. }
    destruct (is_none (py_get metadata_dict k0)) eqn:Hm; cbn [andb].
    + destruct (is_none (py_get errs k0)) eqn:He.
      * apply is_none_true in He.
        assert (Hnot : ~ In k0 (dict_keys errs)).
        { intros Hin. now apply (Hval k0 Hin). }
        rewrite (dict_set_new k0 _ errs Hnot).
        rewrite IH; [| assumption |].
        -- rewrite Hfilter. cbn [map]. now rewrite <- app_assoc.
        -- intros k Hin. unfold dict_keys in Hin. rewrite map_app in Hin.
           apply in_app_or in Hin as [Hin|[<-|[]]].
           ++ rewrite <- (dict_set_new k0 required_cannot_be_None errs Hnot).
              rewrite py_get_set.
              destruct (String.eqb k k0); [discriminate|]. now apply Hval.
           ++ rewrite <- (dict_set_new k0 required_cannot_be_None errs Hnot).
              rewrite py_get_set, String.eqb_refl. discriminate.
      * now apply IH.
    + now apply IH.
Qed.

Lemma errors_in_single (d : dict) (errs : dict) (c : string) :
  NoDup (dict_keys errs) ->
  (forall k, In k (dict_keys errs) -> dict_mem k d = true -> k = c) ->
  dict_mem c d = true ->
  errors_in d errs = match dict_get c errs with Some e => [(c, e)] | None => [] end.
Proof.
  intros Hnd Honly Hc. unfold errors_in.
  induction errs as [|[k v] errs IH]; [reflexivity|].
  inversion Hnd as [|? ? Hk Hnd']; subst.
  assert (IH' := IH Hnd' (fun k' Hin => Honly k' (or_intror Hin))). clear IH.
  cbn [filter fst dict_get].
  destruct (dict_mem k d) eqn:Hkd.
  - assert (k = c) as -> by (apply Honly; simpl; auto).
    rewrite String.eqb_refl, IH'.
    apply dict_get_None_notin in Hk. now rewrite Hk.
  - destruct (String.eqb_spec c k) as [->|Hne]; [congruence|].
    exact IH'.
Qed.

(** The entries of [required_errors] after a base extraction that
    completed, when no plugin changed its record and its error map. *)
Lemma base_failed_entries env pkg_dict st metadata_dict errs :
  base_extract env pkg_dict = Ok (st, metadata_dict, errs) ->
  errors_in (required st) (enforce_required (required st) metadata_dict errs)
  = failed_entries env pkg_dict.
Proof.
  intros H.
  destruct (base_extract_maps env pkg_dict st metadata_dict errs H) as [Hval Herr].
  pose proof (base_extract_Ok env pkg_dict st metadata_dict errs H)
    as (Hrun & _ & -> & [Hr Ho]).
  assert (Hnd : NoDup (dict_keys (errors st))).
  { pose proof (base_fields_errors_distinct env pkg_dict init_state) as Hd.
    rewrite Hrun in Hd. apply Hd. constructor. }
  assert (Hnone : forall k, In k (dict_keys (errors st)) -> py_get (errors st) k <> VNone).
  { intros k Hin. unfold py_get. rewrite Herr.
    apply dict_mem_In in Hin. unfold dict_mem in Hin. rewrite Herr in Hin.
    unfold field_failure in *.
    repeat match goal with
           | |- context [String.eqb k ?s] => destruct (String.eqb k s)
           | |- context [failure_of ?r] => destruct r; cbn [failure_of] in *
           end; try discriminate. }
  assert (Hmem : forall k, dict_mem k (required st) = existsb (String.eqb k) required_names).
  { intros k. rewrite <- existsb_dict_mem, Hr. reflexivity. }
  unfold enforce_required. rewrite Hr.
  rewrite enforce_required_appends;
    [| repeat constructor; simpl; intuition discriminate | exact Hnone].
  unfold errors_in. rewrite filter_app.
  fold (errors_in (required st) (errors st)).
  rewrite (errors_in_single (required st) (errors st) "creators" Hnd).
  - unfold failed_entries. f_equal.
    + rewrite Herr. unfold field_failure.
      cbn [String.eqb Ascii.eqb Bool.eqb].
      now destruct (author_list env pkg_dict creator_entry).
    + assert (Hpy : forall key v,
                field_value env pkg_dict key = Some v -> py_get metadata_dict key = v).
      { intros key v Hv. apply py_get_of_get. now rewrite Hval. }
      assert (Hperr : forall key,
                field_failure env pkg_dict key = None -> py_get (errors st) key = VNone).
      { intros key Hf. unfold py_get. now rewrite Herr, Hf. }
      cbn [dict_keys init_required map fst filter].
      rewrite (Hpy "creators" _ eq_refl), (Hpy "titles" _ eq_refl),
        (Hpy "publisher" _ eq_refl), (Hpy "publicationYear" _ eq_refl),
        (Hpy "resourceType" _ eq_refl).
      rewrite (Hperr "publisher" eq_refl), (Hperr "resourceType" eq_refl).
      assert (Hc : is_none (value_or (author_list env pkg_dict creator_entry) (VList []))
                   = false).
      { unfold author_list.
        destruct (literal_eval env (py_get pkg_dict "author")) as [a|];
          [|reflexivity].
        cbn [rbind]. destruct a; try reflexivity.
        now destruct (mapM creator_entry l). }
      assert (Hy : is_none (expected_year env pkg_dict) = false).
      { unfold expected_year.
        destruct (py_get pkg_dict "doi_date_published"); try reflexivity.
        now destruct (isdecimal (text_prefix 4 s)). }
      rewrite Hc, Hy. cbn [is_none andb].
      rewrite !andb_true_r.
      destruct (is_none (py_get (config env) "ckanext.doi.publisher")),
               (is_none (py_get pkg_dict "type"));
        cbn [map filter fst andb app]; rewrite ?Hmem; reflexivity.
  - intros k Hin Hreq. rewrite Hmem in Hreq.
    apply dict_mem_In in Hin. unfold dict_mem in Hin. rewrite Herr in Hin.
    destruct (field_failure env pkg_dict k) as [e|] eqn:E; [|discriminate].
    apply field_failure_keys in E. simpl in E.
    intuition (subst; try discriminate; reflexivity).
  - rewrite Hmem. reflexivity.
Qed.

(** X16.  What [build_metadata_dict] logs and returns with no plugin
    registered, after a base extraction that completed.  Three things can
    fail the run: creators (their derivation raised), publisher (the
    configured publisher is [None] or not set) and resourceType (the
    record's [type] is [None] or missing).  With none of them the record
    is returned and nothing is logged, whatever failed among the optional
    fields and even without a title or a publication date.  Otherwise
    [DOIMetadataException] is raised; its message lists the failed keys in
    that order, separated by [', '], and the log holds that message and
    then one line per failed key with its cause: the exception of the
    derivation for creators, ['Required field cannot be None'] for the
    other two. *)
Theorem outcome_without_plugins env pkg_dict st metadata_dict errs :
  plugins env = [] ->
  base_extract env pkg_dict = Ok (st, metadata_dict, errs) ->
  build_metadata_dict env pkg_dict
  = match
      (match author_list env pkg_dict creator_entry with
       | Ok _ => []
       | Raise k msg => [ ("creators", VExc k msg) ]
       end)
      ++ (if is_none (py_get (config env) "ckanext.doi.publisher")
          then [ ("publisher",
                   VExc DOIMetadataException "Required field cannot be None") ]
          else [])
      ++ (if is_none (py_get pkg_dict "type")
          then [ ("resourceType",
                   VExc DOIMetadataException "Required field cannot be None") ]
          else [])
    with
    | [] => ([], Ok metadata_dict)
    | failed =>
        let error_msg :=
          ("Could not extract metadata for the following required keys: "
           ++ join ", " (dict_keys failed))%string in
        (LogException error_msg
           :: map (fun ke =>
                     LogException (fst ke ++ ": " ++ py_str env (snd ke))%string)
                failed,
         Raise DOIMetadataException error_msg)
    end.
Proof.
  intros Hp Hb.
  rewrite (build_without_plugins env pkg_dict st metadata_dict errs Hp Hb).
  unfold enforce_and_report.
  rewrite (base_failed_entries env pkg_dict st metadata_dict errs Hb).
  fold required_cannot_be_None. fold (failed_entries env pkg_dict).
  destruct (failed_entries env pkg_dict) as [|ke rest]; reflexivity.
Qed.

Lemma outcome_without_plugins_witness :
  build_metadata_dict MoreCases.no_publisher (Sample.pkg_with "type" VNone)
  = ([ LogException
         "Could not extract metadata for the following required keys: publisher, resourceType";
       LogException "publisher: Required field cannot be None";
       LogException "resourceType: Required field cannot be None" ],
     Raise DOIMetadataException
       "Could not extract metadata for the following required keys: publisher, resourceType").
Proof.
  eassert (Hbase : base_extract MoreCases.no_publisher (Sample.pkg_with "type" VNone)
                   = Ok (_, _, _)) by (vm_compute; reflexivity).
  rewrite (outcome_without_plugins MoreCases.no_publisher
             (Sample.pkg_with "type" VNone) _ _ _ eq_refl Hbase).
  vm_compute. reflexivity.
Defined.
